(** * Verification model of the tp_cli core (classification, zones, DSL, reports)

    Shallow embedding of [tp_cli/core/classify.py], [tp_cli/core/analysis.py],
    [tp_cli/core/upload.py] and [tp_cli/utils/parsing.py].

    Conventions of the model:
    - Python floats are modelled as exact rationals [Q] (no rounding error);
      the float values [inf] and [nan] that [float()] can produce from text
      are kept as separate cases of [pyfloat].
    - Python [str] values are [string]s over ASCII; [str.lower] and
      [str.strip] are their ASCII versions.
    - Dicts decoded from JSON are records whose fields are [option]s: [None]
      is a missing key; the type of each field is the one the data model gives.
    - Raised exceptions are the [Err] case of [result]. *)

From Stdlib Require Import ZArith QArith Qround String Ascii List Bool Lia Lqa.
Import ListNotations.
Open Scope string_scope.
Set Warnings "-register-all".

(* ------------------------------------------------------------------ *)
(** ** Exceptions and the error monad *)

Inductive exn :=
| ValueError
| OverflowError
| TypeError
| KeyError
| AttributeError
| IndexError
| ParseError.

Inductive result (A : Type) :=
| Ok (a : A)
| Err (e : exn).
Arguments Ok {A} a.
Arguments Err {A} e.

Definition bind {A B} (m : result A) (k : A -> result B) : result B :=
  match m with Ok a => k a | Err e => Err e end.

Notation "x <- m ;; k" := (bind m (fun x => k))
  (at level 61, m at next level, right associativity).

(* ------------------------------------------------------------------ *)
(** ** ASCII string helpers ([str.lower], [str.strip], [in], ...) *)

Definition lower_ascii (c : ascii) : ascii :=
  let n := nat_of_ascii c in
  if (65 <=? n)%nat && (n <=? 90)%nat then ascii_of_nat (n + 32) else c.

Fixpoint str_lower (s : string) : string :=
  match s with
  | EmptyString => EmptyString
  | String c r => String (lower_ascii c) (str_lower r)
  end.

(** [str.isspace] on ASCII: \t \n \v \f \r, \x1c-\x1f and space. *)
Definition is_space (c : ascii) : bool :=
  let n := nat_of_ascii c in
  ((9 <=? n)%nat && (n <=? 13)%nat) || ((28 <=? n)%nat && (n <=? 32)%nat).

Fixpoint lstrip (s : string) : string :=
  match s with
  | EmptyString => EmptyString
  | String c r => if is_space c then lstrip r else s
  end.

Definition str_rev (s : string) : string :=
  string_of_list_ascii (rev (list_ascii_of_string s)).

Definition str_strip (s : string) : string :=
  str_rev (lstrip (str_rev (lstrip s))).

Fixpoint str_prefix (p s : string) : bool :=
  match p, s with
  | EmptyString, _ => true
  | String a p', String b s' => Ascii.eqb a b && str_prefix p' s'
  | String _ _, EmptyString => false
  end.

(** [p in s]: substring test. *)
Fixpoint str_contains (p s : string) : bool :=
  str_prefix p s ||
  match s with
  | EmptyString => false
  | String _ s' => str_contains p s'
  end.

Definition str_endswith (suffix s : string) : bool :=
  str_prefix (str_rev suffix) (str_rev s).

(** [s[:-k]] *)
Definition str_drop_last (k : nat) (s : string) : string :=
  substring 0 (String.length s - k) s.

(** [s.split(sep)] for a one-character separator. *)
Fixpoint str_split (sep : ascii) (s : string) : list string :=
  match s with
  | EmptyString => [EmptyString]
  | String c r =>
      match str_split sep r with
      | [] => [] (* unreachable *)
      | w :: ws => if Ascii.eqb c sep then EmptyString :: w :: ws
                   else String c w :: ws
      end
  end.

Definition str_in (s : string) (l : list string) : bool :=
  existsb (String.eqb s) l.

(** [str(x or default)] for an optional string field. *)
Definition str_or (x : option string) (default : string) : string :=
  match x with
  | Some s => if String.eqb s "" then default else s
  | None => default
  end.

(** [str(d.get(key, default))] for an optional string field. *)
Definition str_or' (x : option string) (default : string) : string :=
  match x with Some s => s | None => default end.

(** [float(x or 0)] for an optional number field. *)
Definition num_or0 (x : option Q) : Q :=
  match x with Some q => q | None => 0 end.

(** [a < b] on rationals. *)
Definition Qlt_bool (a b : Q) : bool := negb (Qle_bool b a).

(** Python's [int()] on a float: truncation toward zero. *)
Definition q_trunc (q : Q) : Z := Z.quot (Qnum q) (Zpos (Qden q)).

(* ------------------------------------------------------------------ *)
(** ** Zone thresholds and [classify_zone] (classify.py) *)

Record thresholds := {
  easy_max : Q;
  lt1_max : Q;
  lt2_max : Q
}.

Definition DEFAULT_ZONE_THRESHOLDS : thresholds :=
  {| easy_max := 75; lt1_max := 93; lt2_max := 100 |}.

Definition _EASY_CLASSES : list string := ["warmup"; "cooldown"; "rest"; "recovery"].

Definition classify_zone (pct : Q) (block_type intensity_class : string)
  (th : thresholds) : string :=
  let block_type_norm := str_lower (str_strip block_type) in
  if String.eqb block_type_norm "rampup" then "easy"
  else if str_in (str_lower (str_strip intensity_class)) _EASY_CLASSES then "easy"
  else if Qle_bool pct (easy_max th) then "easy"
  else if Qle_bool pct (lt1_max th) then "lt1"
  else if Qle_bool pct (lt2_max th) then "lt2"
  else "vo2".

(** Rank of a zone label in the order easy < lt1 < lt2 < vo2. *)
Definition zone_rank (z : string) : nat :=
  if String.eqb z "easy" then 0
  else if String.eqb z "lt1" then 1
  else if String.eqb z "lt2" then 2
  else 3.

(* ------------------------------------------------------------------ *)
(** ** [classify_week] (analysis.py) *)

Definition classify_week (total_distance : Q) (total_sessions : Z) (has_race : bool)
  (delta_pct : option Q) : string :=
  if has_race then "race"
  else if (total_sessions <=? 2)%Z && negb (Qle_bool 20000 total_distance) then "off"
  else match delta_pct with
       | None => "start"
       | Some d =>
           if negb (Qle_bool (-25) d) then "recovery"
           else if negb (Qle_bool d 15) then "build"
           else "maintenance"
       end.

(* ------------------------------------------------------------------ *)
(** ** Structured workout data (Length, Target, Step/Block dicts) *)

(** A [Length] dict: [{value, unit}]. *)
Record length := mkLength {
  l_value : option Q;
  l_unit : option string
}.

(** A [Target] dict: [{minValue, maxValue, value}]. *)
Record target := mkTarget {
  minValue : option Q;
  maxValue : option Q;
  t_value : option Q
}.

(** A Block or Step dict.  Blocks carry [type] and [steps]; steps carry
    [targets], [intensityClass] and [name]; both carry [length]. *)
Inductive node := mkNode {
  n_type : option string;
  n_length : option length;
  n_steps : option (list node);
  n_targets : option (list target);
  n_intensityClass : option string;
  n_name : option string
}.

(** A structure payload as found in a workout field, or as returned by
    [json.loads]: JSON text, a dict, a list of dicts, [null], or another
    scalar (number, boolean). *)
Inductive payload :=
| PText (s : string)
| PObj (metric : option string) (structure : option (list node))
       (steps : option (list node)) (other_keys : bool)
| PArr (l : list node)
| PNull
| PScalar (truthy : bool).

(** The workout record fields read by the core. *)
Record workout := mkWorkout {
  w_title : option string;
  w_description : option string;
  w_coachComments : option string;
  w_userTags : option string;
  w_primaryIntensityMetric : option string;
  w_structuredSteps : option payload;
  w_structuredWorkout : option payload;
  w_structure : option payload;
  w_distance : option Q
}.

(** A four-zone map [{"easy", "lt1", "lt2", "vo2"}]. *)
Record zones (A : Type) := mkZones {
  z_easy : A;
  z_lt1 : A;
  z_lt2 : A;
  z_vo2 : A
}.
Arguments mkZones {A} _ _ _ _.
Arguments z_easy {A} _.
Arguments z_lt1 {A} _.
Arguments z_lt2 {A} _.
Arguments z_vo2 {A} _.

(** [m[z]] *)
Definition zget {A} (z : string) (m : zones A) : A :=
  if String.eqb z "easy" then z_easy m
  else if String.eqb z "lt1" then z_lt1 m
  else if String.eqb z "lt2" then z_lt2 m
  else z_vo2 m.

(** [m[z] = f(m[z])] for a key [z] of the map. *)
Definition zupd {A} (f : A -> A) (z : string) (m : zones A) : zones A :=
  if String.eqb z "easy" then mkZones (f (z_easy m)) (z_lt1 m) (z_lt2 m) (z_vo2 m)
  else if String.eqb z "lt1" then mkZones (z_easy m) (f (z_lt1 m)) (z_lt2 m) (z_vo2 m)
  else if String.eqb z "lt2" then mkZones (z_easy m) (z_lt1 m) (f (z_lt2 m)) (z_vo2 m)
  else mkZones (z_easy m) (z_lt1 m) (z_lt2 m) (f (z_vo2 m)).

Definition qzero_zones : zones Q := mkZones 0 0 0 0.

(* ------------------------------------------------------------------ *)
(** ** Keyword signal (classify.py) *)

Definition _PRIORITY_KEYWORD_TYPES : list string :=
  ["race"; "test"; "strength"; "long"; "sprint"].

Definition _normalized_text (w : workout) : string :=
  str_lower (str_or (w_title w) "" ++ " " ++ str_or (w_description w) "" ++ " "
             ++ str_or (w_coachComments w) "" ++ " " ++ str_or (w_userTags w) "").

Fixpoint first_matching_rule (text : string) (rules : list (string * list string))
  : string :=
  match rules with
  | [] => "other"
  | (workout_type, keywords) :: rest =>
      if existsb (fun keyword => str_contains keyword text) keywords then workout_type
      else first_matching_rule text rest
  end.

Definition _classify_by_keywords (w : workout) (rules : list (string * list string))
  : string :=
  first_matching_rule (_normalized_text w) rules.

Definition TYPE_RULES : list (string * list string) := [
  ("race", ["race"; "competition"; "event"; "marathon"; "triathlon"; "70.3"]);
  ("test", ["test"; "ftp test"; "time trial"; "benchmark"; "ramp test"]);
  ("vo2", ["vo2"; "vo2max"; "zone 5"; "z5"]);
  ("sprint", ["sprint"; "anaerobic"; "zone 6"; "z6"; "neuromuscular"; "20/40"]);
  ("lt2", ["lt2"; "lactate threshold"; "threshold"; "zone 4"; "z4"; "ftp";
           "over under"; "sweetspot"; "sst"]);
  ("lt1", ["lt1"; "aerobic threshold"; "tempo"; "zone 3"; "z3"; "sweet spot"]);
  ("long", ["long run"; "long ride"; "long swim"; "endurance long"; "weekend long"]);
  ("strength", ["strength"; "gym"; "weights"; "dryland"; "core"]);
  ("easy", ["easy"; "recovery"; "endurance"; "zone 1"; "zone 2"; "z1"; "z2";
            "base z2"; "warm down"; "spin"; "technique"])
].

(* ------------------------------------------------------------------ *)
(** ** Structural signal (classify.py) *)

Section Structural.

(** [json.loads]: [None] when it raises. *)
Variable json_loads : string -> option payload.

Definition _parse_structure_value (raw : option payload) : option payload :=
  match raw with
  | None => None
  | Some (PText s) =>
      match json_loads s with
      | Some PNull => None
      | r => r
      end
  | Some PNull => None
  | Some p => Some p
  end.

Definition step_block (steps : list node) : node :=
  {| n_type := Some "step";
     n_length := Some {| l_value := Some 1; l_unit := Some "repetition" |};
     n_steps := Some steps; n_targets := None; n_intensityClass := None;
     n_name := None |}.

Definition _normalize_blocks (raw_blocks : list node) : list node :=
  match raw_blocks with
  | [] => []
  | _ =>
      if forallb (fun b => match n_steps b with None => true | Some _ => false end)
           raw_blocks
      then [step_block raw_blocks]
      else raw_blocks
  end.

(** [parsed.get("structure") or parsed.get("steps")] *)
Definition list_or (a b : option (list node)) : list node :=
  match a with
  | Some (_ :: _ as l) => l
  | _ => match b with Some l => l | None => [] end
  end.

Fixpoint extract_loop (fields : list (option payload)) (metric : string)
  : list node * string :=
  match fields with
  | [] => ([], metric)
  | raw :: rest =>
      match _parse_structure_value raw with
      | None => extract_loop rest metric
      | Some (PObj m st sp _) =>
          let metric' := str_or m metric in
          match _normalize_blocks (list_or st sp) with
          | [] => extract_loop rest metric'
          | normalized => (normalized, metric')
          end
      | Some (PArr l) =>
          match _normalize_blocks l with
          | [] => extract_loop rest metric
          | normalized => (normalized, metric)
          end
      | Some _ => extract_loop rest metric
      end
  end.

Definition _extract_structure (w : workout) : list node * string :=
  extract_loop [w_structuredSteps w; w_structuredWorkout w; w_structure w]
    (str_or (w_primaryIntensityMetric w) "").

End Structural.

Definition _as_percent (value : option Q) : Q :=
  match value with
  | None => 0
  | Some pct =>
      if Qle_bool pct 0 then 0
      else if Qle_bool pct 2 then pct * 100 else pct
  end.

Definition _step_intensity_pct (step : node) : Q :=
  match n_targets step with
  | None | Some [] => 0
  | Some (target :: _) =>
      let min_pct := _as_percent (minValue target) in
      let max_pct := _as_percent (maxValue target) in
      if Qlt_bool 0 min_pct && Qlt_bool 0 max_pct then (min_pct + max_pct) / 2
      else if Qlt_bool 0 min_pct then min_pct
      else if Qlt_bool 0 max_pct then max_pct
      else _as_percent (t_value target)
  end.

Definition _length_to_seconds (len : option length) : Q :=
  let unit := match len with Some l => str_lower (str_or (l_unit l) "") | None => "" end in
  let value := match len with Some l => num_or0 (l_value l) | None => 0 end in
  if Qle_bool value 0 then 0
  else if String.eqb unit "second" then value
  else if String.eqb unit "minute" then value * 60
  else if String.eqb unit "hour" then value * 3600
  else if String.eqb unit "meter" then value / 4
  else if String.eqb unit "kilometer" then value * 250
  else 0.

(** The loop state of [_classify_from_structure]. *)
Record cstate := mkCstate {
  zone_loads : zones Q;
  zone_counts : zones Z;
  has_intensity_targets : bool;
  max_pct : Q
}.

Definition cstate0 : cstate :=
  mkCstate qzero_zones (mkZones 0%Z 0%Z 0%Z 0%Z) false 0.

Definition Qmax (a b : Q) : Q := if Qlt_bool a b then b else a.

(** The load credited to one step ([load] in the loop body). *)
Definition step_load (secs : Q) (rep_count : Z) (pct : Q) : Q :=
  let load := secs * inject_Z (Z.max rep_count 1) in
  if Qle_bool load 0 && Qlt_bool 0 pct then 30 else load.

(** One step of the inner loop of [_classify_from_structure]. *)
Definition classify_step (block_type : string) (rep_count : Z) (st : cstate)
  (step : node) : cstate :=
  let pct := _step_intensity_pct step in
  let has' := has_intensity_targets st || Qlt_bool 0 pct in
  let max' := if Qlt_bool 0 pct then Qmax (max_pct st) pct else max_pct st in
  let zone := classify_zone pct block_type (str_or (n_intensityClass step) "active")
                DEFAULT_ZONE_THRESHOLDS in
  let load := step_load (_length_to_seconds (n_length step)) rep_count pct in
  mkCstate (zupd (fun v => v + load) zone (zone_loads st))
           (if Qlt_bool 0 pct then zupd Z.succ zone (zone_counts st) else zone_counts st)
           has' max'.

(** [rep_count] of a block in [_classify_from_structure]. *)
Definition block_rep_count (block : node) (block_type : string) : Z :=
  if String.eqb (str_lower (str_strip block_type)) "repetition" then
    match n_length block with
    | Some l => match l_value l with
                | Some v => if Qeq_bool v 0 then 1%Z else q_trunc v
                | None => 1%Z
                end
    | None => 1%Z
    end
  else 1%Z.

Definition classify_block (st : cstate) (block : node) : cstate :=
  let block_type := str_or (n_type block) "step" in
  let rep_count := block_rep_count block block_type in
  let steps := match n_steps block with Some l => l | None => [] end in
  fold_left (classify_step block_type rep_count) steps st.

Definition structure_decision (st : cstate) : option string :=
  if negb (has_intensity_targets st) then None
  else
    let vo2_load := z_vo2 (zone_loads st) in
    let hard_load := z_lt2 (zone_loads st) + vo2_load in
    let lt1_load := z_lt1 (zone_loads st) in
    let c := zone_counts st in
    if Qle_bool 180 vo2_load || ((2 <=? z_vo2 c)%Z && Qlt_bool 105 (max_pct st))
    then Some "vo2"
    else if Qle_bool 180 hard_load || (2 <=? z_lt2 c + z_vo2 c)%Z then Some "lt2"
    else if Qle_bool 300 lt1_load || (2 <=? z_lt1 c)%Z then Some "lt1"
    else Some "easy".

Definition _classify_from_structure (json_loads : string -> option payload)
  (w : workout) : option string :=
  match fst (_extract_structure json_loads w) with
  | [] => None
  | blocks => structure_decision (fold_left classify_block blocks cstate0)
  end.

(** Returns [(label, source)]. *)
Definition _classify_with_source (json_loads : string -> option payload)
  (w : workout) (rules : list (string * list string)) : string * string :=
  let keyword_label := _classify_by_keywords w rules in
  if str_in keyword_label _PRIORITY_KEYWORD_TYPES then (keyword_label, "keyword")
  else match _classify_from_structure json_loads w with
       | Some structure_label =>
           if String.eqb structure_label "" then (keyword_label, "keyword")
           else (structure_label, "structure")
       | None => (keyword_label, "keyword")
       end.

Definition classify_workout (json_loads : string -> option payload) (w : workout)
  (rules : list (string * list string)) : string :=
  fst (_classify_with_source json_loads w rules).

(* ------------------------------------------------------------------ *)
(** ** Zone-distance decomposition (analysis.py) *)

(** Truthiness of a structure payload ([not structure]). *)
Definition payload_truthy (p : payload) : bool :=
  match p with
  | PText s => negb (String.eqb s "")
  | PObj None None None false => false
  | PObj _ _ _ _ => true
  | PArr l => match l with [] => false | _ => true end
  | PNull => false
  | PScalar b => b
  end.

Definition easy_only (distance : Q) : zones Q := mkZones distance 0 0 0.

Definition PERCENT_METRICS : list string :=
  ["percentOfThresholdPace"; "percentOfFtp"; "percentOfThresholdHr"].

(** Returns [(raw_distance, pct)]. *)
Definition _step_distance_raw (step : node) (threshold_speed : Q) : Q * Q :=
  let unit := match n_length step with Some l => l_unit l | None => None end in
  let value := match n_length step with Some l => num_or0 (l_value l) | None => 0 end in
  let target := match n_targets step with
                | None => mkTarget None None None
                | Some [] => mkTarget None None None
                | Some (t :: _) => t
                end in
  let min_value := num_or0 (minValue target) in
  let max_value := match maxValue target with
                   | Some q => if Qeq_bool q 0 then min_value else q
                   | None => min_value
                   end in
  let pct := if Qlt_bool min_value max_value then (min_value + max_value) / 2
             else min_value in
  match unit with
  | Some "meter" => (value, pct)
  | Some "second" =>
      let speed := if Qlt_bool 0 pct then threshold_speed * (pct / 100)
                   else threshold_speed * (7 # 10) in
      (value * speed, pct)
  | _ => (0, pct)
  end.

(** The [for block ... for step ...] accumulation of [parse_workout_zones]. *)
Definition zones_step (threshold_speed : Q) (th : thresholds) (block_type : string)
  (rep_count : Z) (zs : zones Q) (step : node) : zones Q :=
  let (raw_distance, pct) := _step_distance_raw step threshold_speed in
  let zone := classify_zone pct block_type (str_or' (n_intensityClass step) "active") th in
  zupd (fun v => v + raw_distance * inject_Z rep_count) zone zs.

Definition zones_block (threshold_speed : Q) (th : thresholds) (zs : zones Q)
  (block : node) : zones Q :=
  let block_type := match n_type block with Some s => s | None => "step" end in
  let rep_count :=
    if String.eqb block_type "repetition" then
      match n_length block with
      | Some l => match l_value l with Some v => q_trunc v | None => 1%Z end
      | None => 1%Z
      end
    else 1%Z in
  let steps := match n_steps block with Some l => l | None => [] end in
  fold_left (zones_step threshold_speed th block_type rep_count) steps zs.

Definition raw_zones (threshold_speed : Q) (th : thresholds) (blocks : list node)
  : zones Q :=
  fold_left (zones_block threshold_speed th) blocks qzero_zones.

Definition zones_sum (zs : zones Q) : Q := z_easy zs + z_lt1 zs + z_lt2 zs + z_vo2 zs.

Definition zones_scale (scale : Q) (zs : zones Q) : zones Q :=
  mkZones (z_easy zs * scale) (z_lt1 zs * scale) (z_lt2 zs * scale) (z_vo2 zs * scale).

(** The part of [parse_workout_zones] after the structure has been decoded. *)
Definition zones_of_structure (w : workout) (threshold_speed : Q) (th : thresholds)
  (structure : payload) : result (zones Q * Q) :=
  match structure with
  | PObj metric st _ _ =>
      let metric := match metric with Some m => m | None => "" end in
      if negb (str_in metric PERCENT_METRICS) then
        let distance := num_or0 (w_distance w) in Ok (easy_only distance, distance)
      else
        let zs := raw_zones threshold_speed th (match st with Some l => l | None => [] end) in
        let raw_total := zones_sum zs in
        let actual_distance := num_or0 (w_distance w) in
        if Qlt_bool 0 raw_total && Qlt_bool 0 actual_distance then
          let scale := actual_distance / raw_total in
          Ok (zones_scale scale zs, actual_distance)
        else if Qlt_bool 0 actual_distance && Qeq_bool raw_total 0 then
          Ok (easy_only actual_distance, actual_distance)
        else Ok (zs, raw_total)
  | _ => Err AttributeError (* [structure.get] on a non-dict *)
  end.

Definition parse_workout_zones (json_loads : string -> option payload) (w : workout)
  (threshold_speed : Q) (th : thresholds) : result (zones Q * Q) :=
  let distance := num_or0 (w_distance w) in
  match w_structure w with
  | None => Ok (easy_only distance, distance)
  | Some structure =>
      if negb (payload_truthy structure) then Ok (easy_only distance, distance)
      else match structure with
           | PText s =>
               match json_loads s with
               | None => Ok (easy_only distance, distance)
               | Some PNull => Err AttributeError
               | Some p => zones_of_structure w threshold_speed th p
               end
           | p => zones_of_structure w threshold_speed th p
           end
  end.

(** The workout's [structure] field holds, or decodes ([json.loads]) to, [p]. *)
Definition decodes_to (json_loads : string -> option payload) (w : workout)
  (p : payload) : Prop :=
  w_structure w = Some p \/
  exists s, w_structure w = Some (PText s) /\ s <> "" /\ json_loads s = Some p.

(** [json.loads(s)] raises. *)
Definition json_loads_fails (json_loads : string -> option payload) (s : string) : Prop :=
  json_loads s = None.

Definition sample_zone_blocks : list node :=
  [ {| n_type := Some "step"; n_length := None; n_intensityClass := None;
       n_targets := None; n_name := None;
       n_steps := Some [
         {| n_type := None; n_steps := None; n_intensityClass := Some "active";
            n_name := None;
            n_length := Some {| l_value := Some 600; l_unit := Some "second" |};
            n_targets := Some [ {| minValue := Some 80; maxValue := None;
                                   t_value := None |} ] |};
         {| n_type := None; n_steps := None; n_intensityClass := Some "active";
            n_name := None;
            n_length := Some {| l_value := Some 2000; l_unit := Some "meter" |};
            n_targets := Some [ {| minValue := Some 60; maxValue := Some 70;
                                   t_value := None |} ] |} ] |} ].

Definition sample_zone_workout : workout :=
  {| w_title := None; w_description := None; w_coachComments := None;
     w_userTags := None; w_primaryIntensityMetric := None;
     w_structuredSteps := None; w_structuredWorkout := None;
     w_structure := Some (PObj (Some "percentOfThresholdPace")
                               (Some sample_zone_blocks) None false);
     w_distance := Some 10000 |}.

(* ------------------------------------------------------------------ *)
(** ** Injury-risk factors of [analyze_patterns] (analysis.py) *)

(** One row of the [weekly] hard-session table. *)
Record weekload := mkWeekload {
  run_lt2 : Z;
  bike_lt2 : Z;
  run_vo2 : Z;
  total_hard : Z
}.

Definition weekload0 : weekload := mkWeekload 0 0 0 0.

Record risk_factor := mkRiskFactor {
  rf_type : string;
  rf_week : string;
  rf_increase_pct : Q;
  rf_severity : string;
  rf_recommendation : string
}.

(** [sorted()] on strings: insertion sort by code-point order. *)
Fixpoint insert_str (k : string) (l : list string) : list string :=
  match l with
  | [] => [k]
  | x :: r => match String.compare k x with
              | Gt => x :: insert_str k r
              | _ => k :: l
              end
  end.

Definition sort_strs (l : list string) : list string := fold_right insert_str [] l.

(** [weekly[key]] *)
Fixpoint weekly_get (weekly : list (string * weekload)) (key : string) : weekload :=
  match weekly with
  | [] => weekload0 (* the lookups below only use keys of the table *)
  | (k, v) :: r => if String.eqb k key then v else weekly_get r key
  end.

(** [round(x, 1)]: round half to even at one decimal. *)
Definition round1 (x : Q) : Q :=
  let y := x * 10 in
  let f := Qfloor y in
  let frac := y - inject_Z f in
  let r := if Qlt_bool frac (1 # 2) then f
           else if Qlt_bool (1 # 2) frac then (f + 1)%Z
           else if Z.even f then f else (f + 1)%Z in
  inject_Z r / 10.

Definition increase_of (prev_val curr_val : Z) : Q :=
  inject_Z (curr_val - prev_val) / inject_Z prev_val * 100.

Definition spike_factor (curr_key : string) (increase : Q) : risk_factor :=
  {| rf_type := "hard_session_spike";
     rf_week := curr_key;
     rf_increase_pct := round1 increase;
     rf_severity := if Qle_bool 60 increase then "high" else "medium";
     rf_recommendation := "Consider a recovery week or reducing intensity density" |}.

(** The [for idx in range(1, len(week_keys))] loop, from [prev_key] on. *)
Fixpoint risk_scan (weekly : list (string * weekload)) (prev_key : string)
  (rest : list string) : list risk_factor :=
  match rest with
  | [] => []
  | curr_key :: rest' =>
      let prev_val := total_hard (weekly_get weekly prev_key) in
      let curr_val := total_hard (weekly_get weekly curr_key) in
      (if (0 <? prev_val)%Z && Qle_bool 40 (increase_of prev_val curr_val)
       then [spike_factor curr_key (increase_of prev_val curr_val)] else [])
      ++ risk_scan weekly curr_key rest'
  end.

(** [payload.get("risk_factors")] of [analyze_patterns] for the given table. *)
Definition patterns_risk_factors (injury_risk : bool) (weekly : list (string * weekload))
  : option (list risk_factor) :=
  if injury_risk then
    Some (match sort_strs (map fst weekly) with
          | [] => []
          | k :: ks => risk_scan weekly k ks
          end)
  else None.

Definition sample_weekly : list (string * weekload) :=
  [ ("2026-W03", mkWeekload 0 0 0 11); ("2026-W01", mkWeekload 0 0 0 5);
    ("2026-W02", mkWeekload 0 0 0 8); ("2026-W05", mkWeekload 0 0 0 3);
    ("2026-W04", mkWeekload 0 0 0 0) ].

(* ------------------------------------------------------------------ *)
(** ** Python's [int()] and [float()] on text (ASCII) *)

Definition is_digit (c : ascii) : bool :=
  let n := nat_of_ascii c in (48 <=? n)%nat && (n <=? 57)%nat.

Definition digit_val (c : ascii) : Z := Z.of_nat (nat_of_ascii c - 48).

(** A run of digits with single underscores between digits: its value and
    its number of digits. *)
Fixpoint uint_go (s : string) (acc : Z) (nd : nat) (last_digit : bool)
  : option (Z * nat) :=
  match s with
  | EmptyString => if last_digit then Some (acc, nd) else None
  | String c r =>
      if is_digit c then uint_go r (acc * 10 + digit_val c) (S nd) true
      else if Ascii.eqb c "_" && last_digit then uint_go r acc nd false
      else None
  end.

Definition parse_uint (s : string) : option (Z * nat) := uint_go s 0 0 false.

(** [int(s)] for a [str] argument. *)
Definition py_int (s : string) : result Z :=
  let t := str_strip s in
  let r := match t with
           | String "+" b => option_map fst (parse_uint b)
           | String "-" b => option_map (fun p => Z.opp (fst p)) (parse_uint b)
           | _ => option_map fst (parse_uint t)
           end in
  match r with Some z => Ok z | None => Err ValueError end.

(** The float values [float()] can return. *)
Inductive pyfloat :=
| FFin (q : Q)
| FInf (negative : bool)
| FNaN.

(** The longest prefix made of digits and underscores, and the rest. *)
Fixpoint span_digits (s : string) : string * string :=
  match s with
  | EmptyString => (EmptyString, EmptyString)
  | String c r =>
      if is_digit c || Ascii.eqb c "_" then
        let (a, b) := span_digits r in (String c a, b)
      else (EmptyString, s)
  end.

Definition pow10 (n : nat) : Z := Z.pow 10 (Z.of_nat n).

(** The exponent part [e[+-]digits] (or nothing) ending the text. *)
Definition parse_exponent (s : string) : option Z :=
  match s with
  | EmptyString => Some 0%Z
  | String c r =>
      if Ascii.eqb c "e" || Ascii.eqb c "E" then
        let '(sg, body) := match r with
                           | String "+" b => (1%Z, b)
                           | String "-" b => ((-1)%Z, b)
                           | _ => (1%Z, r)
                           end in
        match span_digits body with
        | (ds, EmptyString) =>
            match parse_uint ds with Some (v, _) => Some (sg * v)%Z | None => None end
        | _ => None
        end
      else None
  end.

(** An unsigned decimal literal [digits[.digits][exponent]]. *)
Definition parse_udecimal (s : string) : option Q :=
  let (ip, r1) := span_digits s in
  let '(fp, r2, has_dot) := match r1 with
                            | String "." r => let (f, r') := span_digits r in (f, r', true)
                            | _ => (EmptyString, r1, false)
                            end in
  let _ := has_dot in
  if String.eqb ip "" && String.eqb fp "" then None
  else
    let ipv := if String.eqb ip "" then Some (0%Z, 0%nat) else parse_uint ip in
    let fpv := if String.eqb fp "" then Some (0%Z, 0%nat) else parse_uint fp in
    match ipv, fpv, parse_exponent r2 with
    | Some (iv, _), Some (fv, nf), Some e =>
        let m := inject_Z (iv * pow10 nf + fv) / inject_Z (pow10 nf) in
        Some (if (0 <=? e)%Z then m * inject_Z (Z.pow 10 e)
              else m / inject_Z (Z.pow 10 (- e)))
    | _, _, _ => None
    end.

(** [float(s)] for a [str] argument ([None]: [ValueError]). *)
Definition py_float_opt (s : string) : option pyfloat :=
  let t := str_strip s in
  let '(neg, body) := match t with
                      | String "+" b => (false, b)
                      | String "-" b => (true, b)
                      | _ => (false, t)
                      end in
  let lb := str_lower body in
  if String.eqb lb "inf" || String.eqb lb "infinity" then Some (FInf neg)
  else if String.eqb lb "nan" then Some FNaN
  else match parse_udecimal body with
       | Some q => Some (FFin (if neg then - q else q))
       | None => None
       end.

Definition py_float (s : string) : result pyfloat :=
  match py_float_opt s with Some f => Ok f | None => Err ValueError end.

(** [f * 1000] *)
Definition fmul1000 (f : pyfloat) : pyfloat :=
  match f with FFin q => FFin (q * 1000) | other => other end.

(** [int(f)] for a float. *)
Definition int_of_float (f : pyfloat) : result Z :=
  match f with
  | FFin q => Ok (q_trunc q)
  | FInf _ => Err OverflowError
  | FNaN => Err ValueError
  end.

(* ------------------------------------------------------------------ *)
(** ** [parse_length], [parse_target] (utils/parsing.py) *)

Definition parse_length (value : string) : result (Z * string) :=
  let raw := str_strip value in
  if str_endswith "km" raw then
    f <- py_float (str_drop_last 2 raw) ;;
    z <- int_of_float (fmul1000 f) ;;
    Ok (z, "meter")
  else if str_endswith "m" raw then
    f <- py_float (str_drop_last 1 raw) ;;
    z <- int_of_float f ;;
    Ok (z, "meter")
  else
    match str_split ":" raw with
    | [p0; p1] =>
        a <- py_int p0 ;; b <- py_int p1 ;; Ok ((a * 60 + b)%Z, "second")
    | [p0; p1; p2] =>
        a <- py_int p0 ;; b <- py_int p1 ;; c <- py_int p2 ;;
        Ok ((a * 3600 + b * 60 + c)%Z, "second")
    | _ => z <- py_int raw ;; Ok (z, "second")
    end.

Definition parse_duration (value : string) : result Z :=
  p <- parse_length value ;; Ok (fst p).

(** The longest prefix of ASCII digits, and the rest ([\d+]). *)
Fixpoint leading_digits (s : string) : string * string :=
  match s with
  | EmptyString => (EmptyString, EmptyString)
  | String c r =>
      if is_digit c then let (a, b) := leading_digits r in (String c a, b)
      else (EmptyString, s)
  end.

Fixpoint digits_value_acc (s : string) (acc : Z) : Z :=
  match s with
  | EmptyString => acc
  | String c r => digits_value_acc r (acc * 10 + digit_val c)
  end.

Definition digits_value (s : string) : Z := digits_value_acc s 0.

(** [re.match(r"(\d+)", s)]: the integer of group 1. *)
Definition match_int (s : string) : option Z :=
  let (ds, _) := leading_digits s in
  if String.eqb ds "" then None else Some (digits_value ds).

(** [re.match(r"(\d+)-(\d+)", s)]: the integers of groups 1 and 2. *)
Definition match_range (s : string) : option (Z * Z) :=
  let (d1, r1) := leading_digits s in
  if String.eqb d1 "" then None
  else match r1 with
       | String "-" r =>
           let (d2, _) := leading_digits r in
           if String.eqb d2 "" then None else Some (digits_value d1, digits_value d2)
       | _ => None
       end.

Definition parse_target (value : option string) : option Z :=
  match value with
  | None => None
  | Some v => if String.eqb v "" then None else match_int v
  end.

(* ------------------------------------------------------------------ *)
(** ** The step DSL and its compiler [simple_to_tp_structure] (utils/parsing.py) *)

(** A DSL step dict.  [None] is a missing key. *)
Record dsl_step := mkDsl {
  d_type : option string;
  d_duration : option string;
  d_target : option string;
  d_name : option string;
  d_reps : option Z;
  d_on : option string;
  d_off : option string;
  d_on_target : option string;
  d_off_target : option string;
  d_on_name : option string;
  d_off_name : option string
}.

Definition dsl0 : dsl_step :=
  mkDsl None None None None None None None None None None None.

(** A compiled target dict: [minValue] (possibly [None]) and an optional
    [maxValue] key. *)
Record out_target := mkOutTarget {
  ot_minValue : option Z;
  ot_maxValue : option Z
}.

Record out_step := mkOutStep {
  os_name : string;
  os_length : Z * string;
  os_targets : list out_target;
  os_intensityClass : string;
  os_openDuration : bool
}.

Record out_block := mkOutBlock {
  ob_type : string;
  ob_length : Z * string;
  ob_steps : list out_step
}.

Record out_structure := mkOutStructure {
  primaryIntensityMetric : string;
  structure : list out_block
}.

(** [step[key]] *)
Definition key {A} (x : option A) : result A :=
  match x with Some a => Ok a | None => Err KeyError end.

(** [bool(x)] for an optional string value. *)
Definition truthy_str (x : option string) : bool :=
  match x with Some s => negb (String.eqb s "") | None => false end.

Definition get_or {A} (x : option A) (default : A) : A :=
  match x with Some a => a | None => default end.

Definition min_target (target : option string) : list out_target :=
  if truthy_str target then [mkOutTarget (parse_target target) None] else [].

Definition rampup_block (warmup_steps : list out_step) : list out_block :=
  match warmup_steps with
  | [] => []
  | _ => [mkOutBlock "rampUp" (1%Z, "repetition") warmup_steps]
  end.

Definition interval_on_targets (on_target : option string) : list out_target :=
  if truthy_str on_target then
    match match_range (get_or on_target "") with
    | Some (a, b) => [mkOutTarget (Some a) (Some b)]
    | None =>
        match parse_target on_target with
        | Some p => [mkOutTarget (Some p) None]
        | None => []
        end
    end
  else [].

(** One iteration of the loop: state [(blocks, warmup_steps)]. *)
Definition compile_step (st : list out_block * list out_step) (step : dsl_step)
  : result (list out_block * list out_step) :=
  let (blocks, warmup_steps) := st in
  step_type <- key (d_type step) ;;
  if String.eqb step_type "warmup" then
    dur <- key (d_duration step) ;;
    len <- parse_length dur ;;
    Ok (blocks, (warmup_steps ++
       [mkOutStep (get_or (d_name step) "") len (min_target (d_target step))
          (match warmup_steps with [] => "warmUp" | _ => "active" end) false])%list)
  else if String.eqb step_type "interval" then
    on_len <- (on <- key (d_on step) ;; parse_length on) ;;
    off_len <- (off <- key (d_off step) ;; parse_length off) ;;
    let on_targets := interval_on_targets (d_on_target step) in
    let rep := mkOutBlock "repetition" (get_or (d_reps step) 1%Z, "repetition")
          [ mkOutStep (get_or (d_on_name step) (get_or (d_name step) "")) on_len
              on_targets "active" false;
            mkOutStep (get_or (d_off_name step) "Easy") off_len
              (min_target (d_off_target step)) "rest" false ] in
    Ok ((blocks ++ rampup_block warmup_steps ++ [rep])%list, [])
  else
    let blocks := (blocks ++ rampup_block warmup_steps)%list in
    if String.eqb step_type "cooldown" then
      dur <- key (d_duration step) ;;
      v <- parse_duration dur ;;
      Ok ((blocks ++ [mkOutBlock "step" (1%Z, "repetition")
             [mkOutStep (get_or (d_name step) "Cool Down") (v, "second")
                (min_target (d_target step)) "coolDown" false]])%list, [])
    else if String.eqb step_type "steady" then
      dur <- key (d_duration step) ;;
      v <- parse_duration dur ;;
      Ok ((blocks ++ [mkOutBlock "step" (1%Z, "repetition")
             [mkOutStep (get_or (d_name step) "") (v, "second")
                (min_target (d_target step)) "active" false]])%list, [])
    else Ok (blocks, []).

Fixpoint compile_loop (st : list out_block * list out_step) (steps : list dsl_step)
  : result (list out_block * list out_step) :=
  match steps with
  | [] => Ok st
  | s :: rest => st' <- compile_step st s ;; compile_loop st' rest
  end.

Definition simple_to_tp_structure (steps : list dsl_step) (intensity_metric : string)
  : result out_structure :=
  st <- compile_loop ([], []) steps ;;
  let (blocks, warmup_steps) := st in
  Ok (mkOutStructure intensity_metric (blocks ++ rampup_block warmup_steps)%list).

Definition interval_4x8 : dsl_step :=
  {| d_type := Some "interval"; d_duration := None; d_target := None; d_name := None;
     d_reps := Some 4%Z; d_on := Some "8:00"; d_off := Some "2:00";
     d_on_target := None; d_off_target := None; d_on_name := None;
     d_off_name := None |}.

(* ------------------------------------------------------------------ *)
(** ** Time/distance estimate [calc_time_and_distance] (core/upload.py) *)

Definition _pct_to_speed (target_str : option string) (threshold_speed : Q) : Q :=
  if negb (truthy_str target_str) then threshold_speed * (72 # 100)
  else
    let s := get_or target_str "" in
    match match_range s with
    | Some (a, b) =>
        let mid := inject_Z (a + b) / 2 in threshold_speed * (mid / 100)
    | None =>
        match match_int s with
        | Some n => threshold_speed * (inject_Z n / 100)
        | None => threshold_speed * (72 # 100)
        end
    end.

(** One leg: [value] of [unit] at [speed], added to [(total_seconds, total_meters)]. *)
Definition add_leg (value : Z) (unit : string) (speed : Q) (acc : Q * Q) : Q * Q :=
  let (total_seconds, total_meters) := acc in
  if String.eqb unit "second" then
    (total_seconds + inject_Z value, total_meters + inject_Z value * speed)
  else
    (total_seconds + (if Qlt_bool 0 speed then inject_Z value / speed else 0),
     total_meters + inject_Z value).

(** [for _ in range(reps)]: the on leg, then the off leg. *)
Fixpoint repeat_legs (n : nat) (on_v : Z) (on_u : string) (on_speed : Q)
  (off_v : Z) (off_u : string) (off_speed : Q) (acc : Q * Q) : Q * Q :=
  match n with
  | O => acc
  | S n' => repeat_legs n' on_v on_u on_speed off_v off_u off_speed
              (add_leg off_v off_u off_speed (add_leg on_v on_u on_speed acc))
  end.

Definition calc_step (threshold_speed : Q) (acc : Q * Q) (step : dsl_step)
  : result (Q * Q) :=
  match d_type step with
  | Some t =>
      if str_in t ["warmup"; "steady"; "cooldown"] then
        dur <- key (d_duration step) ;;
        len <- parse_length dur ;;
        let speed := _pct_to_speed (d_target step) threshold_speed in
        Ok (add_leg (fst len) (snd len) speed acc)
      else if String.eqb t "interval" then
        let reps := get_or (d_reps step) 1%Z in
        on_len <- (on <- key (d_on step) ;; parse_length on) ;;
        off_len <- (off <- key (d_off step) ;; parse_length off) ;;
        let on_speed := _pct_to_speed (d_on_target step) threshold_speed in
        let off_speed := _pct_to_speed (d_off_target step) threshold_speed in
        Ok (repeat_legs (Z.to_nat reps) (fst on_len) (snd on_len) on_speed
              (fst off_len) (snd off_len) off_speed acc)
      else Ok acc
  | None => Ok acc
  end.

Fixpoint calc_loop (threshold_speed : Q) (acc : Q * Q) (steps : list dsl_step)
  : result (Q * Q) :=
  match steps with
  | [] => Ok acc
  | s :: rest => acc' <- calc_step threshold_speed acc s ;; calc_loop threshold_speed acc' rest
  end.

(** Returns [(int(total_seconds + 0.5), int(total_meters + 0.5))]. *)
Definition calc_time_and_distance (steps : list dsl_step) (threshold_speed : Q)
  : result (Z * Z) :=
  totals <- calc_loop threshold_speed (0, 0) steps ;;
  Ok (q_trunc (fst totals + (1 # 2)), q_trunc (snd totals + (1 # 2))).

(** Half-up rounding to the nearest integer, as the spec states it. *)
Definition round_half_up (x : Q) : Z := Qfloor (x + (1 # 2)).

(** The length strings a DSL step's estimate parses. *)
Definition step_length_strings (step : dsl_step) : list string :=
  match d_type step with
  | Some t =>
      if str_in t ["warmup"; "steady"; "cooldown"] then
        match d_duration step with Some d => [d] | None => [] end
      else if String.eqb t "interval" then
        match d_on step, d_off step with
        | Some a, Some b => [a; b]
        | Some a, None => [a]
        | None, _ => []
        end
      else []
  | None => []
  end.

(** Every length string of the steps that parses has a non-negative value. *)
Definition lengths_nonneg (steps : list dsl_step) : Prop :=
  Forall (fun st => Forall (fun s => forall v u, parse_length s = Ok (v, u) -> (0 <= v)%Z)
                           (step_length_strings st)) steps.

Definition steady_neg5 : dsl_step :=
  {| d_type := Some "steady"; d_duration := Some "-5"; d_target := None;
     d_name := None; d_reps := None; d_on := None; d_off := None;
     d_on_target := None; d_off_target := None; d_on_name := None;
     d_off_name := None |}.

(** The spec's example: warmup 10:00@70%, steady 5km@80%,
    interval 2x(1:00@100% / 0:30@70%). *)
Definition spec_example_steps : list dsl_step :=
  [ {| d_type := Some "warmup"; d_duration := Some "10:00"; d_target := Some "70%";
       d_name := None; d_reps := None; d_on := None; d_off := None;
       d_on_target := None; d_off_target := None; d_on_name := None; d_off_name := None |};
    {| d_type := Some "steady"; d_duration := Some "5km"; d_target := Some "80%";
       d_name := None; d_reps := None; d_on := None; d_off := None;
       d_on_target := None; d_off_target := None; d_on_name := None; d_off_name := None |};
    {| d_type := Some "interval"; d_duration := None; d_target := None;
       d_name := None; d_reps := Some 2%Z; d_on := Some "1:00"; d_off := Some "0:30";
       d_on_target := Some "100%"; d_off_target := Some "70%"; d_on_name := None;
       d_off_name := None |} ].

(* ------------------------------------------------------------------ *)
(** ** Pace labels written into a run workout's structure (core/upload.py) *)

(** Python's [round()] on a float: to the nearest integer, ties to even. *)
Definition round_half_even (x : Q) : Z :=
  let f := Qfloor x in
  let frac := x - inject_Z f in
  if Qlt_bool frac (1 # 2) then f
  else if Qlt_bool (1 # 2) frac then (f + 1)%Z
  else if Z.even f then f else (f + 1)%Z.

Definition digit_char (d : Z) : ascii := ascii_of_nat (48 + Z.to_nat d).

Fixpoint nat_str_go (fuel : nat) (n : Z) (acc : string) : string :=
  match fuel with
  | O => String (digit_char n) acc
  | S f =>
      if (n <? 10)%Z then String (digit_char n) acc
      else nat_str_go f (n / 10) (String (digit_char (n mod 10)) acc)
  end.

(** [str(n)] for an integer. *)
Definition z_str (n : Z) : string :=
  let m := Z.abs n in
  let s := nat_str_go (S (Z.to_nat (Z.log2 m))) m "" in
  if (n <? 0)%Z then String "-" s else s.

(** [f"{n:02d}"] *)
Definition z_str02 (n : Z) : string :=
  let s := z_str n in if (String.length s <? 2)%nat then String "0" s else s.

(** [speed_pct_to_pace(pct, threshold_speed)], with [pct] the result of
    [float(...)]. *)
Definition speed_pct_to_pace (pct : pyfloat) (threshold_speed : Q) : result string :=
  match pct with
  | FFin p =>
      let speed := threshold_speed * (p / 100) in
      if Qle_bool speed 0 then Ok "?"
      else
        let seconds_per_km := 1000 / speed in
        let minutes := Qfloor (seconds_per_km / 60) in
        let seconds := round_half_even (seconds_per_km - 60 * inject_Z minutes) in
        if (seconds =? 60)%Z then Ok (z_str (minutes + 1) ++ ":" ++ z_str02 0)
        else Ok (z_str minutes ++ ":" ++ z_str02 seconds)
  | FInf negative =>
      (* the speed is +inf, -inf, or nan when the threshold speed is 0 *)
      if Qeq_bool threshold_speed 0 then Err ValueError
      else if Bool.eqb negative (Qlt_bool threshold_speed 0) then Ok "0:00"
      else Ok "?"
  | FNaN => Err ValueError
  end.

(** Sample structured workout: two 10-minute steps at 98% (lt2 by the
    structural signal). *)
Definition sample_lt2_steps : list node :=
  [ {| n_type := None;
       n_length := Some {| l_value := Some 600; l_unit := Some "second" |};
       n_steps := None;
       n_targets := Some [ {| minValue := Some 98; maxValue := None; t_value := None |} ];
       n_intensityClass := Some "active"; n_name := None |};
    {| n_type := None;
       n_length := Some {| l_value := Some 600; l_unit := Some "second" |};
       n_steps := None;
       n_targets := Some [ {| minValue := Some 98; maxValue := None; t_value := None |} ];
       n_intensityClass := Some "active"; n_name := None |} ].

Definition race_threshold_workout : workout :=
  {| w_title := Some "Race simulation: Threshold"; w_description := None;
     w_coachComments := None; w_userTags := None; w_primaryIntensityMetric := None;
     w_structuredSteps := Some (PArr sample_lt2_steps); w_structuredWorkout := None;
     w_structure := None; w_distance := Some 10000 |}.

(** A step at [pct]% with the given length, as a structured-steps item. *)
Definition pct_step (pct : Q) (len : option length) : node :=
  {| n_type := None; n_length := len; n_steps := None;
     n_targets := Some [ {| minValue := Some pct; maxValue := None; t_value := None |} ];
     n_intensityClass := Some "active"; n_name := None |}.

Definition steps_workout (steps : list node) : workout :=
  {| w_title := None; w_description := None; w_coachComments := None;
     w_userTags := None; w_primaryIntensityMetric := None;
     w_structuredSteps := Some (PArr steps); w_structuredWorkout := None;
     w_structure := None; w_distance := None |}.

Definition one_second : option length :=
  Some {| l_value := Some 1; l_unit := Some "second" |}.

Definition nonneg_pair (p : Q * Q) : Prop := 0 <= fst p /\ 0 <= snd p.


(* ================================================================== *)
(* ------------------------------------------------------------------ *)
(** ** Dates: [datetime.strptime(s, "%Y-%m-%d")], ordinals, [isocalendar()]
    (CPython's [datetime] and [_strptime] algorithms), and the week helpers
    of analysis.py *)

(** A [date]/[datetime] at midnight: [(year, month, day)]. *)
Record ymd := mkYmd { year : Z; month : Z; day : Z }.

Definition _is_leap (y : Z) : bool :=
  (y mod 4 =? 0)%Z && (negb (y mod 100 =? 0)%Z || (y mod 400 =? 0)%Z).

Definition _DAYS_IN_MONTH (m : Z) : Z :=
  match m with
  | 1%Z => 31 | 2%Z => 28 | 3%Z => 31 | 4%Z => 30 | 5%Z => 31 | 6%Z => 30
  | 7%Z => 31 | 8%Z => 31 | 9%Z => 30 | 10%Z => 31 | 11%Z => 30 | 12%Z => 31
  | _ => -1
  end%Z.

Definition _DAYS_BEFORE_MONTH (m : Z) : Z :=
  match m with
  | 1%Z => 0 | 2%Z => 31 | 3%Z => 59 | 4%Z => 90 | 5%Z => 120 | 6%Z => 151
  | 7%Z => 181 | 8%Z => 212 | 9%Z => 243 | 10%Z => 273 | 11%Z => 304 | 12%Z => 334
  | _ => -1
  end%Z.

Definition _days_in_month (y m : Z) : Z :=
  if (m =? 2)%Z && _is_leap y then 29%Z else _DAYS_IN_MONTH m.

Definition _days_before_year (y : Z) : Z :=
  let y1 := (y - 1)%Z in (y1 * 365 + y1 / 4 - y1 / 100 + y1 / 400)%Z.

Definition _days_before_month (y m : Z) : Z :=
  (_DAYS_BEFORE_MONTH m + (if (2 <? m)%Z && _is_leap y then 1 else 0))%Z.

Definition _ymd2ord (y m d : Z) : Z :=
  (_days_before_year y + _days_before_month y m + d)%Z.

Definition toordinal (dt : ymd) : Z := _ymd2ord (year dt) (month dt) (day dt).

(** [_ord2ymd(n)] *)
Definition _ord2ymd (n : Z) : ymd :=
  let n0 := (n - 1)%Z in
  let n400 := (n0 / 146097)%Z in let r400 := (n0 mod 146097)%Z in
  let n100 := (r400 / 36524)%Z in let r100 := (r400 mod 36524)%Z in
  let n4 := (r100 / 1461)%Z in let r4 := (r100 mod 1461)%Z in
  let n1 := (r4 / 365)%Z in let r1 := (r4 mod 365)%Z in
  let y := (n400 * 400 + 1 + n100 * 100 + n4 * 4 + n1)%Z in
  if (n1 =? 4)%Z || (n100 =? 4)%Z then mkYmd (y - 1) 12 31
  else
    let leapyear := (n1 =? 3)%Z && (negb (n4 =? 24)%Z || (n100 =? 3)%Z) in
    let m0 := Z.shiftr (r1 + 50) 5 in
    let preceding0 := (_DAYS_BEFORE_MONTH m0 +
                       (if (2 <? m0)%Z && leapyear then 1 else 0))%Z in
    let '(m, preceding) :=
      if (r1 <? preceding0)%Z then
        let m1 := (m0 - 1)%Z in
        (m1, (preceding0 - (_DAYS_IN_MONTH m1 +
                            (if (m1 =? 2)%Z && leapyear then 1 else 0)))%Z)
      else (m0, preceding0) in
    mkYmd y m (r1 - preceding + 1).

Definition MAXORDINAL : Z := 3652059.

(** The [datetime(year, month, day)] constructor's checks. *)
Definition valid_ymd (dt : ymd) : bool :=
  (1 <=? year dt)%Z && (year dt <=? 9999)%Z && (1 <=? month dt)%Z && (month dt <=? 12)%Z &&
  (1 <=? day dt)%Z && (day dt <=? _days_in_month (year dt) (month dt))%Z.

Definition mk_datetime (y m d : Z) : result ymd :=
  if valid_ymd (mkYmd y m d) then Ok (mkYmd y m d) else Err ValueError.

(** [dt + timedelta(days=k)] *)
Definition add_days (dt : ymd) (k : Z) : result ymd :=
  let o := (toordinal dt + k)%Z in
  if (0 <? o)%Z && (o <=? MAXORDINAL)%Z then Ok (_ord2ymd o) else Err OverflowError.

(** [dt.weekday()]: Monday is 0. *)
Definition weekday (dt : ymd) : Z := ((toordinal dt + 6) mod 7)%Z.

Definition _isoweek1monday (y : Z) : Z :=
  let firstday := _ymd2ord y 1 1 in
  let firstweekday := ((firstday + 6) mod 7)%Z in
  let week1monday := (firstday - firstweekday)%Z in
  if (3 <? firstweekday)%Z then (week1monday + 7)%Z else week1monday.

(** [dt.isocalendar()]: [(iso_year, iso_week, iso_weekday)]. *)
Definition isocalendar (dt : ymd) : Z * Z * Z :=
  let y := year dt in
  let today := toordinal dt in
  let w1 := _isoweek1monday y in
  let week := ((today - w1) / 7)%Z in
  let d := ((today - w1) mod 7)%Z in
  if (week <? 0)%Z then
    let w1' := _isoweek1monday (y - 1) in
    ((y - 1)%Z, ((today - w1') / 7 + 1)%Z, ((today - w1') mod 7 + 1)%Z)
  else if (52 <=? week)%Z then
    if (_isoweek1monday (y + 1) <=? today)%Z then ((y + 1)%Z, 1%Z, (d + 1)%Z)
    else (y, (week + 1)%Z, (d + 1)%Z)
  else (y, (week + 1)%Z, (d + 1)%Z).

(** The groups of the [_strptime] regex for [%m], [1[0-2]|0[1-9]|[1-9]], in
    the order the alternatives are tried: the value and the rest. *)
Definition month_alts (s : string) : list (Z * string) :=
  (match s with
   | String "1" (String c r) =>
       if (48 <=? nat_of_ascii c)%nat && (nat_of_ascii c <=? 50)%nat
       then [(10 + digit_val c, r)%Z] else []
   | _ => []
   end ++
   match s with
   | String "0" (String c r) =>
       if (49 <=? nat_of_ascii c)%nat && (nat_of_ascii c <=? 57)%nat
       then [(digit_val c, r)] else []
   | _ => []
   end ++
   match s with
   | String c r =>
       if (49 <=? nat_of_ascii c)%nat && (nat_of_ascii c <=? 57)%nat
       then [(digit_val c, r)] else []
   | _ => []
   end)%list.

(** The alternatives for [%d], [3[01]|[12]\d|0[1-9]|[1-9]| [1-9]]. *)
Definition day_alts (s : string) : list (Z * string) :=
  (match s with
   | String "3" (String c r) =>
       if (48 <=? nat_of_ascii c)%nat && (nat_of_ascii c <=? 49)%nat
       then [(30 + digit_val c, r)%Z] else []
   | _ => []
   end ++
   match s with
   | String c1 (String c2 r) =>
       if (49 <=? nat_of_ascii c1)%nat && (nat_of_ascii c1 <=? 50)%nat && is_digit c2
       then [(digit_val c1 * 10 + digit_val c2, r)%Z] else []
   | _ => []
   end ++
   match s with
   | String "0" (String c r) =>
       if (49 <=? nat_of_ascii c)%nat && (nat_of_ascii c <=? 57)%nat
       then [(digit_val c, r)] else []
   | _ => []
   end ++
   match s with
   | String c r =>
       if (49 <=? nat_of_ascii c)%nat && (nat_of_ascii c <=? 57)%nat
       then [(digit_val c, r)] else []
   | _ => []
   end ++
   match s with
   | String " " (String c r) =>
       if (49 <=? nat_of_ascii c)%nat && (nat_of_ascii c <=? 57)%nat
       then [(digit_val c, r)] else []
   | _ => []
   end)%list.

(** The first way (in backtracking order) the text after [%Y-] matches
    [%m-%d]: month, day and the unconverted rest. *)
Fixpoint first_month_day (ms : list (Z * string)) : option (Z * Z * string) :=
  match ms with
  | [] => None
  | (m, String "-" r) :: rest =>
      match day_alts r with
      | (d, r') :: _ => Some (m, d, r')
      | [] => first_month_day rest
      end
  | _ :: rest => first_month_day rest
  end.

(** [datetime.strptime(s, "%Y-%m-%d")] for ASCII text. *)
Definition strptime_ymd (s : string) : result ymd :=
  match s with
  | String y1 (String y2 (String y3 (String y4 (String "-" r)))) =>
      if is_digit y1 && is_digit y2 && is_digit y3 && is_digit y4 then
        match first_month_day (month_alts r) with
        | Some (m, d, EmptyString) =>
            mk_datetime (digit_val y1 * 1000 + digit_val y2 * 100 +
                         digit_val y3 * 10 + digit_val y4)%Z m d
        | _ => Err ValueError (* no match, or unconverted data remains *)
        end
      else Err ValueError
  | _ => Err ValueError
  end.

(** [%Y] in [strftime]: the four digits of a year from 1000 on.  What it
    writes for an earlier year depends on the Python build (CPython up to
    3.12.4 on glibc writes the year without padding, later versions pad it
    to four digits), so that text is the argument [year_below_1000]. *)
Definition strftime_Y (year_below_1000 : Z -> string) (y : Z) : string :=
  if (1000 <=? y)%Z then z_str y else year_below_1000 y.

(** [dt.strftime("%Y-%m-%d")] *)
Definition strftime_ymd (year_below_1000 : Z -> string) (dt : ymd) : string :=
  strftime_Y year_below_1000 (year dt) ++ "-" ++ z_str02 (month dt) ++ "-" ++ z_str02 (day dt).

(** [dt.strftime("%Y-%m")] *)
Definition strftime_ym (year_below_1000 : Z -> string) (dt : ymd) : string :=
  strftime_Y year_below_1000 (year dt) ++ "-" ++ z_str02 (month dt).

Definition _workout_date (value : string) : result ymd :=
  strptime_ymd (substring 0 10 value).

(** [f"{iso[0]}-W{iso[1]:02d}"] *)
Definition week_key_of (dt : ymd) : string :=
  let '(y, w, _) := isocalendar dt in z_str y ++ "-W" ++ z_str02 w.

Definition get_week_key (date_str : string) : result string :=
  dt <- _workout_date date_str ;; Ok (week_key_of dt).

Definition get_week_start (date_str : string) : result ymd :=
  dt <- _workout_date date_str ;; add_days dt (- weekday dt).

(* ------------------------------------------------------------------ *)
(** ** Classification metadata (classify.py) *)

(** [WorkoutClassification] (core/models.py). *)
Record WorkoutClassification := mkWorkoutClassification {
  wc_type : string;
  wc_method : string;
  wc_confidence : Q;
  wc_reasoning : option string
}.

(** [classify_with_metadata(workout, method, rules)] *)
Definition classify_with_metadata (json_loads : string -> option payload) (w : workout)
  (method : string) (rules : list (string * list string)) : WorkoutClassification :=
  let (label, source) := _classify_with_source json_loads w rules in
  if String.eqb method "ai" then
    mkWorkoutClassification label "auto" (6 # 10)
      (Some "AI classification not configured; fell back to rules")
  else
    let confidence :=
      if String.eqb source "structure" then 97 # 100
      else if negb (String.eqb label "other") then 95 # 100 else 6 # 10 in
    let reasoning :=
      if String.eqb source "structure"
      then Some "classified from structured workout intensity targets" else None in
    mkWorkoutClassification label "auto" confidence reasoning.

(* ------------------------------------------------------------------ *)
(** ** Daily intensity of [analyze_patterns] (analysis.py) *)

(** [order.get(item, 0)] *)
Definition _day_intensity_order (item : string) : Z :=
  if String.eqb item "vo2" then 4%Z
  else if String.eqb item "lt2" then 3%Z
  else if String.eqb item "lt1" then 2%Z
  else if String.eqb item "easy" then 1%Z
  else 0%Z.

(** [max(values, key=key)]: the first item of greatest key. *)
Fixpoint max_by (key : string -> Z) (best : string) (items : list string) : string :=
  match items with
  | [] => best
  | x :: rest => if (key best <? key x)%Z then max_by key x rest else max_by key best rest
  end.

Definition _day_intensity (types : list string) : string :=
  match types with
  | [] => "rest"
  | v :: rest => max_by _day_intensity_order v rest
  end.

(* ------------------------------------------------------------------ *)
(** ** [chunk_date_range] (utils/date_ranges.py), used by [fetch_workouts_in_chunks] *)

(** [date._cmp]: dates compare as [(year, month, day)] tuples. *)
Definition date_cmp (a b : ymd) : comparison :=
  match Z.compare (year a) (year b) with
  | Eq => match Z.compare (month a) (month b) with
          | Eq => Z.compare (day a) (day b)
          | c => c
          end
  | c => c
  end.

Definition date_le (a b : ymd) : bool :=
  match date_cmp a b with Gt => false | _ => true end.

Definition date_lt (a b : ymd) : bool :=
  match date_cmp a b with Lt => true | _ => false end.

(** What a generator produces when it is drained with [list(...)]: all its
    items, the items yielded before an exception, or (when the [fuel] bound
    on loop iterations runs out) the items yielded so far. *)
Inductive gen (A : Type) :=
| GDone (items : list A)
| GRaise (items : list A) (e : exn)
| GFuel (items : list A).
Arguments GDone {A} _.
Arguments GRaise {A} _ _.
Arguments GFuel {A} _.

Definition gen_cons {A} (x : A) (g : gen A) : gen A :=
  match g with
  | GDone l => GDone (x :: l)
  | GRaise l e => GRaise (x :: l) e
  | GFuel l => GFuel (x :: l)
  end.

(** The [while cursor <= end] loop, [fuel] iterations at most; [min(a, b)]
    is [a] unless [b < a]. *)
Fixpoint chunk_date_range (fuel : nat) (cursor end_ : ymd) (chunk_days : Z)
  : gen (ymd * ymd) :=
  match fuel with
  | O => GFuel []
  | S f =>
      if date_le cursor end_ then
        match add_days cursor (chunk_days - 1) with
        | Err e => GRaise [] e
        | Ok c =>
            let chunk_end := if date_lt end_ c then end_ else c in
            gen_cons (cursor, chunk_end)
              (match add_days chunk_end 1 with
               | Err e => GRaise [] e
               | Ok next => chunk_date_range f next end_ chunk_days
               end)
        end
      else GDone []
  end.

(** [chunks] tile the days [a..b] in order: each chunk starts the day after
    the previous one ends, spans at most [chunk_days] days, and only the
    last one may be shorter; the last one ends on [b]. *)
Fixpoint tiles (chunk_days a b : Z) (chunks : list (ymd * ymd)) : Prop :=
  match chunks with
  | [] => (b < a)%Z
  | (x, y) :: rest =>
      toordinal x = a /\ (a <= toordinal y <= b)%Z /\ (toordinal y - a < chunk_days)%Z /\
      ((toordinal y < b)%Z -> toordinal y - a = chunk_days - 1)%Z /\
      valid_ymd x = true /\ valid_ymd y = true /\
      tiles chunk_days (toordinal y + 1) b rest
  end.

(* ------------------------------------------------------------------ *)
(** ** [validate_date], [parse_date], [resolve_date_range] (utils/date_ranges.py) *)

Section DateRanges.
Local Open Scope Z_scope.



(** [parse_date(value)]: [datetime.strptime(value, "%Y-%m-%d").date()]. *)
Definition parse_date (value : string) : result ymd := strptime_ymd value.




(** [bool(x)] for an optional integer option. *)
Definition truthy_int (x : option Z) : bool :=
  match x with Some n => negb (n =? 0) | None => false end.

(** [resolve_date_range(...)] with [now] the date [today or date.today()]:
    [timedelta] arithmetic is [add_days], the [date(...)] constructor is
    [mk_datetime]. *)
Definition resolve_date_range (start_date end_date : option string)
  (last_days last_weeks last_months : option Z)
  (this_week last_week this_month this_year all_time : bool) (now : ymd)
  : result (ymd * ymd) :=
  if truthy_str start_date && truthy_str end_date then
    s <- parse_date (get_or start_date "") ;;
    e <- parse_date (get_or end_date "") ;; Ok (s, e)
  else if truthy_str start_date && negb (truthy_str end_date) then
    s <- parse_date (get_or start_date "") ;; Ok (s, now)
  else if truthy_str end_date && negb (truthy_str start_date) then
    e <- parse_date (get_or end_date "") ;; Ok (mkYmd 2000 1 1, e)
  else if truthy_int last_days then
    s <- add_days now (- Z.max (get_or last_days 0 - 1) 0) ;; Ok (s, now)
  else if truthy_int last_weeks then
    s <- add_days now (- Z.max (get_or last_weeks 0 * 7 - 1) 0) ;; Ok (s, now)
  else if truthy_int last_months then
    s <- add_days now (- Z.max (get_or last_months 0 * 30 - 1) 0) ;; Ok (s, now)
  else if this_week then
    s <- add_days now (- weekday now) ;;
    e <- add_days s 6 ;; Ok (s, e)
  else if last_week then
    this_week_start <- add_days now (- weekday now) ;;
    s <- add_days this_week_start (-7) ;;
    e <- add_days s 6 ;; Ok (s, e)
  else if this_month then
    start <- mk_datetime (year now) (month now) 1 ;;
    month_end <- (if month now =? 12 then
                    n <- mk_datetime (year now + 1) 1 1 ;; add_days n (-1)
                  else
                    n <- mk_datetime (year now) (month now + 1) 1 ;; add_days n (-1)) ;;
    Ok (start, month_end)
  else if this_year then
    s <- mk_datetime (year now) 1 1 ;;
    e <- mk_datetime (year now) 12 31 ;; Ok (s, e)
  else if all_time then Ok (mkYmd 2000 1 1, now)
  else s <- add_days now (-29) ;; Ok (s, now).

(** A range [(s, now)] of exactly [days] days ending on [now], or the
    OverflowError of a start before 0001-01-01 when [now] has fewer days
    before it. *)
Definition last_n_days_ok (r : result (ymd * ymd)) (now : ymd) (days : Z) : Prop :=
  match r with
  | Ok (s, e) => e = now /\ valid_ymd s = true /\ toordinal now - toordinal s + 1 = days
  | Err x => x = OverflowError /\ toordinal now < days
  end.

End DateRanges.

(* ------------------------------------------------------------------ *)
(** ** Shapes of compiled DSL structures *)

(** The number of compiled steps a DSL step contributes: one for a warmup,
    steady or cooldown step, two (on and off) for an interval, none for
    any other type. *)
Definition dsl_weight (s : dsl_step) : nat :=
  match d_type s with
  | Some t =>
      if String.eqb t "warmup" then 1
      else if String.eqb t "interval" then 2
      else if String.eqb t "cooldown" then 1
      else if String.eqb t "steady" then 1
      else 0
  | None => 0
  end.

(** The number of steps of a list of compiled blocks. *)
Definition block_step_count (blocks : list out_block) : nat :=
  fold_right (fun b n => (List.length (ob_steps b) + n)%nat) 0%nat blocks.

(** A run of buffered warmup steps: the first one is [warmUp], the others
    [active]. *)
Definition warmup_run_ok (w : list out_step) : Prop :=
  exists s rest, w = s :: rest /\ os_intensityClass s = "warmUp" /\
    Forall (fun x => os_intensityClass x = "active") rest.

(** The three kinds of compiled block: a [rampUp] block of buffered warmup
    steps, a [repetition] block with an [active] and a [rest] step, and a
    single-step [step] block whose length is in seconds. *)
Definition block_shape_ok (b : out_block) : Prop :=
  (ob_type b = "rampUp" /\ ob_length b = (1%Z, "repetition") /\ warmup_run_ok (ob_steps b))
  \/ (ob_type b = "repetition" /\ snd (ob_length b) = "repetition" /\
      exists on off, ob_steps b = [on; off] /\
        os_intensityClass on = "active" /\ os_intensityClass off = "rest")
  \/ (ob_type b = "step" /\ ob_length b = (1%Z, "repetition") /\
      exists s, ob_steps b = [s] /\ snd (os_length s) = "second" /\
        (os_intensityClass s = "active" \/ os_intensityClass s = "coolDown")).

(* ------------------------------------------------------------------ *)
(** ** Helpers for the date proofs *)

Section DateHelpers.
Local Open Scope Z_scope.

(** [1] in a leap year, [0] otherwise. *)
Definition leapz (y : Z) : Z := if _is_leap y then 1 else 0.

(** Every character is an ASCII digit. *)
Fixpoint all_digits (s : string) : bool :=
  match s with
  | EmptyString => true
  | String c r => is_digit c && all_digits r
  end.

(** The month step of [_ord2ymd]: the month and the days before it. *)
Definition _ord2ymd_month (r1 : Z) (leapyear : bool) : Z * Z :=
  let m0 := Z.shiftr (r1 + 50) 5 in
  let preceding0 := (_DAYS_BEFORE_MONTH m0 +
                     (if (2 <? m0)%Z && leapyear then 1 else 0))%Z in
  if (r1 <? preceding0)%Z then
    let m1 := (m0 - 1)%Z in
    (m1, (preceding0 - (_DAYS_IN_MONTH m1 +
                        (if (m1 =? 2)%Z && leapyear then 1 else 0)))%Z)
  else (m0, preceding0).

(** What the month step must give for day [r1] of a year. *)
Definition ord2ymd_month_check (r1 : Z) (ly : bool) : bool :=
  let '(m, p) := _ord2ymd_month r1 ly in
  (1 <=? m) && (m <=? 12) &&
  (p =? _DAYS_BEFORE_MONTH m + (if (2 <? m) && ly then 1 else 0)) &&
  (1 <=? r1 - p + 1) && (r1 - p + 1 <=? (if (m =? 2) && ly then 29 else _DAYS_IN_MONTH m)).

(** The ordinal of the Monday starting the week of [dt]. *)
Definition monday_ord (dt : ymd) : Z := toordinal dt - weekday dt.

(** The week fields [build_weekly_analysis] computes for a workout day
    (analysis.py lines 100-106): [week_key], [start_date], [end_date]. *)
Definition week_bucket_dates (year_below_1000 : Z -> string) (day : string)
  : result (string * string * string) :=
  week_key <- get_week_key day ;;
  week_start <- get_week_start day ;;
  week_end <- add_days week_start 6 ;;
  Ok (week_key, strftime_ymd year_below_1000 week_start, strftime_ymd year_below_1000 week_end).

(** [str(y)] is four digits spelling [y]. *)
Definition year4_check (y : Z) : bool :=
  match z_str y with
  | String c1 (String c2 (String c3 (String c4 EmptyString))) =>
      is_digit c1 && is_digit c2 && is_digit c3 && is_digit c4 &&
      (digit_val c1 * 1000 + digit_val c2 * 100 + digit_val c3 * 10 + digit_val c4 =? y)
  | _ => false
  end.

(** [%m-%d] reads back the zero-padded month and day. *)
Definition month_day_check (m d : Z) : bool :=
  match z_str02 m, z_str02 d with
  | String a (String b EmptyString), String c (String e EmptyString) =>
      match first_month_day (month_alts (String a (String b (String "-" (String c (String e EmptyString)))))) with
      | Some (m', d', EmptyString) => (m' =? m) && (d' =? d)
      | _ => false
      end
  | _, _ => false
  end.

End DateHelpers.

(* ------------------------------------------------------------------ *)
(** * The core on a heap of Python objects *)

Module Heap.
Open Scope Q_scope.
Open Scope string_scope.

(* ------------------------------------------------------------------ *)
(** ** Python objects on a heap *)

(** Python values.  A dict or a list lives in the heap at a location, so
    that every reference to it sees the writes made through any other; a
    number is an [int] or a [float] (a finite one as a rational). *)
Inductive pval :=
| VNone
| VBool (b : bool)
| VNum (f : pyfloat)
| VStr (s : string)
| VTuple (items : list pval)
| VRef (loc : nat).

(** A heap object: a dict (its items in insertion order) or a list.  A
    [set] is modelled as a dict whose keys are its elements. *)
Inductive obj :=
| ODict (items : list (pval * pval))
| OList (items : list pval).

(** The heap and the next free location.  [view s] is the heap as the
    program sees it: every allocated location holds its object; a location
    from [st_next] on is unallocated and reads as an empty dict. *)
Record store := mkStore { st_heap : nat -> obj; st_next : nat }.

Definition view (s : store) (l : nat) : obj :=
  if Nat.ltb l (st_next s) then st_heap s l else ODict [].

(** A JSON document as [json.loads] returns it. *)
Inductive json :=
| JNull
| JBool (b : bool)
| JNum (f : pyfloat)
| JStr (s : string)
| JArr (items : list json)
| JObj (items : list (string * json)).

(** ** Floats *)

Definition fnum (q : Q) : pval := VNum (FFin q).

Definition fneg (a : pyfloat) : pyfloat :=
  match a with FFin x => FFin (- x) | FInf n => FInf (negb n) | FNaN => FNaN end.

Definition fadd (a b : pyfloat) : pyfloat :=
  match a, b with
  | FFin x, FFin y => FFin (x + y)
  | FNaN, _ | _, FNaN => FNaN
  | FInf n1, FInf n2 => if Bool.eqb n1 n2 then FInf n1 else FNaN
  | FInf n, FFin _ | FFin _, FInf n => FInf n
  end.

Definition fsub (a b : pyfloat) : pyfloat := fadd a (fneg b).

Definition fmul (a b : pyfloat) : pyfloat :=
  match a, b with
  | FFin x, FFin y => FFin (x * y)
  | FNaN, _ | _, FNaN => FNaN
  | FInf n1, FInf n2 => FInf (xorb n1 n2)
  | FInf n, FFin y | FFin y, FInf n =>
      if Qeq_bool y 0 then FNaN else FInf (xorb n (Qlt_bool y 0))
  end.

(** [a / b] for a non-zero [b]: every division below is guarded by a test
    that its divisor is non-zero (Python would raise [ZeroDivisionError]). *)
Definition fdiv (a b : pyfloat) : pyfloat :=
  match a, b with
  | FFin x, FFin y => FFin (x / y)
  | FNaN, _ | _, FNaN => FNaN
  | FFin _, FInf _ => FFin 0
  | FInf n, FFin y => FInf (xorb n (Qlt_bool y 0))
  | FInf _, FInf _ => FNaN
  end.

(** [a < b] and [a <= b]: false when either is [nan]. *)
Definition flt (a b : pyfloat) : bool :=
  match a, b with
  | FFin x, FFin y => Qlt_bool x y
  | FNaN, _ | _, FNaN => false
  | FInf n1, FInf n2 => n1 && negb n2
  | FInf n, FFin _ => n
  | FFin _, FInf n => negb n
  end.

Definition fle (a b : pyfloat) : bool :=
  match a, b with
  | FFin x, FFin y => Qle_bool x y
  | FNaN, _ | _, FNaN => false
  | FInf n1, FInf n2 => n1 || negb n2
  | FInf n, FFin _ => n
  | FFin _, FInf n => negb n
  end.

(** [a == b] on numbers. *)
Definition feq (a b : pyfloat) : bool :=
  match a, b with
  | FFin x, FFin y => Qeq_bool x y
  | FInf n1, FInf n2 => Bool.eqb n1 n2
  | _, _ => false
  end.

Definition ftruthy (a : pyfloat) : bool :=
  match a with FFin x => negb (Qeq_bool x 0) | _ => true end.

(** [round(x, 1)] *)
Definition fround1 (a : pyfloat) : pyfloat :=
  match a with FFin x => FFin (round1 x) | other => other end.

(** ** Equality, hashing and truth of values *)

Definition num_of_bool (b : bool) : pyfloat := FFin (if b then 1 else 0).

(** [a == b] for hashable values, as dict keys compare ([True == 1]). *)
Fixpoint key_eq (a b : pval) : bool :=
  match a, b with
  | VNone, VNone => true
  | VBool x, VBool y => Bool.eqb x y
  | VBool x, VNum f => feq (num_of_bool x) f
  | VNum f, VBool y => feq f (num_of_bool y)
  | VNum f, VNum g => feq f g
  | VStr x, VStr y => String.eqb x y
  | VTuple xs, VTuple ys =>
      (fix go (xs ys : list pval) : bool :=
         match xs, ys with
         | [], [] => true
         | x :: xs', y :: ys' => key_eq x y && go xs' ys'
         | _, _ => false
         end) xs ys
  | _, _ => false
  end.

(** A dict and a list are unhashable, and so is a tuple holding one. *)
Fixpoint hashable (v : pval) : bool :=
  match v with
  | VRef _ => false
  | VTuple xs => (fix go (xs : list pval) : bool :=
                    match xs with [] => true | x :: r => hashable x && go r end) xs
  | _ => true
  end.

Definition py_eq_str (v : pval) (s : string) : bool :=
  match v with VStr t => String.eqb t s | _ => false end.

(** [v == n] for an [int] literal [n]. *)
Definition py_eq_int (v : pval) (n : Z) : bool :=
  match v with
  | VNum f => feq f (FFin (inject_Z n))
  | VBool b => feq (num_of_bool b) (FFin (inject_Z n))
  | _ => false
  end.

Definition py_truthy (h : nat -> obj) (v : pval) : bool :=
  match v with
  | VNone => false
  | VBool b => b
  | VNum f => ftruthy f
  | VStr s => negb (String.eqb s "")
  | VTuple items => match items with [] => false | _ => true end
  | VRef l => match h l with
              | ODict [] | OList [] => false
              | _ => true
              end
  end.

(** [a or b] *)
Definition py_or (h : nat -> obj) (a b : pval) : pval := if py_truthy h a then a else b.

(** ** Dict items *)

Fixpoint assoc_get (items : list (pval * pval)) (k : pval) : option pval :=
  match items with
  | [] => None
  | (k', v) :: rest => if key_eq k' k then Some v else assoc_get rest k
  end.

(** [d[k] = v]: replaces the value of an equal key in place, otherwise
    appends the item. *)
Fixpoint assoc_set (items : list (pval * pval)) (k v : pval) : list (pval * pval) :=
  match items with
  | [] => [(k, v)]
  | (k', v') :: rest =>
      if key_eq k' k then (k', v) :: rest else (k', v') :: assoc_set rest k v
  end.

Definition sdict (items : list (string * pval)) : obj :=
  ODict (map (fun kv => (VStr (fst kv), snd kv)) items).

(** ** The state and error monad *)

Definition M (A : Type) := store -> store * result A.

Definition mret {A} (a : A) : M A := fun s => (s, Ok a).

Definition mbind {A B} (m : M A) (k : A -> M B) : M B :=
  fun s => let (s1, r) := m s in
           match r with Ok a => k a s1 | Err e => (s1, Err e) end.

Notation "x <-- m ;;; k" := (mbind m (fun x => k))
  (at level 61, m at next level, right associativity).

Definition mlift {A} (r : result A) : M A := fun s => (s, r).

(** A computation that only reads the heap. *)
Definition mread {A} (f : (nat -> obj) -> result A) : M A := fun s => (s, f (view s)).

(** A new object at the next free location. *)
Definition alloc (o : obj) : M pval :=
  fun s => (mkStore (fun l => if Nat.eqb l (st_next s) then o else st_heap s l)
                    (S (st_next s)),
            Ok (VRef (st_next s))).

(** Replaces the object at a location. *)
Definition put (l : nat) (o : obj) : M unit :=
  fun s => (mkStore (fun l' => if Nat.eqb l' l then o else st_heap s l') (st_next s), Ok tt).

(** [for x in xs: body(x)] *)
Fixpoint mfor {A} (xs : list A) (body : A -> M unit) : M unit :=
  match xs with
  | [] => mret tt
  | x :: rest => _ <-- body x ;;; mfor rest body
  end.

(** A loop carrying a value from one iteration to the next. *)
Fixpoint mfold {A B} (f : B -> A -> M B) (acc : B) (xs : list A) : M B :=
  match xs with
  | [] => mret acc
  | x :: rest => acc' <-- f acc x ;;; mfold f acc' rest
  end.

(** ** Python operations *)

(** [x.get(k, default)]; [.get] of anything but a dict raises
    [AttributeError]. *)
Definition py_get (h : nat -> obj) (x : pval) (k : string) (default : pval) : result pval :=
  match x with
  | VRef l => match h l with
              | ODict items => Ok (match assoc_get items (VStr k) with
                                   | Some v => v | None => default end)
              | OList _ => Err AttributeError
              end
  | _ => Err AttributeError
  end.

(** [k in x] for a dict [x] and a [str] key. *)
Definition py_has_key (h : nat -> obj) (x : pval) (k : string) : bool :=
  match x with
  | VRef l => match h l with
              | ODict items => match assoc_get items (VStr k) with Some _ => true | None => false end
              | OList _ => false
              end
  | _ => false
  end.

(** [x[k]] for a key that is not an integer: a dict looks it up, anything
    else raises [TypeError]. *)
Definition py_getitem (h : nat -> obj) (x : pval) (k : pval) : result pval :=
  match x with
  | VRef l => match h l with
              | ODict items =>
                  if hashable k then
                    match assoc_get items k with Some v => Ok v | None => Err KeyError end
                  else Err TypeError
              | OList _ => Err TypeError
              end
  | _ => Err TypeError
  end.

(** [x[k] = v] *)
Definition py_setitem (x k v : pval) : M unit :=
  fun s =>
    match x with
    | VRef l => match view s l with
                | ODict items =>
                    if hashable k then put l (ODict (assoc_set items k v)) s
                    else (s, Err TypeError)
                | OList _ => (s, Err TypeError)
                end
    | _ => (s, Err TypeError)
    end.

(** [x.append(v)] *)
Definition py_append (x v : pval) : M unit :=
  fun s =>
    match x with
    | VRef l => match view s l with
                | OList items => put l (OList (items ++ [v])) s
                | ODict _ => (s, Err AttributeError)
                end
    | _ => (s, Err AttributeError)
    end.

Fixpoint str_chars (s : string) : list pval :=
  match s with
  | EmptyString => []
  | String c r => VStr (String c EmptyString) :: str_chars r
  end.

(** [for item in x]: a dict iterates over its keys, a string over its
    characters. *)
Definition py_iter (h : nat -> obj) (x : pval) : result (list pval) :=
  match x with
  | VRef l => match h l with
              | OList items => Ok items
              | ODict items => Ok (map fst items)
              end
  | VStr s => Ok (str_chars s)
  | VTuple items => Ok items
  | _ => Err TypeError
  end.

(** [d.items()] *)
Definition py_items (h : nat -> obj) (x : pval) : result (list (pval * pval)) :=
  match x with
  | VRef l => match h l with ODict items => Ok items | OList _ => Err AttributeError end
  | _ => Err AttributeError
  end.

(** [x[0]] *)
Definition py_index0 (h : nat -> obj) (x : pval) : result pval :=
  match x with
  | VRef l => match h l with
              | OList (v :: _) => Ok v
              | OList [] => Err IndexError
              | ODict items =>
                  match assoc_get items (fnum 0) with Some v => Ok v | None => Err KeyError end
              end
  | VStr (String c _) => Ok (VStr (String c EmptyString))
  | VStr EmptyString => Err IndexError
  | VTuple (v :: _) => Ok v
  | VTuple [] => Err IndexError
  | _ => Err TypeError
  end.

Definition py_len (h : nat -> obj) (x : pval) : result nat :=
  match x with
  | VRef l => match h l with OList items => Ok (List.length items)
                        | ODict items => Ok (List.length items) end
  | VStr s => Ok (String.length s)
  | VTuple items => Ok (List.length items)
  | _ => Err TypeError
  end.

(** A number operand: an [int] (a [bool] being one) or a [float]. *)
Definition py_num (v : pval) : result pyfloat :=
  match v with
  | VNum f => Ok f
  | VBool b => Ok (num_of_bool b)
  | _ => Err TypeError
  end.

(** [float(x)] *)
Definition py_float_of (v : pval) : result pyfloat :=
  match v with
  | VNum f => Ok f
  | VBool b => Ok (num_of_bool b)
  | VStr s => py_float s
  | _ => Err TypeError
  end.

(** [int(x)] *)
Definition py_int_of (v : pval) : result Z :=
  match v with
  | VNum f => int_of_float f
  | VBool b => Ok (if b then 1%Z else 0%Z)
  | VStr s => py_int s
  | _ => Err TypeError
  end.

(** [isinstance(x, str)] and [isinstance(x, dict)] *)
Definition is_str (v : pval) : bool := match v with VStr _ => true | _ => false end.

Definition is_dict (h : nat -> obj) (v : pval) : bool :=
  match v with
  | VRef l => match h l with ODict _ => true | OList _ => false end
  | _ => false
  end.

(** [SPORT_MAP.get(x)] (constants.py): the map [{1: "swim", 2: "bike",
    3: "run"}]; an unhashable key raises [TypeError]. *)
Definition sport_map_get (x : pval) : result (option string) :=
  if negb (hashable x) then Err TypeError
  else if py_eq_int x 1 then Ok (Some "swim")
  else if py_eq_int x 2 then Ok (Some "bike")
  else if py_eq_int x 3 then Ok (Some "run")
  else Ok None.

(** [SPORT_ID_BY_NAME.get(sport, 3)] *)
Definition sport_id_by_name (sport : string) : Z :=
  if String.eqb sport "swim" then 1
  else if String.eqb sport "bike" then 2
  else if String.eqb sport "run" then 3
  else 3.

(** Stable insertion sorts: by a [str] key, ascending ([list.sort] and
    [sorted] with a key), and by an [int] count, descending
    ([reverse=True] keeps equal items in their order). *)
Fixpoint insert_by_str {A} (key : A -> string) (x : A) (l : list A) : list A :=
  match l with
  | [] => [x]
  | y :: r => match String.compare (key y) (key x) with
              | Gt => x :: l
              | _ => y :: insert_by_str key x r
              end
  end.

Definition sort_by_str {A} (key : A -> string) (l : list A) : list A :=
  fold_left (fun acc x => insert_by_str key x acc) l [].

Fixpoint insert_desc {A} (key : A -> Q) (x : A) (l : list A) : list A :=
  match l with
  | [] => [x]
  | y :: r => if Qlt_bool (key y) (key x) then x :: l else y :: insert_desc key x r
  end.

Definition sort_desc {A} (key : A -> Q) (l : list A) : list A :=
  fold_left (fun acc x => insert_desc key x acc) l [].

(** [[f(x) for x in xs]] *)
Fixpoint mmap {A B} (f : A -> M B) (xs : list A) : M (list B) :=
  match xs with
  | [] => mret []
  | x :: rest => y <-- f x ;;; ys <-- mmap f rest ;;; mret (y :: ys)
  end.

(** ** What the code leaves to Python and its platform

    [json.loads] ([None] when it raises), [str()] of a value that is not a
    [str], the exception of [{}[:10]] ([TypeError] before Python 3.12,
    [KeyError] from it on), the order [sorted(..., key=value, reverse=True)]
    gives to float values ([nan] compares false both ways) and the text of
    [%Y] for a year below 1000. *)
Record pylib := mkPylib {
  json_loads : string -> option json;
  py_repr : (nat -> obj) -> pval -> string;
  dict_slice_error : exn;
  sort_by_value_desc : list (pval * pval) -> list (pval * pval);
  year_below_1000 : Z -> string
}.

Definition vint (z : Z) : pval := VNum (FFin (inject_Z z)).

(** [str(v)] *)
Definition py_str (py : pylib) (h : nat -> obj) (v : pval) : string :=
  match v with VStr s => s | _ => py_repr py h v end.

(** [str(v)[:10]] *)
Definition str10 (py : pylib) (h : nat -> obj) (v : pval) : string :=
  substring 0 10 (py_str py h v).

(** [value[:10]] as [_workout_date] slices it before [strptime]: a list or a
    tuple slices, and [strptime] then refuses it. *)
Definition day_text (py : pylib) (h : nat -> obj) (v : pval) : result string :=
  match v with
  | VStr s => Ok s
  | VRef l => match h l with ODict _ => Err (dict_slice_error py) | OList _ => Err TypeError end
  | _ => Err TypeError
  end.

(** [x.get(k, {})] and [x.get(k, [])]: the default is a new object, made
    once [.get] is found on [x] and before the lookup. *)
Definition py_get_new (x k : pval) (o : obj) : M pval :=
  _ <-- mread (fun h => if is_dict h x then Ok tt else Err AttributeError) ;;;
  d <-- alloc o ;;;
  mread (fun h => if hashable k then
                    match x with
                    | VRef l => match h l with
                                | ODict items => Ok (match assoc_get items k with
                                                     | Some v => v | None => d end)
                                | OList _ => Err AttributeError
                                end
                    | _ => Err AttributeError
                    end
                  else Err TypeError).

(** [d[k] += x] on a plain dict. *)
Definition py_iadd (d k : pval) (x : pyfloat) : M unit :=
  v <-- mread (fun h => py_getitem h d k) ;;;
  n <-- mlift (py_num v) ;;;
  py_setitem d k (VNum (fadd n x)).

(** [d[k] += x] on a [defaultdict(float)] or a [Counter]: a missing key
    counts as [0]. *)
Definition dd_iadd (d k : pval) (x : pyfloat) : M unit :=
  _ <-- mlift (if hashable k then Ok tt else Err TypeError) ;;;
  items <-- mread (fun h => py_items h d) ;;;
  n <-- (match assoc_get items k with Some v => mlift (py_num v) | None => mret (FFin 0) end) ;;;
  py_setitem d k (VNum (fadd n x)).

(** [d[k]] on a [defaultdict]: a missing key gets [factory()]. *)
Definition dd_getitem (d k : pval) (factory : M pval) : M pval :=
  _ <-- mlift (if hashable k then Ok tt else Err TypeError) ;;;
  items <-- mread (fun h => py_items h d) ;;;
  match assoc_get items k with
  | Some v => mret v
  | None => v <-- factory ;;; _ <-- py_setitem d k v ;;; mret v
  end.

(** [x[:] = items] *)
Definition py_list_replace (x : pval) (items : list pval) : M unit :=
  fun s =>
    match x with
    | VRef l => match view s l with
                | OList _ => put l (OList items) s
                | ODict _ => (s, Err TypeError)
                end
    | _ => (s, Err TypeError)
    end.

(** [*.sort(key=lambda item: str(item.get("workoutDay", "")))]: every key
    is computed first, then the items are sorted stably. *)
Definition sort_by_day (py : pylib) (h : nat -> obj) (items : list pval) : result (list pval) :=
  keyed <- fold_right (fun w acc =>
             r <- acc ;; v <- py_get h w "workoutDay" (VStr "") ;; Ok ((py_str py h v, w) :: r))
             (Ok []) items ;;
  Ok (map snd (sort_by_str fst keyed)).

Definition py_sort_by_day (py : pylib) (x : pval) : M unit :=
  items <-- mread (fun h => py_iter h x) ;;;
  sorted <-- mread (fun h => sort_by_day py h items) ;;;
  py_list_replace x sorted.

(** [sum(values)] *)
Definition sum_nums (vs : list pval) : result pyfloat :=
  fold_left (fun acc v => a <- acc ;; n <- py_num v ;; Ok (fadd a n)) vs (Ok (FFin 0)).

(** The text of a key that is a [str]: the sorted keys below are the [str]
    keys the code inserted. *)
Definition pval_text (v : pval) : string := match v with VStr s => s | _ => "" end.

(** [json.loads] builds its objects on the heap. *)
Fixpoint alloc_json (j : json) : M pval :=
  match j with
  | JNull => mret VNone
  | JBool b => mret (VBool b)
  | JNum f => mret (VNum f)
  | JStr s => mret (VStr s)
  | JArr items =>
      vs <-- (fix go (l : list json) : M (list pval) :=
                match l with
                | [] => mret []
                | x :: r => v <-- alloc_json x ;;; vs <-- go r ;;; mret (v :: vs)
                end) items ;;;
      alloc (OList vs)
  | JObj items =>
      kvs <-- (fix go (l : list (string * json)) : M (list (pval * pval)) :=
                 match l with
                 | [] => mret []
                 | (k, x) :: r => v <-- alloc_json x ;;; kvs <-- go r ;;; mret ((VStr k, v) :: kvs)
                 end) items ;;;
      alloc (ODict (fold_left (fun acc kv => assoc_set acc (fst kv) (snd kv)) kvs []))
  end.

(** ** [classify_zone] and [classify_week] on a float

    [classify_zone] compares [pct] with the three thresholds: [-inf] falls
    in the first zone like [easy_max] itself, [inf] and [nan] in none, like
    a value above all three. *)
Definition classify_zone_f (pct : pyfloat) (block_type intensity_class : string)
  (th : thresholds) : string :=
  let q := match pct with
           | FFin x => x
           | FInf true => easy_max th
           | _ => 1 + Qmax (Qmax (easy_max th) (lt1_max th)) (lt2_max th)
           end in
  classify_zone q block_type intensity_class th.

Definition classify_week_f (total_distance : pyfloat) (total_sessions : Z) (has_race : bool)
  (delta_pct : option pyfloat) : string :=
  if has_race then "race"
  else if (total_sessions <=? 2)%Z && flt total_distance (FFin 20000) then "off"
  else match delta_pct with
       | None => "start"
       | Some d =>
           if flt d (FFin (-25)) then "recovery"
           else if flt (FFin 15) d then "build"
           else "maintenance"
       end.

(* ------------------------------------------------------------------ *)
(** ** [parse_workout_zones] on the heap (analysis.py) *)

Definition zones_obj (easy lt1 lt2 vo2 : pyfloat) : obj :=
  sdict [("easy", VNum easy); ("lt1", VNum lt1); ("lt2", VNum lt2); ("vo2", VNum vo2)].

Definition zone_keys : list string := ["easy"; "lt1"; "lt2"; "vo2"].

(** [float(x or 0)] *)
Definition float_or0 (h : nat -> obj) (v : pval) : result pyfloat :=
  py_float_of (py_or h v (fnum 0)).

(** The early returns: all of [float(workout.get("distance") or 0)] easy. *)
Definition easy_only_h (workout : pval) : M pval :=
  distance <-- mread (fun h => v <- py_get h workout "distance" VNone ;; float_or0 h v) ;;;
  z <-- alloc (zones_obj distance (FFin 0) (FFin 0) (FFin 0)) ;;;
  mret (VTuple [z; VNum distance]).

Definition _step_distance_raw_h (step : pval) (threshold_speed : Q) : M (pyfloat * pyfloat) :=
  length <-- py_get_new step (VStr "length") (ODict []) ;;;
  unit <-- mread (fun h => py_get h length "unit" VNone) ;;;
  value <-- mread (fun h => v <- py_get h length "value" VNone ;; float_or0 h v) ;;;
  targets <-- (_ <-- mread (fun h => if is_dict h step then Ok tt else Err AttributeError) ;;;
               e <-- alloc (ODict []) ;;;
               l <-- alloc (OList [e]) ;;;
               mread (fun h => py_get h step "targets" l)) ;;;
  target <-- (tr <-- mread (fun h => Ok (py_truthy h targets)) ;;;
              if tr then mread (fun h => py_index0 h targets) else alloc (ODict [])) ;;;
  min_value <-- mread (fun h => v <- py_get h target "minValue" VNone ;; float_or0 h v) ;;;
  max_value <-- mread (fun h => v <- py_get h target "maxValue" VNone ;;
                                py_float_of (py_or h v (VNum min_value))) ;;;
  let pct := if flt min_value max_value then fdiv (fadd min_value max_value) (FFin 2)
             else min_value in
  if py_eq_str unit "meter" then mret (value, pct)
  else if py_eq_str unit "second" then
    let speed := if flt (FFin 0) pct then fmul (FFin threshold_speed) (fdiv pct (FFin 100))
                 else FFin (threshold_speed * (7 # 10)) in
    mret (fmul value speed, pct)
  else mret (FFin 0, pct).

(** One step of a block: [zones[zone] += raw_distance * rep_count]. *)
Definition zones_step_h (py : pylib) (threshold_speed : Q) (th : thresholds) (zones block_type : pval)
  (rep_count : Z) (step : pval) : M unit :=
  rp <-- _step_distance_raw_h step threshold_speed ;;;
  let (raw_distance, pct) := rp in
  ic <-- mread (fun h => v <- py_get h step "intensityClass" (VStr "active") ;; Ok (py_str py h v)) ;;;
  zone <-- mlift (match block_type with
                  | VStr bt => Ok (classify_zone_f pct bt ic th)
                  | _ => Err AttributeError
                  end) ;;;
  py_iadd zones (VStr zone) (fmul raw_distance (FFin (inject_Z rep_count))).

Definition zones_block_h (py : pylib) (threshold_speed : Q) (th : thresholds) (zones block : pval)
  : M unit :=
  block_type <-- mread (fun h => py_get h block "type" (VStr "step")) ;;;
  rep_count <-- (if py_eq_str block_type "repetition" then
                   len <-- py_get_new block (VStr "length") (ODict []) ;;;
                   v <-- mread (fun h => py_get h len "value" (vint 1)) ;;;
                   mlift (py_int_of v)
                 else mlift (py_int_of (vint 1))) ;;;
  steps <-- py_get_new block (VStr "steps") (OList []) ;;;
  items <-- mread (fun h => py_iter h steps) ;;;
  mfor items (zones_step_h py threshold_speed th zones block_type rep_count).

Definition parse_workout_zones_h (py : pylib) (workout : pval) (threshold_speed : Q)
  (th : thresholds) : M pval :=
  structure <-- mread (fun h => py_get h workout "structure" VNone) ;;;
  tr <-- mread (fun h => Ok (py_truthy h structure)) ;;;
  if negb tr then easy_only_h workout else
  loaded <-- (match structure with
              | VStr s => match json_loads py s with
                          | None => mret None
                          | Some j => v <-- alloc_json j ;;; mret (Some v)
                          end
              | _ => mret (Some structure)
              end) ;;;
  match loaded with
  | None => easy_only_h workout
  | Some structure =>
      metric <-- mread (fun h => py_get h structure "primaryIntensityMetric" (VStr "")) ;;;
      known <-- mlift (if hashable metric
                       then Ok (match metric with VStr m => str_in m PERCENT_METRICS | _ => false end)
                       else Err TypeError) ;;;
      if negb known then easy_only_h workout else
      zones <-- alloc (zones_obj (FFin 0) (FFin 0) (FFin 0) (FFin 0)) ;;;
      blocks <-- py_get_new structure (VStr "structure") (OList []) ;;;
      items <-- mread (fun h => py_iter h blocks) ;;;
      _ <-- mfor items (zones_block_h py threshold_speed th zones) ;;;
      raw_total <-- mread (fun h => items <- py_items h zones ;; sum_nums (map snd items)) ;;;
      actual <-- mread (fun h => v <- py_get h workout "distance" VNone ;; float_or0 h v) ;;;
      if flt (FFin 0) raw_total && flt (FFin 0) actual then
        let scale := fdiv actual raw_total in
        zitems <-- mread (fun h => py_items h zones) ;;;
        scaled <-- mlift (fold_left (fun acc kv => r <- acc ;; n <- py_num (snd kv) ;;
                                       Ok (assoc_set r (fst kv) (VNum (fmul n scale))))
                            zitems (Ok [])) ;;;
        z <-- alloc (ODict scaled) ;;;
        mret (VTuple [z; VNum actual])
      else if flt (FFin 0) actual && feq raw_total (FFin 0) then
        z <-- alloc (zones_obj actual (FFin 0) (FFin 0) (FFin 0)) ;;;
        mret (VTuple [z; VNum actual])
      else mret (VTuple [zones; VNum raw_total])
  end.

(* ------------------------------------------------------------------ *)
(** ** [analyze_zones] on the heap (analysis.py) *)

(** [[w for w in ws if keep(SPORT_MAP.get(w.get("workoutTypeValueId")))]] *)
Fixpoint filter_by_sport (h : nat -> obj) (keep : option string -> bool) (ws : list pval)
  : result (list pval) :=
  match ws with
  | [] => Ok []
  | w :: rest =>
      id <- py_get h w "workoutTypeValueId" VNone ;;
      sport <- sport_map_get id ;;
      kept <- filter_by_sport h keep rest ;;
      Ok (if keep sport then w :: kept else kept)
  end.

Definition period_factory : M pval :=
  alloc (sdict [("easy", fnum 0); ("lt1", fnum 0); ("lt2", fnum 0); ("vo2", fnum 0);
                ("total", fnum 0)]).

(** The body of [for workout in filtered], carrying [total]. *)
Definition zones_workout (py : pylib) (th : thresholds) (group_by : string)
  (zone_totals sessions by_period : pval) (total : pyfloat) (workout : pval) : M pyfloat :=
  day <-- mread (fun h => v <- py_get h workout "workoutDay" VNone ;;
                          Ok (str10 py h (py_or h v (VStr "")))) ;;;
  if String.eqb day "" then mret total else
  zd <-- parse_workout_zones_h py workout 4 th ;;;
  match zd with
  | VTuple [zones; dv] =>
      dist <-- mlift (py_num dv) ;;;
      let total' := fadd total dist in
      zitems <-- mread (fun h => py_items h zones) ;;;
      _ <-- mfor zitems (fun kv =>
              _ <-- (n <-- mlift (py_num (snd kv)) ;;; py_iadd zone_totals (fst kv) n) ;;;
              n <-- mlift (py_num (snd kv)) ;;;
              if flt (FFin 0) n then py_iadd sessions (fst kv) (FFin 1) else mret tt) ;;;
      dt <-- mlift (strptime_ymd day) ;;;
      period <-- (if String.eqb group_by "month" then mret (strftime_ym (year_below_1000 py) dt)
                  else mlift (get_week_key day)) ;;;
      zitems' <-- mread (fun h => py_items h zones) ;;;
      _ <-- mfor zitems' (fun kv =>
              row <-- dd_getitem by_period (VStr period) period_factory ;;;
              n <-- mlift (py_num (snd kv)) ;;;
              py_iadd row (fst kv) n) ;;;
      row <-- dd_getitem by_period (VStr period) period_factory ;;;
      _ <-- py_iadd row (VStr "total") dist ;;;
      mret total'
  | VTuple _ => mlift (Err ValueError)
  | _ => mlift (Err TypeError)
  end.

(** [value / d * 100 if d else 0] *)
Definition pct_of (h : nat -> obj) (value d : pval) : result pval :=
  if py_truthy h d then
    n <- py_num value ;; m <- py_num d ;; Ok (VNum (fmul (fdiv n m) (FFin 100)))
  else Ok (vint 0).

(** [str(filtered[0 or -1].get("workoutDay", ""))[:10] if filtered else None] *)
Definition first_last_day (py : pylib) (h : nat -> obj) (items : list pval) : result pval :=
  match items with
  | [] => Ok VNone
  | w :: _ => v <- py_get h w "workoutDay" (VStr "") ;; Ok (VStr (str10 py h v))
  end.

(** [thresholds] is [None] or the thresholds of a non-empty dict. *)
Definition analyze_zones (py : pylib) (workouts : pval) (sport group_by : string)
  (thresholds : option thresholds) : M pval :=
  let effective_thresholds :=
    match thresholds with Some t => t | None => DEFAULT_ZONE_THRESHOLDS end in
  ws <-- mread (fun h => py_iter h workouts) ;;;
  kept <-- mread (fun h => filter_by_sport h
                             (fun sp => match sp with Some s => String.eqb s sport | None => false end) ws) ;;;
  filtered <-- alloc (OList kept) ;;;
  _ <-- py_sort_by_day py filtered ;;;
  zone_totals <-- alloc (zones_obj (FFin 0) (FFin 0) (FFin 0) (FFin 0)) ;;;
  sessions <-- alloc (sdict [("easy", vint 0); ("lt1", vint 0); ("lt2", vint 0); ("vo2", vint 0)]) ;;;
  by_period <-- alloc (ODict []) ;;;
  fitems <-- mread (fun h => py_iter h filtered) ;;;
  total <-- mfold (zones_workout py effective_thresholds group_by zone_totals sessions by_period)
             (FFin 0) fitems ;;;
  distribution <-- alloc (ODict []) ;;;
  _ <-- mfor zone_keys (fun key =>
          pct <-- mread (fun h => if ftruthy total
                                  then zt <- py_getitem h zone_totals (VStr key) ;; n <- py_num zt ;;
                                       Ok (VNum (fmul (fdiv n total) (FFin 100)))
                                  else Ok (vint 0)) ;;;
          zt <-- mread (fun h => py_getitem h zone_totals (VStr key)) ;;;
          ss <-- mread (fun h => py_getitem h sessions (VStr key)) ;;;
          d <-- alloc (sdict [("distance", zt); ("pct", pct); ("sessions", ss)]) ;;;
          py_setitem distribution (VStr key) d) ;;;
  period_list <-- alloc (OList []) ;;;
  pitems <-- mread (fun h => py_items h by_period) ;;;
  _ <-- mfor (sort_by_str pval_text (map fst pitems)) (fun period =>
          bp <-- dd_getitem by_period period period_factory ;;;
          tot <-- mread (fun h => py_getitem h bp (VStr "total")) ;;;
          row <-- alloc (sdict [("period", period); ("total_distance", tot)]) ;;;
          _ <-- mfor zone_keys (fun key =>
                  bp' <-- dd_getitem by_period period period_factory ;;;
                  value <-- mread (fun h => py_getitem h bp' (VStr key)) ;;;
                  bp'' <-- dd_getitem by_period period period_factory ;;;
                  pct <-- mread (fun h => t <- py_getitem h bp'' (VStr "total") ;; pct_of h value t) ;;;
                  d <-- alloc (sdict [("distance", value); ("pct", pct)]) ;;;
                  py_setitem row (VStr key) d) ;;;
          py_append period_list row) ;;;
  start <-- mread (fun h => items <- py_iter h filtered ;; first_last_day py h items) ;;;
  end_ <-- mread (fun h => items <- py_iter h filtered ;; first_last_day py h (rev items)) ;;;
  p <-- alloc (sdict [("start", start); ("end", end_)]) ;;;
  alloc (sdict [("period", p); ("sport", VStr sport); ("total_distance", VNum total);
                ("zone_distribution", distribution); ("by_period", period_list)]).

(* ------------------------------------------------------------------ *)
(** ** [analyze_patterns] on the heap (analysis.py) *)

Definition _classification_type (py : pylib) (workout : pval) : M string :=
  c <-- py_get_new workout (VStr "classification") (ODict []) ;;;
  t <-- mread (fun h => py_get h c "type" VNone) ;;;
  mread (fun h => Ok (py_str py h (py_or h t (VStr "other")))).

(** [order.get(item, 0)] *)
Definition intensity_key (v : pval) : result Z :=
  if hashable v then Ok (match v with VStr s => _day_intensity_order s | _ => 0%Z end)
  else Err TypeError.

(** [max(values, key=...)]: the first item of greatest key. *)
Fixpoint max_by_v (best : pval) (kb : Z) (items : list pval) : result pval :=
  match items with
  | [] => Ok best
  | x :: rest => kx <- intensity_key x ;;
                 if (kb <? kx)%Z then max_by_v x kx rest else max_by_v best kb rest
  end.

Definition _day_intensity_v (values : list pval) : result pval :=
  match values with
  | [] => Ok (VStr "rest")
  | v :: rest => kv <- intensity_key v ;; max_by_v v kv rest
  end.

(** [_day_intensity(by_date.get(day, []))] *)
Definition day_intensity_of (by_date day : pval) : M pval :=
  l <-- py_get_new by_date day (OList []) ;;;
  values <-- mread (fun h => py_iter h l) ;;;
  mlift (_day_intensity_v values).

(** [v in {"lt2", "vo2"}] and the like. *)
Definition py_in_set (v : pval) (l : list string) : result bool :=
  if hashable v then Ok (match v with VStr s => str_in s l | _ => false end) else Err TypeError.

Definition HARD : list string := ["lt2"; "vo2"].

(** [strptime(day, ...)] refuses anything but a [str]. *)
Definition str_arg (v : pval) : result string :=
  match v with VStr s => Ok s | _ => Err TypeError end.

Definition patterns_workout (py : pylib) (run_by_date bike_by_date all_dates workout : pval)
  : M unit :=
  day <-- mread (fun h => v <- py_get h workout "workoutDay" (VStr "") ;; Ok (str10 py h v)) ;;;
  if String.eqb day "" then mret tt else
  _ <-- py_setitem all_dates (VStr day) VNone ;;;
  workout_type <-- _classification_type py workout ;;;
  sport <-- mread (fun h => id <- py_get h workout "workoutTypeValueId" VNone ;; sport_map_get id) ;;;
  match sport with
  | Some s =>
      if String.eqb s "run" then
        l <-- dd_getitem run_by_date (VStr day) (alloc (OList [])) ;;; py_append l (VStr workout_type)
      else if String.eqb s "bike" then
        l <-- dd_getitem bike_by_date (VStr day) (alloc (OList [])) ;;; py_append l (VStr workout_type)
      else mret tt
  | None => mret tt
  end.

(** The body of the [combinations] / [day_after] loop. *)
Definition combos_day (py : pylib) (run_by_date bike_by_date combinations day_after day : pval)
  : M unit :=
  run_intensity <-- day_intensity_of run_by_date day ;;;
  bike_intensity <-- day_intensity_of bike_by_date day ;;;
  _ <-- dd_iadd combinations (VTuple [run_intensity; bike_intensity]) (FFin 1) ;;;
  hard_run <-- mlift (py_in_set run_intensity HARD) ;;;
  hard <-- (if hard_run then mret true else mlift (py_in_set bike_intensity HARD)) ;;;
  if hard then
    dt <-- mlift (d <- str_arg day ;; strptime_ymd d) ;;;
    nd <-- mlift (add_days dt 1) ;;;
    let next_day := VStr (strftime_ymd (year_below_1000 py) nd) in
    next_run <-- day_intensity_of run_by_date next_day ;;;
    next_bike <-- day_intensity_of bike_by_date next_day ;;;
    k <-- mread (fun h => Ok ("run=" ++ py_str py h run_intensity ++ ",bike=" ++ py_str py h bike_intensity)) ;;;
    c <-- dd_getitem day_after (VStr k) (alloc (ODict [])) ;;;
    k2 <-- mread (fun h => Ok ("run=" ++ py_str py h next_run ++ ",bike=" ++ py_str py h next_bike)) ;;;
    dd_iadd c (VStr k2) (FFin 1)
  else mret tt.

Definition weekly_factory : M pval :=
  alloc (sdict [("run_lt2", vint 0); ("bike_lt2", vint 0); ("run_vo2", vint 0); ("total_hard", vint 0)]).

Definition weekly_inc (weekly week_key : pval) (field : string) : M unit :=
  r <-- dd_getitem weekly week_key weekly_factory ;;; py_iadd r (VStr field) (FFin 1).

Definition weekly_day (py : pylib) (run_by_date bike_by_date weekly day : pval) : M unit :=
  dt <-- mlift (d <- str_arg day ;; strptime_ymd d) ;;;
  let week_key := VStr (week_key_of dt) in
  run_intensity <-- day_intensity_of run_by_date day ;;;
  bike_intensity <-- day_intensity_of bike_by_date day ;;;
  _ <-- (if py_eq_str run_intensity "lt2" then weekly_inc weekly week_key "run_lt2" else mret tt) ;;;
  _ <-- (if py_eq_str run_intensity "vo2" then weekly_inc weekly week_key "run_vo2" else mret tt) ;;;
  _ <-- (if py_eq_str bike_intensity "lt2" then weekly_inc weekly week_key "bike_lt2" else mret tt) ;;;
  r <-- mlift (py_in_set run_intensity HARD) ;;;
  _ <-- (if r then weekly_inc weekly week_key "total_hard" else mret tt) ;;;
  b <-- mlift (py_in_set bike_intensity HARD) ;;;
  if b then weekly_inc weekly week_key "total_hard" else mret tt.

(** [for idx in range(1, len(week_keys))] *)
Fixpoint risk_loop (weekly risk_factors : pval) (week_keys : list pval) : M unit :=
  match week_keys with
  | prev_key :: ((curr_key :: _) as rest) =>
      pr <-- dd_getitem weekly prev_key weekly_factory ;;;
      prev_val <-- mread (fun h => v <- py_getitem h pr (VStr "total_hard") ;; py_num v) ;;;
      cr <-- dd_getitem weekly curr_key weekly_factory ;;;
      curr_val <-- mread (fun h => v <- py_getitem h cr (VStr "total_hard") ;; py_num v) ;;;
      _ <-- (if flt (FFin 0) prev_val then
               let increase := fmul (fdiv (fsub curr_val prev_val) prev_val) (FFin 100) in
               if fle (FFin 40) increase then
                 d <-- alloc (sdict [("type", VStr "hard_session_spike"); ("week", curr_key);
                                     ("increase_pct", VNum (fround1 increase));
                                     ("severity", VStr (if fle (FFin 60) increase then "high" else "medium"));
                                     ("recommendation",
                                      VStr "Consider a recovery week or reducing intensity density")]) ;;;
                 py_append risk_factors d
               else mret tt
             else mret tt) ;;;
      risk_loop weekly risk_factors rest
  | _ => mret tt
  end.

(** The count of a [Counter] item: the counts are the [int]s [+= 1] made. *)
Definition count_q (kv : pval * pval) : Q :=
  match snd kv with VNum (FFin q) => q | _ => 0 end.

(** [sum(count for (run, bike), count in combinations.items() if cond)] *)
Definition combo_sum (items : list (pval * pval)) (cond : pval -> pval -> result bool)
  : result pyfloat :=
  fold_left (fun acc kv =>
               a <- acc ;;
               match fst kv with
               | VTuple [run; bike] =>
                   c <- cond run bike ;;
                   if c then n <- py_num (snd kv) ;; Ok (fadd a n) else Ok a
               | _ => Err ValueError
               end) items (Ok (FFin 0)).

Definition both_in (l1 l2 : list string) (a b : pval) : result bool :=
  x <- py_in_set a l1 ;; if x then py_in_set b l2 else Ok false.

Definition EASYISH : list string := ["easy"; "rest"; "other"].

Definition analyze_patterns (py : pylib) (workouts : pval)
  (multi_sport injury_risk coach_analysis : bool) : M pval :=
  ws <-- mread (fun h => py_iter h workouts) ;;;
  kept <-- mread (fun h => filter_by_sport h
                             (fun sp => match sp with Some s => str_in s ["run"; "bike"] | None => false end) ws) ;;;
  rows <-- alloc (OList kept) ;;;
  _ <-- py_sort_by_day py rows ;;;
  run_by_date <-- alloc (ODict []) ;;;
  bike_by_date <-- alloc (ODict []) ;;;
  all_dates <-- alloc (ODict []) ;;;
  ritems <-- mread (fun h => py_iter h rows) ;;;
  _ <-- mfor ritems (patterns_workout py run_by_date bike_by_date all_dates) ;;;
  dates <-- mread (fun h => py_iter h all_dates) ;;;
  let ordered_dates := sort_by_str pval_text dates in
  combinations <-- alloc (ODict []) ;;;
  day_after <-- alloc (ODict []) ;;;
  _ <-- mfor ordered_dates (combos_day py run_by_date bike_by_date combinations day_after) ;;;
  weekly <-- alloc (ODict []) ;;;
  _ <-- mfor ordered_dates (weekly_day py run_by_date bike_by_date weekly) ;;;
  risk_factors <-- alloc (OList []) ;;;
  _ <-- (if injury_risk then
           wk <-- mread (fun h => py_iter h weekly) ;;;
           risk_loop weekly risk_factors (sort_by_str pval_text wk)
         else mret tt) ;;;
  date_range <-- alloc (sdict [("start", match ordered_dates with d :: _ => d | [] => VNone end);
                               ("end", match rev ordered_dates with d :: _ => d | [] => VNone end)]) ;;;
  citems <-- mread (fun h => py_items h combinations) ;;;
  same_day <-- mmap (fun kv =>
                 match fst kv with
                 | VTuple [run; bike] => alloc (sdict [("run", run); ("bike", bike); ("count", snd kv)])
                 | _ => mlift (Err ValueError)
                 end) (sort_desc count_q citems) ;;;
  same_day_l <-- alloc (OList same_day) ;;;
  dap <-- alloc (ODict []) ;;;
  daitems <-- mread (fun h => py_items h day_after) ;;;
  _ <-- mfor (sort_by_str (fun kv => pval_text (fst kv)) daitems) (fun kv =>
          citems' <-- mread (fun h => py_items h (snd kv)) ;;;
          ds <-- mmap (fun nc => alloc (sdict [("next_day", fst nc); ("count", snd nc)])) citems' ;;;
          l <-- alloc (OList ds) ;;;
          py_setitem dap (fst kv) l) ;;;
  wkeys <-- mread (fun h => py_iter h weekly) ;;;
  weekly_load <-- mmap (fun week =>
                    r <-- dd_getitem weekly week weekly_factory ;;;
                    items <-- mread (fun h => py_items h r) ;;;
                    alloc (ODict (fold_left (fun acc kv => assoc_set acc (fst kv) (snd kv))
                                            items [(VStr "week", week)])))
                  (sort_by_str pval_text wkeys) ;;;
  weekly_load_l <-- alloc (OList weekly_load) ;;;
  payload <-- alloc (sdict [("date_range", date_range); ("same_day_combinations", same_day_l);
                            ("day_after_patterns", dap); ("weekly_load", weekly_load_l)]) ;;;
  _ <-- (if multi_sport then
           citems'' <-- mread (fun h => py_items h combinations) ;;;
           a <-- mlift (combo_sum citems'' (both_in HARD HARD)) ;;;
           b <-- mlift (combo_sum citems'' (both_in HARD EASYISH)) ;;;
           c <-- mlift (combo_sum citems'' (fun run bike => both_in HARD EASYISH bike run)) ;;;
           d <-- alloc (sdict [("same_day_both_hard", VNum a); ("hard_run_easy_bike", VNum b);
                               ("hard_bike_easy_run", VNum c)]) ;;;
           py_setitem payload (VStr "hard_day_correlation") d
         else mret tt) ;;;
  _ <-- (if injury_risk then py_setitem payload (VStr "risk_factors") risk_factors else mret tt) ;;;
  _ <-- (if coach_analysis then
           d <-- alloc (sdict [("note", VStr "Coach analysis requires additional coach metadata in workout comments.");
                               ("supported", VBool true)]) ;;;
           py_setitem payload (VStr "coach_analysis") d
         else mret tt) ;;;
  mret payload.

(* ------------------------------------------------------------------ *)
(** ** [build_weekly_analysis] on the heap (analysis.py) *)

Definition sport_factory : M pval :=
  by_type <-- alloc (ODict []) ;;;
  quality <-- alloc (OList []) ;;;
  alloc (sdict [("distance", fnum 0); ("sessions", vint 0); ("tss", fnum 0);
                ("by_type", by_type); ("quality_workouts", quality)]).

(** The factory of the [weeks] defaultdict. *)
Definition week_factory : M pval :=
  swim <-- sport_factory ;;;
  bike <-- sport_factory ;;;
  run <-- sport_factory ;;;
  by_sport <-- alloc (sdict [("swim", swim); ("bike", bike); ("run", run)]) ;;;
  alloc (sdict [("week", VStr ""); ("start_date", VStr ""); ("end_date", VStr "");
                ("by_sport", by_sport); ("strength_sessions", vint 0); ("rest_days", vint 0);
                ("total_distance", fnum 0); ("total_tss", fnum 0); ("total_sessions", vint 0);
                ("pattern", VStr "")]).

(** [float(workout.get(a) or workout.get(b) or 0.0)] *)
Definition float_or_or (h : nat -> obj) (workout : pval) (a b : string) : result pyfloat :=
  x <- py_get h workout a VNone ;;
  if py_truthy h x then py_float_of x
  else y <- py_get h workout b VNone ;; py_float_of (py_or h y (fnum 0)).

Definition QUALITY : list string := ["lt1"; "lt2"; "vo2"; "race"; "test"; "sprint"].

Definition option_str_eqb (x : option string) (s : string) : bool :=
  match x with Some t => String.eqb t s | None => false end.

(** The body of [for workout in workouts]. *)
Definition weekly_workout (py : pylib) (sport_filter : string) (weeks workout : pval) : M unit :=
  day <-- mread (fun h => py_get h workout "workoutDay" VNone) ;;;
  present <-- mread (fun h => Ok (py_truthy h day)) ;;;
  if negb present then mret tt else
  sport_id <-- mread (fun h => py_get h workout "workoutTypeValueId" VNone) ;;;
  sport <-- mlift (sport_map_get sport_id) ;;;
  if negb (String.eqb sport_filter "all") && negb (option_str_eqb sport sport_filter)
  then mret tt else
  week_key <-- mread (fun h => s <- day_text py h day ;; get_week_key s) ;;;
  week_start <-- mread (fun h => s <- day_text py h day ;; get_week_start s) ;;;
  week_end <-- mlift (add_days week_start 6) ;;;
  week_bucket <-- dd_getitem weeks (VStr week_key) week_factory ;;;
  _ <-- py_setitem week_bucket (VStr "week") (VStr week_key) ;;;
  _ <-- py_setitem week_bucket (VStr "start_date")
          (VStr (strftime_ymd (year_below_1000 py) week_start)) ;;;
  _ <-- py_setitem week_bucket (VStr "end_date")
          (VStr (strftime_ymd (year_below_1000 py) week_end)) ;;;
  if py_eq_int sport_id 9 then py_iadd week_bucket (VStr "strength_sessions") (FFin 1)
  else if py_eq_int sport_id 7 then py_iadd week_bucket (VStr "rest_days") (FFin 1)
  else
  match sport with
  | None => mret tt
  | Some sp =>
      if negb (str_in sp ["swim"; "bike"; "run"]) then mret tt else
      workout_type <-- _classification_type py workout ;;;
      distance <-- mread (fun h => float_or_or h workout "distance" "distancePlanned") ;;;
      tss <-- mread (fun h => float_or_or h workout "tssActual" "tssPlanned") ;;;
      sport_data <-- mread (fun h => bs <- py_getitem h week_bucket (VStr "by_sport") ;;
                                     py_getitem h bs (VStr sp)) ;;;
      _ <-- py_iadd sport_data (VStr "distance") distance ;;;
      _ <-- py_iadd sport_data (VStr "sessions") (FFin 1) ;;;
      _ <-- py_iadd sport_data (VStr "tss") tss ;;;
      by_type <-- mread (fun h => py_getitem h sport_data (VStr "by_type")) ;;;
      _ <-- dd_iadd by_type (VStr workout_type) distance ;;;
      _ <-- py_iadd week_bucket (VStr "total_distance") distance ;;;
      _ <-- py_iadd week_bucket (VStr "total_tss") tss ;;;
      _ <-- py_iadd week_bucket (VStr "total_sessions") (FFin 1) ;;;
      if str_in workout_type QUALITY then
        quality <-- mread (fun h => py_getitem h sport_data (VStr "quality_workouts")) ;;;
        date <-- mread (fun h => Ok (str10 py h day)) ;;;
        title <-- mread (fun h => py_get h workout "title" (VStr "Untitled")) ;;;
        q <-- alloc (sdict [("date", VStr date); ("type", VStr workout_type); ("title", title);
                            ("distance", VNum distance); ("tss", VNum tss)]) ;;;
        py_append quality q
      else mret tt
  end.

(** The [any(quality["type"] == "race" ...)] of one week row. *)
Fixpoint has_race_in (h : nat -> obj) (qualities : list pval) : result bool :=
  match qualities with
  | [] => Ok false
  | q :: rest => t <- py_getitem h q (VStr "type") ;;
                 if py_eq_str t "race" then Ok true else has_race_in h rest
  end.

Fixpoint has_race_sports (h : nat -> obj) (row : pval) (sports : list string) : result bool :=
  match sports with
  | [] => Ok false
  | sp :: rest =>
      bs <- py_getitem h row (VStr "by_sport") ;;
      sd <- py_getitem h bs (VStr sp) ;;
      ql <- py_getitem h sd (VStr "quality_workouts") ;;
      qs <- py_iter h ql ;;
      found <- has_race_in h qs ;;
      if found then Ok true else has_race_sports h row rest
  end.

(** [sport_data["by_type"] = converted] for one sport of a week row. *)
Definition convert_by_type (py : pylib) (row : pval) (sp : string) : M unit :=
  sport_data <-- mread (fun h => bs <- py_getitem h row (VStr "by_sport") ;; py_getitem h bs (VStr sp)) ;;;
  distance_total <-- mread (fun h => v <- py_getitem h sport_data (VStr "distance") ;;
                                     f <- py_float_of v ;; Ok (if ftruthy f then f else FFin 0)) ;;;
  converted <-- alloc (ODict []) ;;;
  items <-- mread (fun h => bt <- py_getitem h sport_data (VStr "by_type") ;; py_items h bt) ;;;
  _ <-- mfor (sort_by_value_desc py items) (fun kv =>
          pct <-- (if ftruthy distance_total
                   then n <-- mlift (py_num (snd kv)) ;;; mret (VNum (fmul (fdiv n distance_total) (FFin 100)))
                   else mret (vint 0)) ;;;
          d <-- alloc (sdict [("distance", snd kv); ("pct", pct)]) ;;;
          py_setitem converted (fst kv) d) ;;;
  py_setitem sport_data (VStr "by_type") converted.

(** The body of [for row in ordered], carrying [previous_total]. *)
Definition weekly_row (py : pylib) (previous_total : option pyfloat) (row : pval)
  : M (option pyfloat) :=
  total <-- mread (fun h => v <- py_getitem h row (VStr "total_distance") ;; py_float_of v) ;;;
  let delta := match previous_total with
               | Some p => if ftruthy p && flt (FFin 0) p
                           then Some (fmul (fdiv (fsub total p) p) (FFin 100)) else None
               | None => None
               end in
  has_race <-- mread (fun h => has_race_sports h row ["swim"; "bike"; "run"]) ;;;
  total_sessions <-- mread (fun h => v <- py_getitem h row (VStr "total_sessions") ;; py_int_of v) ;;;
  _ <-- py_setitem row (VStr "pattern") (VStr (classify_week_f total total_sessions has_race delta)) ;;;
  _ <-- mfor ["swim"; "bike"; "run"] (convert_by_type py row) ;;;
  mret (Some total).

(** [sum(float(item[field]) for item in ordered) / len(ordered) if ordered else 0] *)
Definition average_of (h : nat -> obj) (rows : list pval) (field : string) : result pval :=
  match rows with
  | [] => Ok (vint 0)
  | _ =>
      total <- fold_left (fun acc r => a <- acc ;; v <- py_getitem h r (VStr field) ;;
                                       f <- py_float_of v ;; Ok (fadd a f)) rows (Ok (FFin 0)) ;;
      Ok (VNum (fdiv total (FFin (inject_Z (Z.of_nat (List.length rows))))))
  end.

Definition build_weekly_analysis (py : pylib) (workouts : pval) (sport_filter : string) : M pval :=
  weeks <-- alloc (ODict []) ;;;
  items <-- mread (fun h => py_iter h workouts) ;;;
  _ <-- mfor items (weekly_workout py sport_filter weeks) ;;;
  keys <-- mread (fun h => py_iter h weeks) ;;;
  rows <-- mmap (fun k => dd_getitem weeks k week_factory) (sort_by_str pval_text keys) ;;;
  ordered <-- alloc (OList rows) ;;;
  oitems <-- mread (fun h => py_iter h ordered) ;;;
  _ <-- mfold (weekly_row py) None oitems ;;;
  oitems' <-- mread (fun h => py_iter h ordered) ;;;
  avg_distance <-- mread (fun h => average_of h oitems' "total_distance") ;;;
  avg_tss <-- mread (fun h => average_of h oitems' "total_tss") ;;;
  summary <-- alloc (sdict [("total_weeks", vint (Z.of_nat (List.length oitems')));
                            ("avg_weekly_distance", avg_distance); ("avg_weekly_tss", avg_tss)]) ;;;
  alloc (sdict [("weeks", ordered); ("summary", summary)]).

(* ------------------------------------------------------------------ *)
(** ** [simple_to_tp_structure] on the heap (utils/parsing.py) *)

(** [parse_length(value)]: [value.strip()] of anything but a [str] raises
    [AttributeError]. *)
Definition parse_length_v (v : pval) : result (Z * string) :=
  match v with VStr s => parse_length s | _ => Err AttributeError end.

(** [parse_target(value)]: a falsy value gives [None]; [re.match] refuses a
    truthy value that is not a [str]. *)
Definition parse_target_v (h : nat -> obj) (v : pval) : result pval :=
  if negb (py_truthy h v) then Ok VNone
  else match v with
       | VStr s => Ok (match parse_target (Some s) with Some p => vint p | None => VNone end)
       | _ => Err TypeError
       end.

(** [[{"minValue": parse_target(t)}] if t else []] *)
Definition target_list (t : pval) : M pval :=
  present <-- mread (fun h => Ok (py_truthy h t)) ;;;
  if present then
    p <-- mread (fun h => parse_target_v h t) ;;;
    d <-- alloc (sdict [("minValue", p)]) ;;;
    alloc (OList [d])
  else alloc (OList []).

Definition length_obj (v : pval) (unit : string) : obj :=
  sdict [("value", v); ("unit", VStr unit)].

Definition step_obj (name length targets : pval) (intensity_class : string) : obj :=
  sdict [("name", name); ("length", length); ("targets", targets);
         ("intensityClass", VStr intensity_class); ("openDuration", VBool false)].

(** [blocks.append({"type": "rampUp", ..., "steps": warmup_steps})] *)
Definition append_rampup (blocks warmup_steps : pval) : M unit :=
  l <-- alloc (length_obj (vint 1) "repetition") ;;;
  b <-- alloc (sdict [("type", VStr "rampUp"); ("length", l); ("steps", warmup_steps)]) ;;;
  py_append blocks b.

(** [if warmup_steps: blocks.append(...); warmup_steps = []] *)
Definition flush_warmup (blocks warmup_steps : pval) : M pval :=
  nonempty <-- mread (fun h => Ok (py_truthy h warmup_steps)) ;;;
  if nonempty then _ <-- append_rampup blocks warmup_steps ;;; alloc (OList [])
  else mret warmup_steps.

(** A one-step block of a [cooldown] or a [steady] step. *)
Definition one_step_block (blocks step : pval) (default_name intensity_class : string) : M unit :=
  l1 <-- alloc (length_obj (vint 1) "repetition") ;;;
  name <-- mread (fun h => py_get h step "name" (VStr default_name)) ;;;
  v <-- mread (fun h => d <- py_getitem h step (VStr "duration") ;; p <- parse_length_v d ;; Ok (fst p)) ;;;
  l2 <-- alloc (length_obj (vint v) "second") ;;;
  t <-- mread (fun h => py_get h step "target" VNone) ;;;
  targets <-- target_list t ;;;
  s1 <-- alloc (step_obj name l2 targets intensity_class) ;;;
  sl <-- alloc (OList [s1]) ;;;
  b <-- alloc (sdict [("type", VStr "step"); ("length", l1); ("steps", sl)]) ;;;
  py_append blocks b.

(** The targets of the on leg of an interval. *)
Definition on_targets_h (on_target : pval) : M pval :=
  empty <-- alloc (OList []) ;;;
  present <-- mread (fun h => Ok (py_truthy h on_target)) ;;;
  if negb present then mret empty else
  match on_target with
  | VStr s =>
      match match_range s with
      | Some (a, b) =>
          d <-- alloc (sdict [("minValue", vint a); ("maxValue", vint b)]) ;;; alloc (OList [d])
      | None =>
          match parse_target (Some s) with
          | Some p => d <-- alloc (sdict [("minValue", vint p)]) ;;; alloc (OList [d])
          | None => mret empty
          end
      end
  | _ => mlift (Err TypeError)
  end.

(** One iteration of [for step in steps]; returns [warmup_steps]. *)
Definition compile_step_h (blocks warmup_steps step : pval) : M pval :=
  step_type <-- mread (fun h => py_getitem h step (VStr "type")) ;;;
  if py_eq_str step_type "warmup" then
    len <-- mread (fun h => d <- py_getitem h step (VStr "duration") ;; parse_length_v d) ;;;
    name <-- mread (fun h => py_get h step "name" (VStr "")) ;;;
    l <-- alloc (length_obj (vint (fst len)) (snd len)) ;;;
    t <-- mread (fun h => py_get h step "target" VNone) ;;;
    targets <-- target_list t ;;;
    empty <-- mread (fun h => Ok (negb (py_truthy h warmup_steps))) ;;;
    s1 <-- alloc (step_obj name l targets (if empty then "warmUp" else "active")) ;;;
    _ <-- py_append warmup_steps s1 ;;;
    mret warmup_steps
  else if py_eq_str step_type "interval" then
    on_len <-- mread (fun h => d <- py_getitem h step (VStr "on") ;; parse_length_v d) ;;;
    off_len <-- mread (fun h => d <- py_getitem h step (VStr "off") ;; parse_length_v d) ;;;
    on_target <-- mread (fun h => py_get h step "on_target" VNone) ;;;
    on_targets <-- on_targets_h on_target ;;;
    warmup_steps' <-- flush_warmup blocks warmup_steps ;;;
    reps <-- mread (fun h => py_get h step "reps" (vint 1)) ;;;
    rl <-- alloc (length_obj reps "repetition") ;;;
    on_name <-- mread (fun h => n <- py_get h step "name" (VStr "") ;; py_get h step "on_name" n) ;;;
    onl <-- alloc (length_obj (vint (fst on_len)) (snd on_len)) ;;;
    s1 <-- alloc (step_obj on_name onl on_targets "active") ;;;
    off_name <-- mread (fun h => py_get h step "off_name" (VStr "Easy")) ;;;
    offl <-- alloc (length_obj (vint (fst off_len)) (snd off_len)) ;;;
    off_target <-- mread (fun h => py_get h step "off_target" VNone) ;;;
    off_targets <-- target_list off_target ;;;
    s2 <-- alloc (step_obj off_name offl off_targets "rest") ;;;
    sl <-- alloc (OList [s1; s2]) ;;;
    b <-- alloc (sdict [("type", VStr "repetition"); ("length", rl); ("steps", sl)]) ;;;
    _ <-- py_append blocks b ;;;
    mret warmup_steps'
  else
    warmup_steps' <-- flush_warmup blocks warmup_steps ;;;
    _ <-- (if py_eq_str step_type "cooldown" then one_step_block blocks step "Cool Down" "coolDown"
           else if py_eq_str step_type "steady" then one_step_block blocks step "" "active"
           else mret tt) ;;;
    mret warmup_steps'.

Definition simple_to_tp_structure_h (steps : pval) (intensity_metric : string) : M pval :=
  blocks <-- alloc (OList []) ;;;
  warmup_steps <-- alloc (OList []) ;;;
  items <-- mread (fun h => py_iter h steps) ;;;
  warmup_steps' <-- mfold (compile_step_h blocks) warmup_steps items ;;;
  nonempty <-- mread (fun h => Ok (py_truthy h warmup_steps')) ;;;
  _ <-- (if nonempty then append_rampup blocks warmup_steps' else mret tt) ;;;
  alloc (sdict [("primaryIntensityMetric", VStr intensity_metric); ("structure", blocks)]).

(* ------------------------------------------------------------------ *)
(** ** [calc_time_and_distance] on the heap (core/upload.py) *)

(** The target string [_pct_to_speed] is given: a falsy value is treated
    as no target, [re.match] refuses a truthy value that is not a [str]. *)
Definition target_opt (h : nat -> obj) (v : pval) : result (option string) :=
  match v with
  | VStr s => Ok (Some s)
  | _ => if py_truthy h v then Err TypeError else Ok None
  end.

Definition calc_step_h (py : pylib) (h : nat -> obj) (threshold_speed : Q) (acc : Q * Q)
  (step : pval) : result (Q * Q) :=
  step_type <- py_get h step "type" VNone ;;
  if py_eq_str step_type "warmup" || py_eq_str step_type "steady" || py_eq_str step_type "cooldown" then
    d <- py_getitem h step (VStr "duration") ;;
    len <- parse_length (py_str py h d) ;;
    t <- py_get h step "target" VNone ;;
    target <- target_opt h t ;;
    Ok (add_leg (fst len) (snd len) (_pct_to_speed target threshold_speed) acc)
  else if py_eq_str step_type "interval" then
    r <- py_get h step "reps" (vint 1) ;;
    reps <- py_int_of r ;;
    on <- py_getitem h step (VStr "on") ;;
    on_len <- parse_length (py_str py h on) ;;
    off <- py_getitem h step (VStr "off") ;;
    off_len <- parse_length (py_str py h off) ;;
    ont <- py_get h step "on_target" VNone ;;
    on_target <- target_opt h ont ;;
    offt <- py_get h step "off_target" VNone ;;
    off_target <- target_opt h offt ;;
    Ok (repeat_legs (Z.to_nat reps) (fst on_len) (snd on_len) (_pct_to_speed on_target threshold_speed)
          (fst off_len) (snd off_len) (_pct_to_speed off_target threshold_speed) acc)
  else Ok acc.

Fixpoint calc_loop_h (py : pylib) (h : nat -> obj) (threshold_speed : Q) (acc : Q * Q)
  (steps : list pval) : result (Q * Q) :=
  match steps with
  | [] => Ok acc
  | s :: rest => acc' <- calc_step_h py h threshold_speed acc s ;; calc_loop_h py h threshold_speed acc' rest
  end.

(** It only reads the heap. *)
Definition calc_time_and_distance_h (py : pylib) (steps : pval) (threshold_speed : Q) : M (Z * Z) :=
  mread (fun h => items <- py_iter h steps ;;
                  totals <- calc_loop_h py h threshold_speed (0, 0) items ;;
                  Ok (q_trunc (fst totals + (1 # 2)), q_trunc (snd totals + (1 # 2)))).

(* ------------------------------------------------------------------ *)
(** ** [classify_with_metadata] on the heap (classify.py) *)

(** [isinstance(x, list)] *)
Definition is_list (h : nat -> obj) (v : pval) : bool :=
  match v with
  | VRef l => match h l with OList _ => true | ODict _ => false end
  | _ => false
  end.

(** The [except (TypeError, ValueError)] of [float(...)] and [int(...)]. *)
Definition catch_type_value {A} (r : result A) (fallback : A) : result A :=
  match r with
  | Err TypeError | Err ValueError => Ok fallback
  | other => other
  end.

(** [str(x or default)] *)
Definition str_or_h (py : pylib) (h : nat -> obj) (x : pval) (default : string) : string :=
  py_str py h (py_or h x (VStr default)).

Definition _normalized_text_h (py : pylib) (h : nat -> obj) (w : pval) : result string :=
  t <- py_get h w "title" VNone ;;
  d <- py_get h w "description" VNone ;;
  c <- py_get h w "coachComments" VNone ;;
  u <- py_get h w "userTags" VNone ;;
  Ok (str_lower (str_or_h py h t "" ++ " " ++ str_or_h py h d "" ++ " " ++ str_or_h py h c ""
                 ++ " " ++ str_or_h py h u "")).

Definition _parse_structure_value_h (py : pylib) (raw : pval) : M pval :=
  match raw with
  | VNone => mret VNone
  | VStr s => match json_loads py s with None => mret VNone | Some j => alloc_json j end
  | _ => mret raw
  end.

Definition _normalize_blocks_h (raw_blocks : pval) : M pval :=
  is_l <-- mread (fun h => Ok (is_list h raw_blocks)) ;;;
  if negb is_l then alloc (OList []) else
  items <-- mread (fun h => py_iter h raw_blocks) ;;;
  kept <-- mread (fun h => Ok (filter (is_dict h) items)) ;;;
  dict_blocks <-- alloc (OList kept) ;;;
  match kept with
  | [] => alloc (OList [])
  | _ =>
      no_steps <-- mread (fun h => Ok (forallb (fun b => negb (py_has_key h b "steps")) kept)) ;;;
      if no_steps then
        l <-- alloc (length_obj (vint 1) "repetition") ;;;
        b <-- alloc (sdict [("type", VStr "step"); ("length", l); ("steps", dict_blocks)]) ;;;
        alloc (OList [b])
      else mret dict_blocks
  end.

Fixpoint extract_loop_h (py : pylib) (w : pval) (keys : list string) (metric : string)
  : M (pval * string) :=
  match keys with
  | [] => e <-- alloc (OList []) ;;; mret (e, metric)
  | key :: rest =>
      raw <-- mread (fun h => py_get h w key VNone) ;;;
      parsed <-- _parse_structure_value_h py raw ;;;
      match parsed with
      | VNone => extract_loop_h py w rest metric
      | _ =>
          d <-- mread (fun h => Ok (is_dict h parsed)) ;;;
          if d then
            metric' <-- mread (fun h => m <- py_get h parsed "primaryIntensityMetric" VNone ;;
                                        Ok (str_or_h py h m metric)) ;;;
            blocks <-- mread (fun h => a <- py_get h parsed "structure" VNone ;;
                                       if py_truthy h a then Ok a else py_get h parsed "steps" VNone) ;;;
            normalized <-- _normalize_blocks_h blocks ;;;
            ne <-- mread (fun h => Ok (py_truthy h normalized)) ;;;
            if ne then mret (normalized, metric') else extract_loop_h py w rest metric'
          else
            normalized <-- _normalize_blocks_h parsed ;;;
            ne <-- mread (fun h => Ok (py_truthy h normalized)) ;;;
            if ne then mret (normalized, metric) else extract_loop_h py w rest metric
      end
  end.

Definition _extract_structure_h (py : pylib) (w : pval) : M (pval * string) :=
  metric <-- mread (fun h => m <- py_get h w "primaryIntensityMetric" VNone ;; Ok (str_or_h py h m "")) ;;;
  extract_loop_h py w ["structuredSteps"; "structuredWorkout"; "structure"] metric.

Definition _as_percent_h (value : pval) : result pyfloat :=
  match py_float_of value with
  | Ok pct => Ok (if fle pct (FFin 0) then FFin 0
                 else if fle pct (FFin 2) then fmul pct (FFin 100) else pct)
  | Err TypeError | Err ValueError => Ok (FFin 0)
  | Err e => Err e
  end.

Definition _step_intensity_pct_h (h : nat -> obj) (step : pval) : result pyfloat :=
  targets <- py_get h step "targets" VNone ;;
  match targets with
  | VRef l =>
      match h l with
      | OList (target :: _) =>
          if is_dict h target then
            mn <- (v <- py_get h target "minValue" VNone ;; _as_percent_h v) ;;
            mx <- (v <- py_get h target "maxValue" VNone ;; _as_percent_h v) ;;
            if flt (FFin 0) mn && flt (FFin 0) mx then Ok (fdiv (fadd mn mx) (FFin 2))
            else if flt (FFin 0) mn then Ok mn
            else if flt (FFin 0) mx then Ok mx
            else v <- py_get h target "value" VNone ;; _as_percent_h v
          else Ok (FFin 0)
      | _ => Ok (FFin 0)
      end
  | _ => Ok (FFin 0)
  end.

Definition _length_to_seconds_h (py : pylib) (h : nat -> obj) (length : pval) : result pyfloat :=
  u <- py_get h length "unit" VNone ;;
  let unit := str_lower (str_or_h py h u "") in
  v <- py_get h length "value" VNone ;;
  match py_float_of (py_or h v (fnum 0)) with
  | Err TypeError | Err ValueError => Ok (FFin 0)
  | Err e => Err e
  | Ok value =>
      Ok (if fle value (FFin 0) then FFin 0
          else if String.eqb unit "second" then value
          else if String.eqb unit "minute" then fmul value (FFin 60)
          else if String.eqb unit "hour" then fmul value (FFin 3600)
          else if String.eqb unit "meter" then fdiv value (FFin 4)
          else if String.eqb unit "kilometer" then fmul value (FFin 250)
          else FFin 0)
  end.

(** One step; the state is [(has_intensity_targets, max_pct)]. *)
Definition classify_step_h (py : pylib) (zone_loads zone_counts : pval) (block_type : string)
  (rep_count : Z) (st : bool * pyfloat) (step : pval) : M (bool * pyfloat) :=
  pct <-- mread (fun h => _step_intensity_pct_h h step) ;;;
  let (has, mx) := st in
  let has' := has || flt (FFin 0) pct in
  let mx' := if flt (FFin 0) pct then (if flt mx pct then pct else mx) else mx in
  ic <-- mread (fun h => v <- py_get h step "intensityClass" VNone ;; Ok (str_or_h py h v "active")) ;;;
  let zone := classify_zone_f pct block_type ic DEFAULT_ZONE_THRESHOLDS in
  len <-- py_get_new step (VStr "length") (ODict []) ;;;
  secs <-- mread (fun h => _length_to_seconds_h py h len) ;;;
  let load0 := fmul secs (FFin (inject_Z (Z.max rep_count 1))) in
  let load := if fle load0 (FFin 0) && flt (FFin 0) pct then FFin 30 else load0 in
  _ <-- py_iadd zone_loads (VStr zone) load ;;;
  _ <-- (if flt (FFin 0) pct then py_iadd zone_counts (VStr zone) (FFin 1) else mret tt) ;;;
  mret (has', mx').

Definition classify_block_h (py : pylib) (zone_loads zone_counts : pval) (st : bool * pyfloat)
  (block : pval) : M (bool * pyfloat) :=
  block_type <-- mread (fun h => t <- py_get h block "type" VNone ;; Ok (str_or_h py h t "step")) ;;;
  rep_count <-- (if String.eqb (str_lower (str_strip block_type)) "repetition" then
                   len <-- py_get_new block (VStr "length") (ODict []) ;;;
                   mread (fun h => v <- py_get h len "value" VNone ;;
                                   catch_type_value
                                     (f <- py_float_of (py_or h v (vint 1)) ;; int_of_float f) 1%Z)
                 else mret 1%Z) ;;;
  kept <-- mread (fun h => s <- py_get h block "steps" VNone ;;
                           Ok (if is_list h s
                               then match py_iter h s with Ok items => filter (is_dict h) items | Err _ => [] end
                               else [])) ;;;
  _ <-- alloc (OList kept) ;;;
  mfold (classify_step_h py zone_loads zone_counts block_type rep_count) st kept.

Definition zone_num (h : nat -> obj) (d : pval) (k : string) : result pyfloat :=
  v <- py_getitem h d (VStr k) ;; py_num v.

Definition _classify_from_structure_h (py : pylib) (w : pval) : M (option string) :=
  bm <-- _extract_structure_h py w ;;;
  let (blocks, _) := bm in
  items <-- mread (fun h => py_iter h blocks) ;;;
  match items with
  | [] => mret None
  | _ =>
      zone_loads <-- alloc (zones_obj (FFin 0) (FFin 0) (FFin 0) (FFin 0)) ;;;
      zone_counts <-- alloc (sdict [("easy", vint 0); ("lt1", vint 0); ("lt2", vint 0); ("vo2", vint 0)]) ;;;
      st <-- mfold (classify_block_h py zone_loads zone_counts) (false, FFin 0) items ;;;
      let (has, max_pct) := st in
      if negb has then mret None else
      label <-- mread (fun h =>
                 vo2_load <- zone_num h zone_loads "vo2" ;;
                 lt2_load <- zone_num h zone_loads "lt2" ;;
                 lt1_load <- zone_num h zone_loads "lt1" ;;
                 c_vo2 <- zone_num h zone_counts "vo2" ;;
                 c_lt2 <- zone_num h zone_counts "lt2" ;;
                 c_lt1 <- zone_num h zone_counts "lt1" ;;
                 let hard_load := fadd lt2_load vo2_load in
                 Ok (if fle (FFin 180) vo2_load || (fle (FFin 2) c_vo2 && flt (FFin 105) max_pct) then "vo2"
                     else if fle (FFin 180) hard_load || fle (FFin 2) (fadd c_lt2 c_vo2) then "lt2"
                     else if fle (FFin 300) lt1_load || fle (FFin 2) c_lt1 then "lt1"
                     else "easy")) ;;;
      mret (Some label)
  end.

Definition _classify_with_source_h (py : pylib) (w : pval) (rules : list (string * list string))
  : M (string * string) :=
  text <-- mread (fun h => _normalized_text_h py h w) ;;;
  let keyword_label := first_matching_rule text rules in
  if str_in keyword_label _PRIORITY_KEYWORD_TYPES then mret (keyword_label, "keyword") else
  structure_label <-- _classify_from_structure_h py w ;;;
  match structure_label with
  | Some l => if negb (String.eqb l "") then mret (l, "structure") else mret (keyword_label, "keyword")
  | None => mret (keyword_label, "keyword")
  end.

Definition classify_with_metadata_h (py : pylib) (w : pval) (method : string)
  (rules : list (string * list string)) : M WorkoutClassification :=
  ls <-- _classify_with_source_h py w rules ;;;
  let (label, source) := ls in
  if String.eqb method "ai" then
    mret (mkWorkoutClassification label "auto" (6 # 10)
            (Some "AI classification not configured; fell back to rules"))
  else
    let confidence :=
      if String.eqb source "structure" then 97 # 100
      else if negb (String.eqb label "other") then 95 # 100 else 6 # 10 in
    let reasoning :=
      if String.eqb source "structure"
      then Some "classified from structured workout intensity targets" else None in
    mret (mkWorkoutClassification label "auto" confidence reasoning).

(** * Frame: what the core functions leave of their input *)

(** The keys whose values a dict made by the code may take from the input:
    the ["title"] of a quality workout and the ["distance"] of a
    [by_type] row. *)
Definition loose_key (k : pval) : bool :=
  match k with VStr s => String.eqb s "title" || String.eqb s "distance" | _ => false end.

(** Every reference inside [v] is a location of [C]. *)
Fixpoint in_b (C : list (nat * bool)) (v : pval) : bool :=
  match v with
  | VRef l => existsb (fun p => Nat.eqb (fst p) l) C
  | VTuple xs => forallb (in_b C) xs
  | _ => true
  end.

Definition inC (C : list (nat * bool)) (v : pval) : Prop := in_b C v = true.

(** An object the code made and reads back: a dict whose keys are hashable and whose values (but
    at the loose keys of a loose dict) and a list whose items are in [C]. *)
Definition clean (strict : bool) (C : list (nat * bool)) (o : obj) : Prop :=
  match o with
  | ODict items =>
      Forall (fun kv => hashable (fst kv) = true /\
                        ((strict = true \/ loose_key (fst kv) = false) -> inC C (snd kv))) items
  | OList items => Forall (inC C) items
  end.

(** The objects made so far: [wc] those read back, with their kind, and
    [wd] those only written. *)
Record world := mkWorld { wc : list (nat * bool); wd : list nat }.

Definition wincl (w w' : world) : Prop :=
  (forall p, In p (wc w) -> In p (wc w')) /\ (forall l, In l (wd w) -> In l (wd w')).

Definition heap_clean (w : world) (h : nat -> obj) : Prop :=
  forall l b, In (l, b) (wc w) -> clean b (wc w) (h l).

Section FrameDefs.
Variable n0 : nat.
Local Open Scope nat_scope.

Definition inv (w : world) (s : store) : Prop :=
  n0 <= st_next s /\
  (forall l b, In (l, b) (wc w) -> n0 <= l < st_next s) /\
  (forall l, In l (wd w) -> n0 <= l < st_next s) /\
  (forall l b, In (l, b) (wc w) -> ~ In l (wd w)) /\
  heap_clean w (view s).

(** [m] keeps the invariant, leaves every location below [n0] as it was,
    and its result satisfies [P] in the world it ends in. *)
Definition ok {A} (w : world) (m : M A) (P : world -> A -> Prop) : Prop :=
  forall s, inv w s ->
    match m s with
    | (s', r) => exists w', wincl w w' /\ inv w' s' /\
                 (forall l, l < n0 -> view s' l = view s l) /\
                 (forall a, r = Ok a -> P w' a)
    end.
End FrameDefs.

(** [m] run from [s] leaves every object of [s] as it was. *)
Definition keeps_store {A} (m : M A) (s : store) : Prop :=
  forall l, (l < st_next s)%nat -> view (fst (m s)) l = view s l.

Fixpoint pval_ind2 (P : pval -> Prop) (HN : P VNone) (HB : forall b, P (VBool b))
  (HF : forall f, P (VNum f)) (HS : forall s, P (VStr s))
  (HT : forall xs, Forall P xs -> P (VTuple xs)) (HR : forall l, P (VRef l)) (v : pval) : P v :=
  match v with
  | VNone => HN
  | VBool b => HB b
  | VNum f => HF f
  | VStr s => HS s
  | VTuple xs => HT xs ((fix go (xs : list pval) : Forall P xs :=
                           match xs with
                           | [] => Forall_nil P
                           | x :: r => Forall_cons x (pval_ind2 P HN HB HF HS HT HR x) (go r)
                           end) xs)
  | VRef l => HR l
  end.

(** A location the code may write: made by it, and read back or not. *)
Definition owned (w : world) (x : pval) : Prop :=
  inC (wc w) x \/ exists l, x = VRef l /\ In l (wd w).

(** How a read of [d[k]] gives back a value in [C]: [d] is a strict dict,
    or a dict read at a key that is not loose. *)
Definition key_ok (k : pval) : Prop := forall k', key_eq k' k = true -> loose_key k' = false.

Definition rd (w : world) (d k : pval) : Prop :=
  (exists l, d = VRef l /\ In (l, true) (wc w)) \/ (inC (wc w) d /\ key_ok k).

Fixpoint json_ind2 (P : json -> Prop) (HN : P JNull) (HB : forall b, P (JBool b))
  (HF : forall f, P (JNum f)) (HS : forall s, P (JStr s))
  (HA : forall xs, Forall P xs -> P (JArr xs))
  (HO : forall xs, Forall (fun kv => P (snd kv)) xs -> P (JObj xs)) (j : json) : P j :=
  match j with
  | JNull => HN
  | JBool b => HB b
  | JNum f => HF f
  | JStr s => HS s
  | JArr xs => HA xs ((fix go (xs : list json) : Forall P xs :=
                         match xs with
                         | [] => Forall_nil P
                         | x :: r => Forall_cons x (json_ind2 P HN HB HF HS HA HO x) (go r)
                         end) xs)
  | JObj xs => HO xs ((fix go (xs : list (string * json)) : Forall (fun kv => P (snd kv)) xs :=
                         match xs with
                         | [] => Forall_nil _
                         | kv :: r => Forall_cons kv (json_ind2 P HN HB HF HS HA HO (snd kv)) (go r)
                         end) xs)
  end.

End Heap.

(** * Properties *)

Example classify_week_ex1 : classify_week 10000 3 true (Some 10) = "race".
Proof. reflexivity. Qed.
Example classify_week_ex2 : classify_week 30000 5 false (Some (-30)) = "recovery".
Proof. reflexivity. Qed.
Example strip_ex : str_lower (str_strip "  RampUp ") = "rampup".
Proof. reflexivity. Qed.
Example split_ex : str_split ":" "1:02:3" = ["1"; "02"; "3"].
Proof. reflexivity. Qed.

Ltac qb :=
  repeat match goal with
  | H : Qle_bool _ _ = true |- _ => apply Qle_bool_iff in H
  | H : Qle_bool _ _ = false |- _ =>
      apply Bool.not_true_iff_false in H; rewrite Qle_bool_iff in H;
      apply Qnot_le_lt in H
  end.

(** C1: for ordered thresholds, away from the [rampup] and easy-class overrides,
    [classify_zone] is the ascending cascade with inclusive upper bounds, each
    boundary belongs to the lower zone and the zone rank is monotone in [pct];
    a [rampup] block type, or else an easy intensity class, always gives [easy]. *)
Theorem classify_zone_spec (th : thresholds)
  (Hord : easy_max th < lt1_max th /\ lt1_max th < lt2_max th) :
  (forall bt ic p1 p2,
      str_lower (str_strip bt) <> "rampup" ->
      str_in (str_lower (str_strip ic)) _EASY_CLASSES = false ->
      p1 <= p2 ->
      (zone_rank (classify_zone p1 bt ic th) <= zone_rank (classify_zone p2 bt ic th))%nat)
  /\ (forall bt ic p,
      str_lower (str_strip bt) <> "rampup" ->
      str_in (str_lower (str_strip ic)) _EASY_CLASSES = false ->
      classify_zone p bt ic th =
        if Qle_bool p (easy_max th) then "easy"
        else if Qle_bool p (lt1_max th) then "lt1"
        else if Qle_bool p (lt2_max th) then "lt2" else "vo2")
  /\ (forall bt ic,
      str_lower (str_strip bt) <> "rampup" ->
      str_in (str_lower (str_strip ic)) _EASY_CLASSES = false ->
      classify_zone (easy_max th) bt ic th = "easy"
      /\ classify_zone (lt1_max th) bt ic th = "lt1"
      /\ classify_zone (lt2_max th) bt ic th = "lt2")
  /\ (forall bt ic p, str_lower (str_strip bt) = "rampup" ->
      classify_zone p bt ic th = "easy")
  /\ (forall bt ic p,
      str_lower (str_strip bt) <> "rampup" ->
      str_in (str_lower (str_strip ic)) _EASY_CLASSES = true ->
      classify_zone p bt ic th = "easy").
Proof.
  destruct Hord as [H1 H2].
  assert (Hcasc : forall bt ic p,
      str_lower (str_strip bt) <> "rampup" ->
      str_in (str_lower (str_strip ic)) _EASY_CLASSES = false ->
      classify_zone p bt ic th =
        if Qle_bool p (easy_max th) then "easy"
        else if Qle_bool p (lt1_max th) then "lt1"
        else if Qle_bool p (lt2_max th) then "lt2" else "vo2").
  { intros bt ic p Hb Hi. unfold classify_zone.
    apply String.eqb_neq in Hb. cbv zeta. rewrite Hb, Hi. reflexivity. }
  split; [|split; [exact Hcasc|split; [|split]]].
  - intros bt ic p1 p2 Hb Hi Hle. rewrite !(Hcasc bt ic) by auto.
    destruct (Qle_bool p1 (easy_max th)) eqn:E1;
    destruct (Qle_bool p1 (lt1_max th)) eqn:E2;
    destruct (Qle_bool p1 (lt2_max th)) eqn:E3;
    destruct (Qle_bool p2 (easy_max th)) eqn:F1;
    destruct (Qle_bool p2 (lt1_max th)) eqn:F2;
    destruct (Qle_bool p2 (lt2_max th)) eqn:F3;
    qb; cbv; try lia; exfalso; lra.
  - intros bt ic Hb Hi. rewrite !(Hcasc bt ic) by auto.
    assert (Qle_bool (easy_max th) (easy_max th) = true) as ->
      by (apply Qle_bool_iff; lra).
    assert (Qle_bool (lt1_max th) (easy_max th) = false) as ->
      by (apply Bool.not_true_iff_false; rewrite Qle_bool_iff; lra).
    assert (Qle_bool (lt1_max th) (lt1_max th) = true) as ->
      by (apply Qle_bool_iff; lra).
    assert (Qle_bool (lt2_max th) (easy_max th) = false) as ->
      by (apply Bool.not_true_iff_false; rewrite Qle_bool_iff; lra).
    assert (Qle_bool (lt2_max th) (lt1_max th) = false) as ->
      by (apply Bool.not_true_iff_false; rewrite Qle_bool_iff; lra).
    assert (Qle_bool (lt2_max th) (lt2_max th) = true) as ->
      by (apply Qle_bool_iff; lra).
    auto.
  - intros bt ic p Hb. unfold classify_zone. cbv zeta. rewrite Hb. reflexivity.
  - intros bt ic p Hb Hi. unfold classify_zone.
    apply String.eqb_neq in Hb. cbv zeta. rewrite Hb, Hi. reflexivity.
Qed.

Lemma classify_zone_spec_witness :
  (easy_max DEFAULT_ZONE_THRESHOLDS < lt1_max DEFAULT_ZONE_THRESHOLDS /\
   lt1_max DEFAULT_ZONE_THRESHOLDS < lt2_max DEFAULT_ZONE_THRESHOLDS) /\
  classify_zone 76 "step" "active" DEFAULT_ZONE_THRESHOLDS = "lt1" /\
  classify_zone 93 "step" "active" DEFAULT_ZONE_THRESHOLDS = "lt1" /\
  classify_zone 94 "step" "active" DEFAULT_ZONE_THRESHOLDS = "lt2" /\
  classify_zone 101 "step" "active" DEFAULT_ZONE_THRESHOLDS = "vo2" /\
  (zone_rank (classify_zone 75 "step" "active" DEFAULT_ZONE_THRESHOLDS)
     <= zone_rank (classify_zone 101 "step" "active" DEFAULT_ZONE_THRESHOLDS))%nat.
Proof.
  assert (Hord : easy_max DEFAULT_ZONE_THRESHOLDS < lt1_max DEFAULT_ZONE_THRESHOLDS /\
                 lt1_max DEFAULT_ZONE_THRESHOLDS < lt2_max DEFAULT_ZONE_THRESHOLDS)
    by (split; vm_compute; reflexivity).
  split; [exact Hord|].
  destruct (classify_zone_spec DEFAULT_ZONE_THRESHOLDS Hord) as [Hmono [Hcasc _]].
  split; [rewrite Hcasc by first [reflexivity | vm_compute; discriminate]; reflexivity|].
  split; [rewrite Hcasc by first [reflexivity | vm_compute; discriminate]; reflexivity|].
  split; [rewrite Hcasc by first [reflexivity | vm_compute; discriminate]; reflexivity|].
  split; [rewrite Hcasc by first [reflexivity | vm_compute; discriminate]; reflexivity|].
  apply Hmono; [vm_compute; discriminate | reflexivity | vm_compute; discriminate].
Defined.

(** C4: [classify_week] follows the priority order race, off, start,
    recovery, build, maintenance, and gives the six documented examples. *)
Theorem classify_week_priority :
  (forall d s del, classify_week d s true del = "race")
  /\ (forall d s del, (s <= 2)%Z -> d < 20000 -> classify_week d s false del = "off")
  /\ (forall d s, ~ ((s <= 2)%Z /\ d < 20000) -> classify_week d s false None = "start")
  /\ (forall d s x, ~ ((s <= 2)%Z /\ d < 20000) -> x < -25 ->
        classify_week d s false (Some x) = "recovery")
  /\ (forall d s x, ~ ((s <= 2)%Z /\ d < 20000) -> -25 <= x -> 15 < x ->
        classify_week d s false (Some x) = "build")
  /\ (forall d s x, ~ ((s <= 2)%Z /\ d < 20000) -> -25 <= x -> x <= 15 ->
        classify_week d s false (Some x) = "maintenance")
  /\ classify_week 10000 3 true (Some 10) = "race"
  /\ classify_week 10000 2 false (Some 0) = "off"
  /\ classify_week 30000 5 false None = "start"
  /\ classify_week 30000 5 false (Some (-30)) = "recovery"
  /\ classify_week 30000 5 false (Some 20) = "build"
  /\ classify_week 30000 5 false (Some 3) = "maintenance".
Proof.
  assert (Hoff : forall d s, ~ ((s <= 2)%Z /\ d < 20000) ->
             ((s <=? 2)%Z && negb (Qle_bool 20000 d)) = false).
  { intros d s H. destruct (Z.leb_spec s 2); simpl; auto.
    destruct (Qle_bool 20000 d) eqn:E; auto. qb. exfalso; auto. }
  split; [reflexivity|].
  split.
  { intros d s del Hs Hd. unfold classify_week.
    apply Z.leb_le in Hs. rewrite Hs.
    assert (Qle_bool 20000 d = false) as ->.
    { apply Bool.not_true_iff_false. rewrite Qle_bool_iff. lra. }
    reflexivity. }
  split.
  { intros d s H. unfold classify_week. rewrite (Hoff d s H). reflexivity. }
  split.
  { intros d s x H Hx. unfold classify_week. rewrite (Hoff d s H).
    assert (Qle_bool (-25) x = false) as ->.
    { apply Bool.not_true_iff_false. rewrite Qle_bool_iff. lra. }
    reflexivity. }
  split.
  { intros d s x H Hx1 Hx2. unfold classify_week. rewrite (Hoff d s H).
    assert (Qle_bool (-25) x = true) as -> by (apply Qle_bool_iff; lra).
    assert (Qle_bool x 15 = false) as ->.
    { apply Bool.not_true_iff_false. rewrite Qle_bool_iff. lra. }
    reflexivity. }
  split.
  { intros d s x H Hx1 Hx2. unfold classify_week. rewrite (Hoff d s H).
    assert (Qle_bool (-25) x = true) as -> by (apply Qle_bool_iff; lra).
    assert (Qle_bool x 15 = true) as -> by (apply Qle_bool_iff; lra).
    reflexivity. }
  repeat split; reflexivity.
Qed.

Lemma classify_week_priority_witness :
  ~ ((5 <= 2)%Z /\ (30000:Q) < 20000) /\ -25 <= (20:Q) /\ (15:Q) < 20 /\
  classify_week 30000 5 false (Some 20) = "build".
Proof.
  assert (H : ~ ((5 <= 2)%Z /\ (30000:Q) < 20000)) by (intros [H _]; lia).
  split; [exact H|].
  split; [vm_compute; discriminate|].
  split; [vm_compute; reflexivity|].
  destruct classify_week_priority as [_ [_ [_ [_ [Hb _]]]]].
  apply Hb; [exact H | vm_compute; discriminate | vm_compute; reflexivity].
Defined.

(** Helper: [first_matching_rule] returns the label of the first rule with a
    matching keyword, and ["other"] when no rule matches. *)
Lemma first_matching_rule_first text pre t ks post :
  Forall (fun r => existsb (fun k => str_contains k text) (snd r) = false) pre ->
  existsb (fun k => str_contains k text) ks = true ->
  first_matching_rule text (pre ++ (t, ks) :: post) = t.
Proof.
  induction pre as [|[t' ks'] pre IH]; intros Hpre Hks; simpl.
  - rewrite Hks. reflexivity.
  - inversion Hpre as [|? ? Hr Hrest]; subst. simpl in Hr. rewrite Hr. auto.
Qed.

Lemma first_matching_rule_none text rules :
  Forall (fun r => existsb (fun k => str_contains k text) (snd r) = false) rules ->
  first_matching_rule text rules = "other".
Proof.
  induction rules as [|[t ks] rules IH]; intros H; simpl; auto.
  inversion H as [|? ? Hr Hrest]; subst. simpl in Hr. rewrite Hr. auto.
Qed.

Lemma classify_from_structure_nonempty jl w l :
  _classify_from_structure jl w = Some l -> l <> "".
Proof.
  unfold _classify_from_structure, structure_decision.
  destruct (fst (_extract_structure jl w)); [discriminate|].
  destruct (fold_left _ _ _) as [ld ct h mp]; simpl.
  destruct h; simpl; [|discriminate].
  repeat match goal with |- context [if ?b then _ else _] => destruct b end;
  intros E; inversion E; discriminate.
Qed.

(** C3: the keyword signal is the first rule (in list order) with a keyword
    contained in the lowercased title/description/comments/tags text, or
    [other]; a priority keyword label overrides the structural label, otherwise
    the structural label wins when present and the keyword label is the
    fallback.  A race-and-threshold workout whose structure alone is [lt2]
    is labelled [race]. *)
Theorem classify_with_source_combination :
  (forall w, _normalized_text w =
     str_lower (str_or (w_title w) "" ++ " " ++ str_or (w_description w) "" ++ " "
                ++ str_or (w_coachComments w) "" ++ " " ++ str_or (w_userTags w) ""))
  /\ (forall w pre t ks post,
      Forall (fun r => existsb (fun k => str_contains k (_normalized_text w)) (snd r)
                       = false) pre ->
      existsb (fun k => str_contains k (_normalized_text w)) ks = true ->
      _classify_by_keywords w (pre ++ (t, ks) :: post) = t)
  /\ (forall w rules,
      Forall (fun r => existsb (fun k => str_contains k (_normalized_text w)) (snd r)
                       = false) rules ->
      _classify_by_keywords w rules = "other")
  /\ (forall jl w rules,
      let kw := _classify_by_keywords w rules in
      classify_workout jl w rules =
        if str_in kw _PRIORITY_KEYWORD_TYPES then kw
        else match _classify_from_structure jl w with
             | Some l => l
             | None => kw
             end)
  /\ (forall jl,
      _classify_from_structure jl race_threshold_workout = Some "lt2"
      /\ _classify_by_keywords race_threshold_workout TYPE_RULES = "race"
      /\ classify_workout jl race_threshold_workout TYPE_RULES = "race").
Proof.
  split; [reflexivity|].
  split; [intros; apply first_matching_rule_first; auto|].
  split; [intros; apply first_matching_rule_none; auto|].
  split.
  - intros jl w rules kw. unfold classify_workout, _classify_with_source. fold kw.
    destruct (str_in kw _PRIORITY_KEYWORD_TYPES); [reflexivity|].
    destruct (_classify_from_structure jl w) eqn:E; [|reflexivity].
    apply classify_from_structure_nonempty in E.
    apply String.eqb_neq in E. rewrite E. reflexivity.
  - intros jl. split; [|split]; vm_compute; reflexivity.
Qed.

Lemma classify_with_source_combination_witness :
  Forall (fun r => existsb (fun k => str_contains k
            (_normalized_text race_threshold_workout)) (snd r) = false)
         (skipn 2 (firstn 4 TYPE_RULES)) /\
  _classify_by_keywords race_threshold_workout
    (skipn 2 (firstn 4 TYPE_RULES) ++ (("lt2", ["threshold"]) :: [])) = "lt2".
Proof.
  assert (H : Forall (fun r => existsb (fun k => str_contains k
            (_normalized_text race_threshold_workout)) (snd r) = false)
         (skipn 2 (firstn 4 TYPE_RULES))).
  { vm_compute. repeat constructor. }
  split; [exact H|].
  destruct classify_with_source_combination as [_ [Hfirst _]].
  apply Hfirst; [exact H | vm_compute; reflexivity].
Defined.

Lemma length_to_seconds_nonpos_cases len :
  (match len with Some l => num_or0 (l_value l) | None => 0 end <= 0 \/
   ~ In (match len with Some l => str_lower (str_or (l_unit l) "") | None => "" end)
        ["second"; "minute"; "hour"; "meter"; "kilometer"]) ->
  _length_to_seconds len = 0.
Proof.
  intros H. unfold _length_to_seconds.
  set (v := match len with Some l => num_or0 (l_value l) | None => 0 end) in *.
  set (u := match len with Some l => str_lower (str_or (l_unit l) "") | None => "" end) in *.
  destruct (Qle_bool v 0) eqn:Ev; [reflexivity|].
  destruct H as [H|H].
  - apply Qle_bool_iff in H. congruence.
  - destruct (String.eqb_spec u "second"); [subst; exfalso; apply H; simpl; auto|].
    destruct (String.eqb_spec u "minute"); [subst; exfalso; apply H; simpl; auto|].
    destruct (String.eqb_spec u "hour"); [subst; exfalso; apply H; simpl; auto|].
    destruct (String.eqb_spec u "meter"); [subst; exfalso; apply H; simpl; auto|].
    destruct (String.eqb_spec u "kilometer"); [subst; exfalso; apply H; simpl; auto 6|].
    reflexivity.
Qed.

(** C10: a step with a positive intensity whose length converts to at most
    0 seconds (in particular a missing or non-positive value, or an unknown
    unit) adds exactly 30 seconds to its zone's load, whatever the repetition
    count of its block; six such steps at 102% reach the 180s vo2 load and
    give [vo2], where the same steps lasting one second each give [lt2]. *)
Theorem zero_length_step_synthetic_load :
  (forall block_type rep_count st step,
      0 < _step_intensity_pct step ->
      _length_to_seconds (n_length step) <= 0 ->
      zone_loads (classify_step block_type rep_count st step) =
        zupd (fun v => v + 30)
          (classify_zone (_step_intensity_pct step) block_type
             (str_or (n_intensityClass step) "active") DEFAULT_ZONE_THRESHOLDS)
          (zone_loads st))
  /\ (forall len,
      (match len with Some l => num_or0 (l_value l) | None => 0 end <= 0 \/
       ~ In (match len with Some l => str_lower (str_or (l_unit l) "") | None => "" end)
            ["second"; "minute"; "hour"; "meter"; "kilometer"]) ->
      _length_to_seconds len <= 0)
  /\ (forall jl,
      _classify_from_structure jl (steps_workout (repeat (pct_step 102 None) 6))
        = Some "vo2"
      /\ _classify_from_structure jl (steps_workout (repeat (pct_step 102 one_second) 6))
        = Some "lt2").
Proof.
  split; [|split].
  - intros bt rep st step Hp Hs. unfold classify_step. simpl zone_loads.
    unfold step_load.
    set (secs := _length_to_seconds (n_length step)) in *.
    assert (Hk : 0 <= inject_Z (Z.max rep 1)).
    { unfold Qle; simpl. lia. }
    assert (Hl : Qle_bool (secs * inject_Z (Z.max rep 1)) 0 = true).
    { apply Qle_bool_iff.
      apply Qle_trans with (0 * inject_Z (Z.max rep 1)); [|lra].
      apply Qmult_le_compat_r; auto. }
    assert (Hq : Qlt_bool 0 (_step_intensity_pct step) = true).
    { unfold Qlt_bool. apply negb_true_iff, Bool.not_true_iff_false.
      rewrite Qle_bool_iff. lra. }
    rewrite Hl, Hq. reflexivity.
  - intros len H. rewrite (length_to_seconds_nonpos_cases len H). lra.
  - intros jl. split; vm_compute; reflexivity.
Qed.

Lemma zero_length_step_synthetic_load_witness :
  0 < _step_intensity_pct (pct_step 102 None) /\
  _length_to_seconds (n_length (pct_step 102 None)) <= 0 /\
  zone_loads (classify_step "repetition" 10 cstate0 (pct_step 102 None)) =
    mkZones 0 0 0 30.
Proof.
  assert (H1 : 0 < _step_intensity_pct (pct_step 102 None)) by (vm_compute; reflexivity).
  assert (H2 : _length_to_seconds (n_length (pct_step 102 None)) <= 0)
    by (vm_compute; discriminate).
  split; [exact H1|]. split; [exact H2|].
  destruct zero_length_step_synthetic_load as [Hload _].
  rewrite (Hload "repetition" 10%Z cstate0 _ H1 H2). vm_compute. reflexivity.
Defined.

Lemma parse_workout_zones_decoded jl w ts th m st sp o :
  decodes_to jl w (PObj m st sp o) ->
  parse_workout_zones jl w ts th = zones_of_structure w ts th (PObj m st sp o).
Proof.
  intros [H | [s [H [Hs Hj]]]]; unfold parse_workout_zones; rewrite H.
  - destruct m, st, sp, o; simpl; try reflexivity.
  - apply String.eqb_neq in Hs. simpl. rewrite Hs. simpl. rewrite Hj. reflexivity.
Qed.

(** C2: [parse_workout_zones] returns the four-zone map and total: with a
    usable structure, positive raw total and positive recorded distance, the
    raw buckets are scaled by [recorded / raw_total], they sum to the recorded
    distance and that distance is the returned total; an absent (or falsy),
    unparsable or non-percent-metric structure puts the whole recorded
    distance in [easy], and so does a zero raw total with a positive recorded
    distance. *)
Theorem parse_workout_zones_spec :
  forall jl w ts th,
  let d := num_or0 (w_distance w) in
  (w_structure w = None -> parse_workout_zones jl w ts th = Ok (easy_only d, d))
  /\ (forall p, w_structure w = Some p -> payload_truthy p = false ->
        parse_workout_zones jl w ts th = Ok (easy_only d, d))
  /\ (forall s, w_structure w = Some (PText s) -> json_loads_fails jl s ->
        parse_workout_zones jl w ts th = Ok (easy_only d, d))
  /\ (forall m st sp o, decodes_to jl w (PObj m st sp o) ->
        str_in (match m with Some x => x | None => "" end) PERCENT_METRICS = false ->
        parse_workout_zones jl w ts th = Ok (easy_only d, d))
  /\ (forall m st sp o, decodes_to jl w (PObj m st sp o) ->
        str_in (match m with Some x => x | None => "" end) PERCENT_METRICS = true ->
        let raw := raw_zones ts th (match st with Some l => l | None => [] end) in
        0 < zones_sum raw -> 0 < d ->
        exists z, parse_workout_zones jl w ts th = Ok (z, d)
                  /\ z = zones_scale (d / zones_sum raw) raw
                  /\ zones_sum z == d)
  /\ (forall m st sp o, decodes_to jl w (PObj m st sp o) ->
        str_in (match m with Some x => x | None => "" end) PERCENT_METRICS = true ->
        let raw := raw_zones ts th (match st with Some l => l | None => [] end) in
        zones_sum raw == 0 -> 0 < d ->
        parse_workout_zones jl w ts th = Ok (easy_only d, d)).
Proof.
  intros jl w ts th d.
  split; [intros H; unfold parse_workout_zones; rewrite H; reflexivity|].
  split; [intros p H Hf; unfold parse_workout_zones; rewrite H, Hf; reflexivity|].
  split.
  { intros s H Hj. unfold parse_workout_zones. rewrite H.
    destruct (payload_truthy (PText s)); [|reflexivity]. simpl. rewrite Hj. reflexivity. }
  split.
  { intros m st sp o Hd Hm. rewrite (parse_workout_zones_decoded _ _ _ _ _ _ _ _ Hd).
    unfold zones_of_structure. rewrite Hm. reflexivity. }
  split.
  { intros m st sp o Hd Hm raw Hr Hdp. rewrite (parse_workout_zones_decoded _ _ _ _ _ _ _ _ Hd).
    unfold zones_of_structure. rewrite Hm. simpl. fold raw. fold d.
    assert (E1 : Qlt_bool 0 (zones_sum raw) = true).
    { unfold Qlt_bool. apply negb_true_iff, Bool.not_true_iff_false.
      rewrite Qle_bool_iff. lra. }
    assert (E2 : Qlt_bool 0 d = true).
    { unfold Qlt_bool. apply negb_true_iff, Bool.not_true_iff_false.
      rewrite Qle_bool_iff. lra. }
    rewrite E1, E2. simpl.
    eexists; split; [reflexivity|split; [reflexivity|]].
    unfold zones_sum, zones_scale in *; simpl.
    field. intros Hz. lra. }
  { intros m st sp o Hd Hm raw Hr Hdp. rewrite (parse_workout_zones_decoded _ _ _ _ _ _ _ _ Hd).
    unfold zones_of_structure. rewrite Hm. simpl. fold raw. fold d.
    assert (E1 : Qlt_bool 0 (zones_sum raw) = false).
    { unfold Qlt_bool. apply negb_false_iff. apply Qle_bool_iff. lra. }
    assert (E2 : Qlt_bool 0 d = true).
    { unfold Qlt_bool. apply negb_true_iff, Bool.not_true_iff_false.
      rewrite Qle_bool_iff. lra. }
    assert (E3 : Qeq_bool (zones_sum raw) 0 = true) by (apply Qeq_bool_iff; auto).
    rewrite E1, E2, E3. reflexivity. }
Qed.

Lemma parse_workout_zones_spec_witness :
  0 < zones_sum (raw_zones 4 DEFAULT_ZONE_THRESHOLDS sample_zone_blocks) /\
  exists z, parse_workout_zones (fun _ => None) sample_zone_workout 4
              DEFAULT_ZONE_THRESHOLDS = Ok (z, 10000)
            /\ zones_sum z == 10000.
Proof.
  assert (Hr : 0 < zones_sum (raw_zones 4 DEFAULT_ZONE_THRESHOLDS sample_zone_blocks))
    by (vm_compute; reflexivity).
  split; [exact Hr|].
  destruct (parse_workout_zones_spec (fun _ => None) sample_zone_workout 4
              DEFAULT_ZONE_THRESHOLDS) as [_ [_ [_ [_ [Hscale _]]]]].
  destruct (Hscale (Some "percentOfThresholdPace") (Some sample_zone_blocks) None false)
    as [z [Hz [_ Hsum]]].
  - left. reflexivity.
  - reflexivity.
  - exact Hr.
  - vm_compute. reflexivity.
  - exists z. split; assumption.
Defined.

Lemma risk_scan_in weekly prev rest f :
  In f (risk_scan weekly prev rest) <->
  exists l1 kp kc l2, prev :: rest = (l1 ++ kp :: kc :: l2)%list /\
    let p := total_hard (weekly_get weekly kp) in
    let c := total_hard (weekly_get weekly kc) in
    (0 < p)%Z /\ 40 <= increase_of p c /\ f = spike_factor kc (increase_of p c).
Proof.
  revert prev. induction rest as [|curr rest IH]; intros prev; simpl.
  - split; [intros []|].
    intros [l1 [kp [kc [l2 [E _]]]]].
    destruct l1 as [|a [|b l1]]; simpl in E; inversion E.
  - rewrite in_app_iff, IH. split.
    + intros [Hin | [l1 [kp [kc [l2 [E Hc]]]]]].
      * destruct ((0 <? _)%Z && Qle_bool 40 _) eqn:Ec; [|destruct Hin].
        destruct Hin as [Hf|[]]. apply andb_true_iff in Ec as [E1 E2].
        exists [], prev, curr, rest. split; [reflexivity|].
        simpl. split; [apply Z.ltb_lt; auto|]. split; [apply Qle_bool_iff; auto|auto].
      * exists (prev :: l1), kp, kc, l2. split; [simpl; rewrite E; reflexivity|exact Hc].
    + intros [l1 [kp [kc [l2 [E Hc]]]]].
      destruct l1 as [|a l1]; simpl in E; inversion E; subst.
      * left. simpl in Hc. destruct Hc as [H1 [H2 H3]].
        apply Z.ltb_lt in H1. apply Qle_bool_iff in H2. rewrite H1, H2. simpl.
        left; auto.
      * right. exists l1, kp, kc, l2. split; auto.
Qed.

(** C8: with injury-risk mode, a risk factor is reported for a week exactly
    when it follows (in sorted key order) a week with a positive [total_hard]
    and the percent increase is at least 40; its severity is [high] exactly at
    an increase of at least 60, else [medium], and it carries the recovery
    recommendation.  Without injury-risk mode no risk factors are reported. *)
Theorem injury_risk_factors_spec :
  forall weekly,
  patterns_risk_factors false weekly = None
  /\ exists rfs, patterns_risk_factors true weekly = Some rfs
     /\ forall f, In f rfs <->
        exists l1 kp kc l2, sort_strs (map fst weekly) = (l1 ++ kp :: kc :: l2)%list /\
          let p := total_hard (weekly_get weekly kp) in
          let c := total_hard (weekly_get weekly kc) in
          (0 < p)%Z /\ 40 <= increase_of p c /\
          f = {| rf_type := "hard_session_spike";
                 rf_week := kc;
                 rf_increase_pct := round1 (increase_of p c);
                 rf_severity := if Qle_bool 60 (increase_of p c) then "high" else "medium";
                 rf_recommendation :=
                   "Consider a recovery week or reducing intensity density" |}.
Proof.
  intros weekly. split; [reflexivity|].
  unfold patterns_risk_factors.
  destruct (sort_strs (map fst weekly)) as [|k ks] eqn:Es.
  - exists []. split; [reflexivity|]. intros f; split; [intros []|].
    intros [l1 [kp [kc [l2 [E _]]]]]. destruct l1; discriminate.
  - exists (risk_scan weekly k ks). split; [reflexivity|].
    intros f. apply risk_scan_in.
Qed.

Lemma injury_risk_factors_spec_witness :
  patterns_risk_factors false sample_weekly = None /\
  patterns_risk_factors true sample_weekly =
    Some [ {| rf_type := "hard_session_spike"; rf_week := "2026-W02";
              rf_increase_pct := 600 # 10; rf_severity := "high";
              rf_recommendation :=
                "Consider a recovery week or reducing intensity density" |} ].
Proof.
  split; [apply (injury_risk_factors_spec sample_weekly)|].
  vm_compute. reflexivity.
Defined.

(** C7: an [interval] entry (whose on/off lengths parse) appends, after the
    flush of pending warm-ups into a [rampUp] block, exactly one [repetition]
    block whose length is [(reps, "repetition")] with [reps] defaulting to 1,
    and whose steps are exactly the [active] on-step followed by the [rest]
    off-step, named [off_name] or ["Easy"]; [{reps:4, on:"8:00", off:"2:00"}]
    compiles to one repetition block of length 4 with two child steps. *)
Theorem interval_compiles_to_one_repetition :
  (forall blocks warmup_steps e on off on_len off_len,
      d_type e = Some "interval" -> d_on e = Some on -> d_off e = Some off ->
      parse_length on = Ok on_len -> parse_length off = Ok off_len ->
      exists b,
        compile_step (blocks, warmup_steps) e =
          Ok ((blocks ++ rampup_block warmup_steps ++ [b])%list, [])
        /\ filter (fun x => String.eqb (ob_type x) "repetition")
                  (rampup_block warmup_steps) = []
        /\ ob_type b = "repetition"
        /\ ob_length b = (get_or (d_reps e) 1%Z, "repetition")
        /\ exists son soff, ob_steps b = [son; soff]
           /\ os_intensityClass son = "active" /\ os_length son = on_len
           /\ os_intensityClass soff = "rest" /\ os_length soff = off_len
           /\ os_name soff = get_or (d_off_name e) "Easy")
  /\ exists b, simple_to_tp_structure [interval_4x8] "percentOfThresholdPace" =
               Ok (mkOutStructure "percentOfThresholdPace" [b])
     /\ ob_type b = "repetition" /\ fst (ob_length b) = 4%Z
     /\ List.length (ob_steps b) = 2%nat.
Proof.
  split.
  - intros blocks ws e on off on_len off_len Ht Hon Hoff Hpon Hpoff.
    unfold compile_step. rewrite Ht. simpl.
    rewrite Hon. simpl. rewrite Hpon. simpl. rewrite Hoff. simpl. rewrite Hpoff. simpl.
    eexists. split; [reflexivity|].
    split; [destruct ws; reflexivity|].
    split; [reflexivity|]. split; [reflexivity|].
    do 2 eexists. repeat split.
  - eexists. split; [vm_compute; reflexivity|]. repeat split.
Qed.

Lemma interval_compiles_to_one_repetition_witness :
  parse_length "8:00" = Ok (480%Z, "second") /\
  parse_length "2:00" = Ok (120%Z, "second") /\
  exists b, compile_step ([], []) interval_4x8 = Ok ([b], []) /\
            ob_length b = (4%Z, "repetition").
Proof.
  assert (H1 : parse_length "8:00" = Ok (480%Z, "second")) by reflexivity.
  assert (H2 : parse_length "2:00" = Ok (120%Z, "second")) by reflexivity.
  split; [exact H1|]. split; [exact H2|].
  destruct interval_compiles_to_one_repetition as [Hgen _].
  destruct (Hgen [] [] interval_4x8 "8:00" "2:00" _ _ eq_refl eq_refl eq_refl H1 H2)
    as [b [Hc [_ [_ [Hl _]]]]].
  exists b. split; [exact Hc | exact Hl].
Defined.

Lemma py_int_err s e : py_int s = Err e -> e = ValueError.
Proof.
  unfold py_int. cbv zeta. intros H.
  match type of H with (match ?r with _ => _ end) = _ => destruct r end; congruence.
Qed.

Lemma py_float_err s e : py_float s = Err e -> e = ValueError.
Proof. unfold py_float. destruct (py_float_opt s); congruence. Qed.

Lemma int_of_float_err f e :
  int_of_float f = Err e -> e = ValueError \/ e = OverflowError.
Proof. destruct f; simpl; intros H; inversion H; auto. Qed.

Lemma int_of_float_overflow f : int_of_float f = Err OverflowError -> exists n, f = FInf n.
Proof. destruct f; simpl; intros H; inversion H; eauto. Qed.

(** C5, counterexample: a malformed length string raises [ValueError], not
    a [ParseError]; an infinite value raises [OverflowError]; and a DSL step
    without [type] makes the compiler raise [KeyError]. *)
Lemma parse_length_malformed_no_parse_error :
  parse_length "abc" = Err ValueError /\ parse_length "abc" <> Err ParseError
  /\ parse_length "infm" = Err OverflowError
  /\ simple_to_tp_structure [dsl0] "percentOfThresholdPace" = Err KeyError.
Proof. repeat split; try reflexivity. discriminate. Qed.

(** C5, amended: every failure of [parse_length] is a [ValueError], or an
    [OverflowError] of the [km]/[m] forms (infinite value); it never raises
    [ParseError]; e.g. ["abc"], ["1:2:3:4"] and ["5x"] raise [ValueError];
    the compiler raises [KeyError] on a DSL step without [type]. *)
Theorem parse_length_failures :
  (forall s e, parse_length s = Err e ->
     e = ValueError \/ (e = OverflowError /\ str_endswith "m" (str_strip s) = true))
  /\ parse_length "abc" = Err ValueError
  /\ parse_length "1:2:3:4" = Err ValueError
  /\ parse_length "5x" = Err ValueError
  /\ parse_length "infkm" = Err OverflowError
  /\ simple_to_tp_structure [dsl0] "percentOfThresholdPace" = Err KeyError.
Proof.
  split; [|repeat split; reflexivity].
  intros s e. unfold parse_length.
  destruct (str_endswith "km" (str_strip s)) eqn:Ekm.
  - destruct (py_float _) as [f|e'] eqn:Ef; simpl.
    + destruct (int_of_float (fmul1000 f)) eqn:Ei; simpl; [discriminate|].
      intros H; inversion H; subst.
      destruct (int_of_float_err _ _ Ei) as [ -> | -> ]; [left; auto|right; split; auto].
      revert Ekm. unfold str_endswith.
      change (str_rev "km") with "mk". change (str_rev "m") with "m".
      destruct (str_rev (str_strip s)) as [|a r]; cbn [str_prefix]; [auto|].
      destruct (Ascii.eqb "m" a); cbn; auto.
    + intros H; inversion H; subst. left. eapply py_float_err; eauto.
  - destruct (str_endswith "m" (str_strip s)) eqn:Em.
    + destruct (py_float _) as [f|e'] eqn:Ef; simpl.
      * destruct (int_of_float f) eqn:Ei; simpl; [discriminate|].
        intros H; inversion H; subst.
        destruct (int_of_float_err _ _ Ei) as [ -> | -> ]; [left|right]; auto.
      * intros H; inversion H; subst. left. eapply py_float_err; eauto.
    + destruct (str_split ":" (str_strip s)) as [|p0 [|p1 [|p2 [|p3 r]]]];
      repeat match goal with
      | |- context [py_int ?x] => destruct (py_int x) eqn:?; simpl
      end; intros H; inversion H; subst; left;
      match goal with H : py_int _ = Err _ |- _ => eapply py_int_err; eauto end.
Qed.

Lemma parse_length_failures_witness :
  parse_length "infm" = Err OverflowError /\
  (OverflowError = ValueError \/
   (OverflowError = OverflowError /\ str_endswith "m" (str_strip "infm") = true)).
Proof.
  split; [reflexivity|].
  destruct parse_length_failures as [H _]. apply (H "infm"). reflexivity.
Defined.

Lemma digits_value_acc_nonneg s acc : (0 <= acc)%Z -> (0 <= digits_value_acc s acc)%Z.
Proof.
  revert acc; induction s as [|c r IH]; intros acc Hacc; cbn; [exact Hacc|].
  apply IH. unfold digit_val. lia.
Qed.

Lemma match_int_nonneg s n : match_int s = Some n -> (0 <= n)%Z.
Proof.
  unfold match_int. destruct (leading_digits s) as [ds r].
  destruct (String.eqb ds ""); intros H; inversion H; subst.
  apply digits_value_acc_nonneg; lia.
Qed.

Lemma match_range_nonneg s a b : match_range s = Some (a, b) -> (0 <= a)%Z /\ (0 <= b)%Z.
Proof.
  unfold match_range. destruct (leading_digits s) as [d1 r1].
  destruct (String.eqb d1 ""); [discriminate|].
  destruct r1 as [|c r]; [discriminate|].
  destruct (Ascii.eqb c "-") eqn:Ec.
  - apply Ascii.eqb_eq in Ec; subst c.
    destruct (leading_digits r) as [d2 r2].
    destruct (String.eqb d2 ""); intros H; inversion H; subst.
    split; apply digits_value_acc_nonneg; lia.
  - intros H. destruct c as [[] [] [] [] [] [] [] []]; try discriminate; cbn in Ec; discriminate.
Qed.

Lemma pct_to_speed_nonneg t ts : 0 <= ts -> 0 <= _pct_to_speed t ts.
Proof.
  intros Hts. unfold _pct_to_speed.
  destruct (negb (truthy_str t)); [lra|].
  destruct (match_range (get_or t "")) as [[a b]|] eqn:Er.
  - destruct (match_range_nonneg _ _ _ Er) as [Ha Hb].
    assert (0 <= inject_Z (a + b)) by (unfold Qle; cbn; lia).
    apply Qmult_le_0_compat; [exact Hts|].
    apply Qle_shift_div_l; [reflexivity|].
    apply Qle_shift_div_l; [reflexivity|]. lra.
  - destruct (match_int (get_or t "")) as [n|] eqn:Ei; [|lra].
    pose proof (match_int_nonneg _ _ Ei) as Hn.
    assert (0 <= inject_Z n) by (unfold Qle; cbn; lia).
    apply Qmult_le_0_compat; [exact Hts|].
    apply Qle_shift_div_l; [reflexivity|]. lra.
Qed.

Lemma add_leg_nonneg v u speed acc :
  (0 <= v)%Z -> 0 <= speed -> nonneg_pair acc -> nonneg_pair (add_leg v u speed acc).
Proof.
  intros Hv Hs [H1 H2]. destruct acc as [s m]; cbn in *.
  assert (Hq : 0 <= inject_Z v) by (unfold Qle; cbn; lia).
  unfold add_leg, nonneg_pair. destruct (String.eqb u "second"); cbn.
  - split; [lra|]. pose proof (Qmult_le_0_compat _ _ Hq Hs). lra.
  - split; [|lra].
    destruct (Qlt_bool 0 speed) eqn:E; [|lra].
    unfold Qlt_bool in E. apply negb_true_iff in E. qb.
    assert (0 <= inject_Z v / speed) by (apply Qle_shift_div_l; lra).
    lra.
Qed.

Lemma repeat_legs_nonneg n ov ou os fv fu fs acc :
  (0 <= ov)%Z -> 0 <= os -> (0 <= fv)%Z -> 0 <= fs -> nonneg_pair acc ->
  nonneg_pair (repeat_legs n ov ou os fv fu fs acc).
Proof.
  revert acc; induction n as [|n IH]; intros acc H1 H2 H3 H4 Hacc; cbn; [exact Hacc|].
  apply IH; auto. apply add_leg_nonneg; auto. apply add_leg_nonneg; auto.
Qed.

Lemma calc_loop_nonneg ts steps acc r :
  0 <= ts -> lengths_nonneg steps -> nonneg_pair acc ->
  calc_loop ts acc steps = Ok r -> nonneg_pair r.
Proof.
  intros Hts Hl. revert acc. induction Hl as [|st rest Hst Hrest IH]; intros acc Hacc H; cbn in H.
  - inversion H; subst; exact Hacc.
  - destruct (calc_step ts acc st) as [acc'|e] eqn:Es; [|discriminate].
    apply (IH acc'); [|exact H].
    unfold calc_step in Es. unfold step_length_strings in Hst.
    destruct (d_type st) as [t|]; [|inversion Es; subst; exact Hacc].
    destruct (str_in t ["warmup"; "steady"; "cooldown"]).
    + destruct (d_duration st) as [d|]; cbn in Es; [|discriminate].
      destruct (parse_length d) as [[v u]|e] eqn:Ep; cbn in Es; [|discriminate].
      inversion Es; subst. inversion Hst as [|? ? Hd]; subst.
      apply add_leg_nonneg; [eapply Hd; exact Ep | apply pct_to_speed_nonneg; exact Hts | exact Hacc].
    + destruct (String.eqb t "interval").
      * destruct (d_on st) as [a|]; cbn in Es; [|discriminate].
        destruct (parse_length a) as [[ov ou]|e] eqn:Ea; cbn in Es; [|discriminate].
        destruct (d_off st) as [b|]; cbn in Es; [|discriminate].
        destruct (parse_length b) as [[fv fu]|e] eqn:Eb; cbn in Es; [|discriminate].
        inversion Es; subst. inversion Hst as [|? ? Ha Hb']; subst.
        inversion Hb' as [|? ? Hb]; subst.
        apply repeat_legs_nonneg;
          [eapply Ha; exact Ea | apply pct_to_speed_nonneg; exact Hts
          | eapply Hb; exact Eb | apply pct_to_speed_nonneg; exact Hts | exact Hacc].
      * inversion Es; subst; exact Hacc.
Qed.

Lemma q_trunc_floor_nonneg x : 0 <= x -> q_trunc x = Qfloor x.
Proof.
  destruct x as [n d]. unfold Qle; cbn. intros H.
  unfold q_trunc, Qfloor; cbn. apply Z.quot_div_nonneg; lia.
Qed.

Lemma add_leg_distance v u speed s m :
  0 <= speed -> u <> "second"%string ->
  add_leg v u speed (s, m) = (s + (if Qeq_bool speed 0 then 0 else inject_Z v / speed), m + inject_Z v).
Proof.
  intros Hs Hu. unfold add_leg.
  destruct (String.eqb u "second") eqn:E; [apply String.eqb_eq in E; contradiction|].
  f_equal. f_equal. unfold Qlt_bool.
  destruct (Qle_bool speed 0) eqn:E1; destruct (Qeq_bool speed 0) eqn:E2; cbn; auto.
  - apply Qle_bool_iff in E1. apply Bool.not_true_iff_false in E2.
    exfalso; apply E2, Qeq_bool_iff; lra.
  - apply Qeq_bool_iff in E2. apply Bool.not_true_iff_false in E1.
    exfalso; apply E1, Qle_bool_iff; lra.
Qed.

(** C6 (counterexample): a steady step of duration "-5" at threshold speed 4
    and no target accumulates [(-5, -14.4)]; [int(x + 0.5)] truncates toward
    zero and returns [(-4, -13)], while half-up rounding of the totals gives
    [(-5, -14)]. *)
Lemma calc_time_and_distance_negative_duration :
  exists S M, calc_loop 4 (0, 0) [steady_neg5] = Ok (S, M) /\ S == -5 /\ M == -(72 # 5) /\
    round_half_up S = (-5)%Z /\ round_half_up M = (-14)%Z /\
    calc_time_and_distance [steady_neg5] 4 = Ok ((-4)%Z, (-13)%Z).
Proof.
  eexists _, _. split; [reflexivity|]. vm_compute. repeat split; reflexivity.
Qed.

(** Where [int(x + 0.5)] is half-up rounding: for a non-negative threshold
    speed and steps whose parsed lengths are non-negative, whenever the
    accumulation succeeds the estimate
    is the pair of accumulated totals each rounded half-up (the totals being
    non-negative), and a failing accumulation is the failure of the estimate.
    The pace is 72% of the threshold speed without a target, the midpoint of a
    leading range [a-b], or else a leading single value; a time leg adds
    [value] seconds and [value * speed] meters; a distance leg adds [value]
    meters and [value / speed] seconds, nothing when the speed is 0. *)
Theorem calc_time_and_distance_half_up (steps : list dsl_step) (ts : Q) :
  0 <= ts -> lengths_nonneg steps ->
  (forall S M, calc_loop ts (0, 0) steps = Ok (S, M) ->
     calc_time_and_distance steps ts = Ok (round_half_up S, round_half_up M)
     /\ 0 <= S /\ 0 <= M)
  /\ (forall e, calc_loop ts (0, 0) steps = Err e -> calc_time_and_distance steps ts = Err e)
  /\ _pct_to_speed None ts = ts * (72 # 100)
  /\ (forall s a b, match_range s = Some (a, b) ->
        _pct_to_speed (Some s) ts = ts * (inject_Z (a + b) / 2 / 100))
  /\ (forall s n, match_range s = None -> match_int s = Some n ->
        _pct_to_speed (Some s) ts = ts * (inject_Z n / 100))
  /\ (forall v speed s m,
        add_leg v "second" speed (s, m) = (s + inject_Z v, m + inject_Z v * speed))
  /\ (forall v u t s m, u <> "second"%string ->
        add_leg v u (_pct_to_speed t ts) (s, m)
        = (s + (if Qeq_bool (_pct_to_speed t ts) 0 then 0 else inject_Z v / _pct_to_speed t ts),
           m + inject_Z v)).
Proof.
  intros Hts Hl.
  assert (Hnn : forall S0 M0, calc_loop ts (0, 0) steps = Ok (S0, M0) -> 0 <= S0 /\ 0 <= M0).
  { intros S0 M0 H. apply (calc_loop_nonneg ts steps (0, 0) (S0, M0) Hts Hl); [split; cbn; lra | exact H]. }
  refine (conj _ (conj _ (conj _ (conj _ (conj _ (conj _ _)))))).
  - intros S0 M0 H. destruct (Hnn S0 M0 H) as [HS HM].
    unfold calc_time_and_distance. rewrite H. cbn [bind fst snd].
    unfold round_half_up. rewrite !q_trunc_floor_nonneg by lra. auto.
  - intros e H. unfold calc_time_and_distance. rewrite H. reflexivity.
  - reflexivity.
  - intros s a b H. destruct s as [|c r]; [discriminate|].
    unfold _pct_to_speed. cbn [truthy_str get_or String.eqb negb]. rewrite H. reflexivity.
  - intros s n H1 H2. destruct s as [|c r]; [discriminate|].
    unfold _pct_to_speed. cbn [truthy_str get_or String.eqb negb]. rewrite H1, H2. reflexivity.
  - intros v speed s m. reflexivity.
  - intros v u t s m Hu. apply add_leg_distance; [apply pct_to_speed_nonneg; exact Hts | exact Hu].
Qed.

Lemma calc_time_and_distance_half_up_witness :
  0 <= 4 /\ lengths_nonneg spec_example_steps /\
  calc_time_and_distance spec_example_steps 4 = Ok (2343%Z, 7328%Z) /\
  (forall S M, calc_loop 4 (0, 0) spec_example_steps = Ok (S, M) ->
     calc_time_and_distance spec_example_steps 4 = Ok (round_half_up S, round_half_up M)
     /\ 0 <= S /\ 0 <= M).
Proof.
  assert (Hts : 0 <= 4) by lra.
  assert (Hl : lengths_nonneg spec_example_steps).
  { repeat constructor; intros v u H; vm_compute in H; inversion H; lia. }
  split; [exact Hts|]. split; [exact Hl|]. split; [vm_compute; reflexivity|].
  apply (calc_time_and_distance_half_up spec_example_steps 4 Hts Hl).
Defined.

(* ------------------------------------------------------------------ *)
(** ** Dates: [_ord2ymd], ISO weeks, week keys and week starts *)

Section DateProperties.
Local Open Scope Z_scope.

Lemma leap_iff y : _is_leap y = true <-> (y mod 4 = 0 /\ (y mod 100 <> 0 \/ y mod 400 = 0)).
Proof.
  unfold _is_leap. rewrite andb_true_iff, orb_true_iff, negb_true_iff, !Z.eqb_eq, Z.eqb_neq.
  tauto.
Qed.

Lemma days_before_year_succ y :
  _days_before_year (y + 1) = _days_before_year y + 365 + (if _is_leap y then 1 else 0).
Proof.
  unfold _days_before_year. replace (y + 1 - 1) with y by lia.
  destruct (_is_leap y) eqn:E.
  - apply leap_iff in E. Z.div_mod_to_equations. lia.
  - assert (~ (y mod 4 = 0 /\ (y mod 100 <> 0 \/ y mod 400 = 0))) as E'
      by (rewrite <- leap_iff; congruence).
    Z.div_mod_to_equations. lia.
Qed.

Lemma ymd2ord_year_bounds y m d :
  1 <= m <= 12 -> 1 <= d <= _days_in_month y m ->
  _ymd2ord y 1 1 <= _ymd2ord y m d < _ymd2ord (y + 1) 1 1.
Proof.
  intros Hm Hd. unfold _ymd2ord, _days_before_month, _days_in_month in *.
  rewrite days_before_year_succ. cbn [_DAYS_BEFORE_MONTH Z.ltb Z.compare andb].
  assert (m = 1 \/ m = 2 \/ m = 3 \/ m = 4 \/ m = 5 \/ m = 6 \/ m = 7 \/ m = 8 \/
          m = 9 \/ m = 10 \/ m = 11 \/ m = 12) as Hc by lia.
  repeat destruct Hc as [Hc | Hc]; subst m; destruct (_is_leap y); cbn in *; lia.
Qed.

Lemma isoweek1monday_facts y :
  (_isoweek1monday y - 1) mod 7 = 0 /\
  _ymd2ord y 1 1 - 3 <= _isoweek1monday y <= _ymd2ord y 1 1 + 3.
Proof.
  unfold _isoweek1monday. set (f := _ymd2ord y 1 1).
  destruct (3 <? (f + 6) mod 7) eqn:E; [apply Z.ltb_lt in E | apply Z.ltb_ge in E];
  Z.div_mod_to_equations; lia.
Qed.

Lemma ymd2ord_jan1_succ y :
  _ymd2ord (y + 1) 1 1 = _ymd2ord y 1 1 + 365 + leapz y.
Proof.
  unfold _ymd2ord, _days_before_month, leapz. rewrite days_before_year_succ. cbn. lia.
Qed.

Lemma leapz_range y : 0 <= leapz y <= 1.
Proof. unfold leapz; destruct (_is_leap y); lia. Qed.

Lemma isoweek1monday_succ y :
  _isoweek1monday y + 364 <= _isoweek1monday (y + 1) <= _isoweek1monday y + 371.
Proof.
  pose proof (isoweek1monday_facts y) as [A B]. pose proof (isoweek1monday_facts (y + 1)) as [C D].
  pose proof (ymd2ord_jan1_succ y). pose proof (leapz_range y).
  Z.div_mod_to_equations. lia.
Qed.

Lemma isoweek1monday_mono a b : a < b -> _isoweek1monday (a + 1) <= _isoweek1monday b.
Proof.
  intros H.
  assert (forall k : nat, _isoweek1monday (a + 1) <= _isoweek1monday (a + 1 + Z.of_nat k)) as G.
  { induction k as [|k IH].
    - rewrite Z.add_0_r. lia.
    - rewrite Nat2Z.inj_succ. pose proof (isoweek1monday_succ (a + 1 + Z.of_nat k)).
      replace (a + 1 + Z.succ (Z.of_nat k)) with (a + 1 + Z.of_nat k + 1) by lia. lia. }
  specialize (G (Z.to_nat (b - a - 1))). rewrite Z2Nat.id in G by lia.
  replace (a + 1 + (b - a - 1)) with b in G by lia. exact G.
Qed.

Lemma valid_ymd_spec dt : valid_ymd dt = true ->
  1 <= year dt <= 9999 /\ 1 <= month dt <= 12 /\ 1 <= day dt <= _days_in_month (year dt) (month dt).
Proof.
  unfold valid_ymd. rewrite !andb_true_iff, !Z.leb_le. lia.
Qed.

(** The ISO calendar of a valid date: the ISO year's week 1 Monday is at or
    before the date and the next ISO year's is after it. *)

Lemma isocalendar_spec dt :
  valid_ymd dt = true ->
  let '(Y, W, D) := isocalendar dt in
  _isoweek1monday Y <= toordinal dt < _isoweek1monday (Y + 1) /\
  W = (toordinal dt - _isoweek1monday Y) / 7 + 1 /\
  D = (toordinal dt - _isoweek1monday Y) mod 7 + 1.
Proof.
  intros Hv. apply valid_ymd_spec in Hv as (Hy & Hm & Hd).
  pose proof (ymd2ord_year_bounds (year dt) (month dt) (day dt) Hm Hd) as Hb.
  unfold isocalendar, toordinal in *. destruct dt as [y m d]; cbn [year month day] in *.
  set (t := _ymd2ord y m d) in *.
  pose proof (isoweek1monday_facts (y - 1)) as [A1 B1].
  pose proof (isoweek1monday_facts y) as [A2 B2].
  pose proof (isoweek1monday_facts (y + 1)) as [A3 B3].
  pose proof (isoweek1monday_succ (y - 1)) as S1. replace (y - 1 + 1) with y in S1 by lia.
  pose proof (isoweek1monday_succ y) as S2.
  pose proof (isoweek1monday_succ (y + 1)) as S3.
  pose proof (ymd2ord_jan1_succ y) as J. pose proof (leapz_range y).
  destruct ((t - _isoweek1monday y) / 7 <? 0) eqn:E1;
    [apply Z.ltb_lt in E1 | apply Z.ltb_ge in E1].
  - replace (y - 1 + 1) with y by lia.
    assert (t < _isoweek1monday y) by (Z.div_mod_to_equations; lia).
    split; [|split; reflexivity]. lia.
  - assert (_isoweek1monday y <= t) by (Z.div_mod_to_equations; lia).
    destruct (52 <=? (t - _isoweek1monday y) / 7) eqn:E2;
      [apply Z.leb_le in E2 | apply Z.leb_gt in E2].
    + destruct (_isoweek1monday (y + 1) <=? t) eqn:E3;
        [apply Z.leb_le in E3 | apply Z.leb_gt in E3].
      * refine (conj _ (conj _ _)); [lia| |].
        -- Z.div_mod_to_equations; lia.
        -- Z.div_mod_to_equations; lia.
      * split; [lia | split; reflexivity].
    + assert (t < _isoweek1monday (y + 1)) by (Z.div_mod_to_equations; lia).
      split; [lia | split; reflexivity].
Qed.

Lemma str_app_assoc (a b c : string) : ((a ++ b) ++ c)%string = (a ++ (b ++ c))%string.
Proof. induction a; cbn; congruence. Qed.

Lemma str_app_nil_r (a : string) : (a ++ "")%string = a.
Proof. induction a; cbn; congruence. Qed.

Lemma digit_char_ok k : 0 <= k < 10 -> is_digit (digit_char k) = true /\ digit_val (digit_char k) = k.
Proof.
  intros H. unfold digit_char, is_digit, digit_val.
  rewrite Ascii.nat_ascii_embedding by lia.
  split; [apply andb_true_iff; split; apply Nat.leb_le; lia | lia].
Qed.

Lemma digits_value_acc_app s1 s2 a :
  digits_value_acc (s1 ++ s2) a = digits_value_acc s2 (digits_value_acc s1 a).
Proof. revert a; induction s1; intros; cbn; auto. Qed.

Lemma nat_str_go_spec fuel : forall n acc, 0 <= n < 2 ^ Z.of_nat (S fuel) ->
  exists ds, nat_str_go fuel n acc = (ds ++ acc)%string /\ ds <> ""%string /\
             all_digits ds = true /\ digits_value ds = n.
Proof.
  induction fuel as [|f IH]; intros n acc Hn.
  - cbn in Hn. destruct (digit_char_ok n ltac:(lia)) as [D V].
    exists (String (digit_char n) ""). unfold digits_value; cbn [all_digits digits_value_acc String.append]. rewrite D, V. repeat split; try discriminate; lia.
  - cbn [nat_str_go]. destruct (n <? 10) eqn:E.
    + apply Z.ltb_lt in E. destruct (digit_char_ok n ltac:(lia)) as [D V].
      exists (String (digit_char n) ""). unfold digits_value; cbn [all_digits digits_value_acc String.append]. rewrite D, V. repeat split; try discriminate; lia.
    + apply Z.ltb_ge in E.
      assert (0 <= n / 10 < 2 ^ Z.of_nat (S f)).
      { rewrite Nat2Z.inj_succ in Hn |- *. rewrite Z.pow_succ_r in Hn by lia.
        Z.div_mod_to_equations. lia. }
      destruct (IH (n / 10) (String (digit_char (n mod 10)) acc) H) as (ds & Eq & Ne & Ad & Dv).
      destruct (digit_char_ok (n mod 10) ltac:(Z.div_mod_to_equations; lia)) as [D V].
      exists (ds ++ String (digit_char (n mod 10)) "")%string. rewrite Eq.
      refine (conj _ (conj _ (conj _ _))).
      * rewrite str_app_assoc. reflexivity.
      * destruct ds; [congruence | discriminate].
      * clear -Ad D. induction ds; cbn in *; [rewrite D; reflexivity|].
        apply andb_true_iff in Ad as [A1 A2]. rewrite A1, IHds; auto.
      * unfold digits_value in *. rewrite digits_value_acc_app, Dv. cbn [digits_value_acc]. rewrite V.
        Z.div_mod_to_equations; lia.
Qed.

Lemma z_str_nonneg n : 0 <= n ->
  z_str n <> ""%string /\ all_digits (z_str n) = true /\ digits_value (z_str n) = n.
Proof.
  intros H. unfold z_str. rewrite Z.abs_eq by lia.
  destruct (nat_str_go_spec (S (Z.to_nat (Z.log2 n))) n "") as (ds & E & Ne & Ad & Dv).
  - split; [lia|]. rewrite !Nat2Z.inj_succ, Z2Nat.id by (apply Z.log2_nonneg).
    pose proof (Z.log2_nonneg n).
    destruct (Z.eq_dec n 0) as [->|Hn]; [cbn; lia|].
    pose proof (Z.log2_spec n ltac:(lia)) as [_ B].
    assert (2 ^ Z.succ (Z.log2 n) <= 2 ^ Z.succ (Z.succ (Z.log2 n))) by (apply Z.pow_le_mono_r; lia).
    lia.
  - rewrite E, str_app_nil_r. destruct (n <? 0) eqn:L; [apply Z.ltb_lt in L; lia|]. auto.
Qed.

Lemma ord2ymd_month_check_all :
  forallb (fun k => ord2ymd_month_check (Z.of_nat k) true && ord2ymd_month_check (Z.of_nat k) false)
          (seq 0 365) = true.
Proof. vm_compute. reflexivity. Qed.

Lemma ord2ymd_month_ok r1 ly m p :
  0 <= r1 <= 364 -> _ord2ymd_month r1 ly = (m, p) ->
  1 <= m <= 12 /\ p = _DAYS_BEFORE_MONTH m + (if (2 <? m) && ly then 1 else 0) /\
  1 <= r1 - p + 1 <= (if (m =? 2) && ly then 29 else _DAYS_IN_MONTH m).
Proof.
  intros Hr HE. pose proof ord2ymd_month_check_all as A. rewrite forallb_forall in A.
  specialize (A (Z.to_nat r1) ltac:(apply in_seq; lia)). rewrite Z2Nat.id in A by lia.
  assert (ord2ymd_month_check r1 ly = true) as C by (destruct ly; apply andb_true_iff in A; tauto).
  unfold ord2ymd_month_check in C. rewrite HE in C.
  rewrite !andb_true_iff, !Z.leb_le, Z.eqb_eq in C. lia.
Qed.

Lemma days_before_year_decomp a b c d :
  0 <= b <= 3 -> 0 <= c <= 24 -> 0 <= d <= 3 ->
  _days_before_year (400 * a + 100 * b + 4 * c + d + 1) = 146097 * a + 36524 * b + 1461 * c + 365 * d.
Proof.
  intros. unfold _days_before_year. replace (400 * a + 100 * b + 4 * c + d + 1 - 1)
    with (400 * a + 100 * b + 4 * c + d) by lia.
  Z.div_mod_to_equations. lia.
Qed.

Lemma is_leap_decomp a b c d :
  0 <= b <= 3 -> 0 <= c <= 24 -> 0 <= d <= 3 ->
  _is_leap (400 * a + 100 * b + 4 * c + d + 1) = (d =? 3) && (negb (c =? 24) || (b =? 3)).
Proof.
  intros. unfold _is_leap. set (y := 400 * a + 100 * b + 4 * c + d + 1).
  destruct (Z.eqb_spec (y mod 4) 0), (Z.eqb_spec (y mod 100) 0), (Z.eqb_spec (y mod 400) 0),
    (Z.eqb_spec d 3), (Z.eqb_spec c 24), (Z.eqb_spec b 3); cbn; try reflexivity;
    unfold y in *; Z.div_mod_to_equations; lia.
Qed.

Lemma ord2ymd_roundtrip n :
  1 <= n <= MAXORDINAL ->
  valid_ymd (_ord2ymd n) = true /\ toordinal (_ord2ymd n) = n.
Proof.
  intros Hn. unfold MAXORDINAL in Hn. unfold _ord2ymd. cbv zeta.
  remember (n - 1) as n0 eqn:Hn0.
  remember (n0 / 146097) as a eqn:Ha. remember (n0 mod 146097) as r400 eqn:Hr400.
  assert (n0 = 146097 * a + r400 /\ 0 <= r400 < 146097) as [E1 B1]
    by (subst; split; [apply Z.div_mod; lia | apply Z.mod_pos_bound; lia]).
  clear Ha Hr400.
  remember (r400 / 36524) as b eqn:Hb. remember (r400 mod 36524) as r100 eqn:Hr100.
  assert (r400 = 36524 * b + r100 /\ 0 <= r100 < 36524) as [E2 B2]
    by (subst; split; [apply Z.div_mod; lia | apply Z.mod_pos_bound; lia]).
  clear Hb Hr100.
  remember (r100 / 1461) as c eqn:Hc. remember (r100 mod 1461) as r4 eqn:Hr4.
  assert (r100 = 1461 * c + r4 /\ 0 <= r4 < 1461) as [E3 B3]
    by (subst; split; [apply Z.div_mod; lia | apply Z.mod_pos_bound; lia]).
  clear Hc Hr4.
  remember (r4 / 365) as d eqn:Hd. remember (r4 mod 365) as r1 eqn:Hr1.
  assert (r4 = 365 * d + r1 /\ 0 <= r1 < 365) as [E4 B4]
    by (subst; split; [apply Z.div_mod; lia | apply Z.mod_pos_bound; lia]).
  clear Hd Hr1.
  assert (0 <= a <= 24) by lia.
  assert (0 <= b <= 4) by lia. assert (0 <= c <= 24) by lia. assert (0 <= d <= 4) by lia.
  destruct ((d =? 4) || (b =? 4)) eqn:Sp.
  - (* the last day of a 4- or 400-year cycle *)
    assert (_days_before_year (a * 400 + 1 + b * 100 + c * 4 + d) = n) as Dy.
    { apply orb_true_iff in Sp as [Sp | Sp]; apply Z.eqb_eq in Sp.
      - subst d. assert (b <= 3) by lia. assert (c <= 23) by lia.
        replace (a * 400 + 1 + b * 100 + c * 4 + 4) with (400 * a + 100 * b + 4 * (c + 1) + 0 + 1) by lia.
        rewrite days_before_year_decomp by lia. lia.
      - subst b. assert (c = 0) by lia. assert (r4 = 0) by lia. assert (d = 0) by lia. subst c d.
        replace (a * 400 + 1 + 4 * 100 + 0 * 4 + 0) with (400 * (a + 1) + 100 * 0 + 4 * 0 + 0 + 1) by lia.
        rewrite days_before_year_decomp by lia. lia. }
    set (y := a * 400 + 1 + b * 100 + c * 4 + d) in *.
    assert (1 <= y - 1 <= 9999).
    { split.
      - destruct (Z.le_gt_cases 2 y); [lia|].
        unfold _days_before_year in Dy. Z.div_mod_to_equations. lia.
      - apply orb_true_iff in Sp as [Sp | Sp]; apply Z.eqb_eq in Sp; unfold y; lia. }
    pose proof (days_before_year_succ (y - 1)) as Sy. replace (y - 1 + 1) with y in Sy by lia.
    unfold valid_ymd, toordinal, _ymd2ord, _days_before_month, _days_in_month; cbn [year month day].
    cbn -[_is_leap _days_before_year Z.sub Z.add].
    split.
    + rewrite !andb_true_iff, !Z.leb_le. lia.
    + destruct (_is_leap (y - 1)); lia.
  - apply orb_false_iff in Sp as [Sd Sb]. apply Z.eqb_neq in Sd, Sb.
    assert (b <= 3) by lia. assert (d <= 3) by lia.
    set (ly := (d =? 3) && (negb (c =? 24) || (b =? 3))).
    replace (a * 400 + 1 + b * 100 + c * 4 + d) with (400 * a + 100 * b + 4 * c + d + 1) by lia.
    assert (_is_leap (400 * a + 100 * b + 4 * c + d + 1) = ly) as Ly by (apply is_leap_decomp; lia).
    pose proof (days_before_year_decomp a b c d ltac:(lia) ltac:(lia) ltac:(lia)) as Dy.
    set (y := 400 * a + 100 * b + 4 * c + d + 1) in *.
    match goal with |- context [match ?E with pair _ _ => _ end] => destruct E as [m p] eqn:HE end.
    destruct (ord2ymd_month_ok r1 ly m p ltac:(lia) HE) as (Hm & Hp & Hday).
    assert (y <= 9999) by (unfold y; lia).
    unfold valid_ymd, toordinal, _ymd2ord, _days_before_month, _days_in_month; cbn [year month day].
    rewrite Ly. split.
    + rewrite !andb_true_iff, !Z.leb_le. unfold y at 1 2. lia.
    + rewrite Dy, <- Hp. lia.
Qed.

Lemma strptime_valid s d : strptime_ymd s = Ok d -> valid_ymd d = true.
Proof.
  unfold strptime_ymd. intros H.
  repeat match type of H with
  | context [match ?x with _ => _ end] => destruct x; try discriminate
  | context [if ?b then _ else _] => destruct b eqn:?; try discriminate
  end.
  unfold mk_datetime in H. destruct (valid_ymd _) eqn:V; inversion H; subst; assumption.
Qed.

(** Two valid dates get the same ISO year and week exactly when they have
    the same Monday. *)

Lemma isocalendar_same_week d1 d2 :
  valid_ymd d1 = true -> valid_ymd d2 = true ->
  (let '(Y1, W1, _) := isocalendar d1 in let '(Y2, W2, _) := isocalendar d2 in
   Y1 = Y2 /\ W1 = W2) <-> monday_ord d1 = monday_ord d2.
Proof.
  intros V1 V2. pose proof (isocalendar_spec d1 V1) as S1. pose proof (isocalendar_spec d2 V2) as S2.
  unfold monday_ord, weekday.
  destruct (isocalendar d1) as [[Y1 W1] D1], (isocalendar d2) as [[Y2 W2] D2].
  destruct S1 as (B1 & HW1 & _), S2 as (B2 & HW2 & _).
  set (t1 := toordinal d1) in *. set (t2 := toordinal d2) in *.
  pose proof (isoweek1monday_facts Y1) as [M1 _]. pose proof (isoweek1monday_facts Y2) as [M2 _].
  pose proof (isoweek1monday_facts (Y1 + 1)) as [M1' _]. pose proof (isoweek1monday_facts (Y2 + 1)) as [M2' _].
  split.
  - intros [<- <-]. subst W1. Z.div_mod_to_equations. lia.
  - intros Hm.
    assert (Y1 = Y2) as <-.
    { destruct (Z.lt_total Y1 Y2) as [L | [E | L]]; auto.
      - pose proof (isoweek1monday_mono Y1 Y2 L). exfalso. Z.div_mod_to_equations. lia.
      - pose proof (isoweek1monday_mono Y2 Y1 L). exfalso. Z.div_mod_to_equations. lia. }
    split; [reflexivity|]. subst W1 W2. Z.div_mod_to_equations. lia.
Qed.

Lemma isocalendar_bounds dt : valid_ymd dt = true ->
  let '(Y, W, D) := isocalendar dt in
  year dt - 1 <= Y <= year dt + 1 /\ 1 <= W <= 53 /\ 1 <= D <= 7.
Proof.
  intros V. pose proof (isocalendar_spec dt V) as S.
  assert (let '(Y, _, _) := isocalendar dt in year dt - 1 <= Y <= year dt + 1) as HY.
  { unfold isocalendar.
    destruct (_ <? 0); [lia|]. destruct (52 <=? _); [destruct (_ <=? _)|]; lia. }
  destruct (isocalendar dt) as [[Y W] D]. destruct S as (B & HW & HD).
  pose proof (isoweek1monday_succ Y).
  refine (conj HY (conj _ _)); [subst W | subst D]; Z.div_mod_to_equations; lia.
Qed.

Lemma digits_prefix_unique p1 p2 r1 r2 :
  all_digits p1 = true -> all_digits p2 = true ->
  (p1 ++ String "-" r1)%string = (p2 ++ String "-" r2)%string -> p1 = p2 /\ r1 = r2.
Proof.
  revert p2. induction p1 as [|c1 p1 IH]; intros [|c2 p2] A1 A2 E; cbn in *.
  - inversion E; auto.
  - inversion E; subst. exfalso. apply andb_true_iff in A2 as [A2 _]. discriminate.
  - inversion E; subst. exfalso. apply andb_true_iff in A1 as [A1 _]. discriminate.
  - inversion E; subst. apply andb_true_iff in A1 as [_ A1]. apply andb_true_iff in A2 as [_ A2].
    destruct (IH p2 A1 A2 H1) as [-> ->]. auto.
Qed.

Lemma z_str02_nonneg n : 0 <= n ->
  all_digits (z_str02 n) = true /\ digits_value (z_str02 n) = n.
Proof.
  intros H. destruct (z_str_nonneg n H) as (_ & A & V). unfold z_str02.
  destruct (_ <? _)%nat; auto.
Qed.

Lemma week_key_of_inj d1 d2 : valid_ymd d1 = true -> valid_ymd d2 = true ->
  week_key_of d1 = week_key_of d2 <-> monday_ord d1 = monday_ord d2.
Proof.
  intros V1 V2. rewrite <- isocalendar_same_week by assumption.
  pose proof (isocalendar_bounds d1 V1) as B1. pose proof (isocalendar_bounds d2 V2) as B2.
  apply valid_ymd_spec in V1 as [Hy1 _]. apply valid_ymd_spec in V2 as [Hy2 _].
  unfold week_key_of.
  destruct (isocalendar d1) as [[Y1 W1] D1], (isocalendar d2) as [[Y2 W2] D2].
  split.
  - intros E. destruct (z_str_nonneg Y1 ltac:(lia)) as (_ & A1 & V1).
    destruct (z_str_nonneg Y2 ltac:(lia)) as (_ & A2 & V2).
    destruct (digits_prefix_unique _ _ _ _ A1 A2 E) as [EY EW]. inversion EW as [EW'].
    destruct (z_str02_nonneg W1 ltac:(lia)) as [_ U1]. destruct (z_str02_nonneg W2 ltac:(lia)) as [_ U2].
    split; congruence.
  - intros [-> ->]. reflexivity.
Qed.

Lemma workout_date_valid s d : _workout_date s = Ok d -> valid_ymd d = true.
Proof. apply strptime_valid. Qed.

(** Two workout days that [_workout_date] accepts get the same
    [get_week_key] exactly when their dates have the same Monday. *)
Theorem get_week_key_same_monday s1 s2 d1 d2 :
  _workout_date s1 = Ok d1 -> _workout_date s2 = Ok d2 ->
  (get_week_key s1 = get_week_key s2 <->
   toordinal d1 - weekday d1 = toordinal d2 - weekday d2).
Proof.
  intros H1 H2. unfold get_week_key. rewrite H1, H2. cbn.
  rewrite <- (week_key_of_inj d1 d2) by (eapply workout_date_valid; eauto).
  split; [intros E; inversion E|intros ->]; auto.
Qed.

Lemma days_before_year_mono a b : a <= b -> _days_before_year a <= _days_before_year b.
Proof.
  intros H.
  assert (forall k : nat, _days_before_year a <= _days_before_year (a + Z.of_nat k)) as G.
  { induction k as [|k IH].
    - rewrite Z.add_0_r. lia.
    - rewrite Nat2Z.inj_succ. pose proof (days_before_year_succ (a + Z.of_nat k)).
      replace (a + Z.succ (Z.of_nat k)) with (a + Z.of_nat k + 1) by lia.
      destruct (_is_leap (a + Z.of_nat k)); lia. }
  specialize (G (Z.to_nat (b - a))). rewrite Z2Nat.id in G by lia.
  replace (a + (b - a)) with b in G by lia. exact G.
Qed.

Lemma toordinal_bounds dt : valid_ymd dt = true -> 1 <= toordinal dt <= MAXORDINAL.
Proof.
  intros V. pose proof V as V'. apply valid_ymd_spec in V as (Hy & Hm & Hd).
  pose proof (ymd2ord_year_bounds _ _ _ Hm Hd) as B. unfold toordinal, MAXORDINAL.
  pose proof (days_before_year_mono 1 (year dt) ltac:(lia)).
  pose proof (days_before_year_mono (year dt + 1) 10000 ltac:(lia)).
  assert (_days_before_year 1 = 0) as E1 by reflexivity.
  assert (_days_before_year 10000 = 3652059) as E2 by reflexivity.
  assert (forall y, _days_before_month y 1 = 0) as E3 by reflexivity.
  unfold _ymd2ord in *. rewrite !E3 in B. lia.
Qed.

Lemma week_start_spec s d :
  _workout_date s = Ok d ->
  exists ws, get_week_start s = Ok ws /\ valid_ymd ws = true /\ weekday ws = 0 /\
             toordinal ws <= toordinal d <= toordinal ws + 6 /\
             get_week_key s = Ok (week_key_of ws).
Proof.
  intros H. pose proof (workout_date_valid _ _ H) as V. pose proof (toordinal_bounds d V) as B.
  unfold get_week_start, get_week_key. rewrite H. cbn. unfold add_days, weekday.
  set (o := toordinal d + - ((toordinal d + 6) mod 7)).
  assert (1 <= o <= MAXORDINAL) as Bo by (unfold o, MAXORDINAL in *; Z.div_mod_to_equations; lia).
  destruct (ord2ymd_roundtrip o Bo) as [Vw Tw].
  replace ((0 <? o) && (o <=? MAXORDINAL)) with true
    by (symmetry; apply andb_true_iff; split; [apply Z.ltb_lt | apply Z.leb_le]; lia).
  exists (_ord2ymd o). refine (conj eq_refl (conj Vw (conj _ (conj _ _)))).
  - rewrite Tw. unfold o. Z.div_mod_to_equations. lia.
  - rewrite Tw. unfold o. Z.div_mod_to_equations. lia.
  - f_equal. apply week_key_of_inj; auto. unfold monday_ord, weekday. rewrite Tw. unfold o.
    Z.div_mod_to_equations. lia.
Qed.

Lemma last_week_9999 dt : valid_ymd dt = true ->
  (3652055 <= toordinal dt <-> year dt = 9999 /\ month dt = 12 /\ 27 <= day dt).
Proof.
  intros V. pose proof V as V'. apply valid_ymd_spec in V as (Hy & Hm & Hd).
  pose proof (ymd2ord_year_bounds _ _ _ Hm Hd) as B.
  destruct (Z.eq_dec (year dt) 9999) as [E|E].
  - clear B V'. unfold toordinal. destruct dt as [y m dd]; cbn [year month day] in *. subst y.
    unfold _ymd2ord, _days_before_month. unfold _days_in_month in Hd.
    replace (_days_before_year 9999) with 3651694 by reflexivity.
    replace (_is_leap 9999) with false in * by reflexivity. rewrite !andb_false_r in *.
    assert (m = 1 \/ m = 2 \/ m = 3 \/ m = 4 \/ m = 5 \/ m = 6 \/ m = 7 \/ m = 8 \/
            m = 9 \/ m = 10 \/ m = 11 \/ m = 12) as Hc by lia.
    repeat destruct Hc as [Hc | Hc]; subst m; cbn [_DAYS_BEFORE_MONTH _DAYS_IN_MONTH] in *; lia.
  - pose proof (days_before_year_mono (year dt + 1) 9999 ltac:(lia)).
    replace (_days_before_year 9999) with 3651694 in H by reflexivity.
    unfold toordinal. unfold _ymd2ord in *.
    assert (forall y, _days_before_month y 1 = 0) as E3 by reflexivity. rewrite !E3 in B. lia.
Qed.

(** The week fields of a workout in [build_weekly_analysis]: the week
    start is a Monday and the week end the Sunday six days later, both
    around the workout's date; [week_start + timedelta(days=6)] raises
    [OverflowError] exactly for the days 9999-12-27 to 9999-12-31. *)
Theorem week_bucket_dates_spec year_below_1000 daystr d :
  _workout_date daystr = Ok d ->
  match week_bucket_dates year_below_1000 daystr with
  | Ok (k, s, e) =>
      ~ (year d = 9999 /\ month d = 12 /\ 27 <= day d) /\
      exists ws we, k = week_key_of ws /\ s = strftime_ymd year_below_1000 ws /\
        e = strftime_ymd year_below_1000 we /\
        k = week_key_of d /\ weekday ws = 0 /\ weekday we = 6 /\
        toordinal ws <= toordinal d <= toordinal we /\ toordinal we = toordinal ws + 6
  | Err x => x = OverflowError /\ year d = 9999 /\ month d = 12 /\ 27 <= day d
  end.
Proof.
  intros H. destruct (week_start_spec daystr d H) as (ws & Hs & Vw & Ww & Bw & Kw).
  pose proof (workout_date_valid _ _ H) as V.
  pose proof (toordinal_bounds d V) as Bd. pose proof (toordinal_bounds ws Vw) as Bws.
  pose proof (last_week_9999 d V) as L.
  assert (get_week_key daystr = Ok (week_key_of d)) as Kd by (unfold get_week_key; rewrite H; reflexivity).
  unfold week_bucket_dates. rewrite Kd, Hs. cbn [bind]. unfold add_days.
  unfold weekday in Ww. unfold MAXORDINAL in *.
  destruct ((0 <? toordinal ws + 6) && (toordinal ws + 6 <=? 3652059)) eqn:C.
  - apply andb_true_iff in C as [C1 C2]. apply Z.leb_le in C2.
    destruct (ord2ymd_roundtrip (toordinal ws + 6) ltac:(unfold MAXORDINAL; lia)) as [Ve Te].
    cbn [bind]. split.
    + rewrite <- L. Z.div_mod_to_equations. lia.
    + exists ws, (_ord2ymd (toordinal ws + 6)).
      assert (week_key_of ws = week_key_of d) as Kwd by congruence.
      repeat split; auto; unfold weekday; rewrite ?Te; Z.div_mod_to_equations; lia.
  - split; [reflexivity|]. apply L. apply andb_false_iff in C as [C | C];
      [apply Z.ltb_ge in C | apply Z.leb_gt in C]; Z.div_mod_to_equations; lia.
Qed.

Lemma year4_check_all : forallb (fun k => year4_check (1000 + Z.of_nat k)) (seq 0 (9 * 1000)) = true.
Proof. vm_compute. reflexivity. Qed.

Lemma month_day_check_all :
  forallb (fun m => forallb (fun d => month_day_check (1 + Z.of_nat m) (1 + Z.of_nat d)) (seq 0 31))
          (seq 0 12) = true.
Proof. vm_compute. reflexivity. Qed.

Lemma year4 y : 1000 <= y <= 9999 ->
  exists c1 c2 c3 c4, z_str y = String c1 (String c2 (String c3 (String c4 ""))) /\
    is_digit c1 && is_digit c2 && is_digit c3 && is_digit c4 = true /\
    digit_val c1 * 1000 + digit_val c2 * 100 + digit_val c3 * 10 + digit_val c4 = y.
Proof.
  intros H. pose proof year4_check_all as A. rewrite forallb_forall in A.
  specialize (A (Z.to_nat (y - 1000)) ltac:(apply in_seq; lia)).
  rewrite Z2Nat.id in A by lia. replace (1000 + (y - 1000)) with y in A by lia.
  unfold year4_check in A.
  destruct (z_str y) as [|c1 [|c2 [|c3 [|c4 [|c5 r]]]]]; try discriminate.
  apply andb_true_iff in A as [A1 A2]. apply Z.eqb_eq in A2. eauto 8.
Qed.

Lemma month_day2 m d : 1 <= m <= 12 -> 1 <= d <= 31 ->
  exists a b c e, z_str02 m = String a (String b "") /\ z_str02 d = String c (String e "") /\
    first_month_day (month_alts (String a (String b (String "-" (String c (String e "")))))) =
      Some (m, d, ""%string).
Proof.
  intros Hm Hd. pose proof month_day_check_all as A. rewrite forallb_forall in A.
  specialize (A (Z.to_nat (m - 1)) ltac:(apply in_seq; lia)). rewrite forallb_forall in A.
  specialize (A (Z.to_nat (d - 1)) ltac:(apply in_seq; lia)).
  rewrite !Z2Nat.id in A by lia. replace (1 + (m - 1)) with m in A by lia.
  replace (1 + (d - 1)) with d in A by lia. unfold month_day_check in A.
  destruct (z_str02 m) as [|a [|b [|x r]]]; try discriminate.
  destruct (z_str02 d) as [|c [|e [|x r]]]; try discriminate.
  destruct (first_month_day _) as [[[m' d'] [|x r]]|] eqn:F; try discriminate.
  apply andb_true_iff in A as [A1 A2]. apply Z.eqb_eq in A1, A2. subst. eauto 8.
Qed.

(** [_workout_date] reads back what [strftime("%Y-%m-%d")] writes for
    a valid date of a year from 1000 on (where [%Y] is four digits whatever
    the platform's padding of smaller years). *)
Theorem workout_date_strftime_roundtrip year_below_1000 d :
  valid_ymd d = true -> 1000 <= year d ->
  _workout_date (strftime_ymd year_below_1000 d) = Ok d.
Proof.
  intros V Y0.
  pose proof V as V'. apply valid_ymd_spec in V' as (Hy & Hm & Hd).
  assert (day d <= 31) by (unfold _days_in_month in Hd;
    destruct (_ && _); [lia|]; assert (month d = 1 \/ month d = 2 \/ month d = 3 \/ month d = 4 \/
      month d = 5 \/ month d = 6 \/ month d = 7 \/ month d = 8 \/ month d = 9 \/ month d = 10 \/
      month d = 11 \/ month d = 12) as Hc by lia;
    repeat destruct Hc as [Hc | Hc]; rewrite Hc in Hd; cbn in Hd; lia).
  unfold _workout_date, strftime_ymd, strftime_Y.
  replace (1000 <=? year d) with true by (symmetry; apply Z.leb_le; lia).
  destruct (year4 (year d) ltac:(lia)) as (c1 & c2 & c3 & c4 & Ey & Dg & Vy).
  destruct (month_day2 (month d) (day d) ltac:(lia) ltac:(lia)) as (a & b & c & e & Em & Ed & Md).
  rewrite Ey, Em, Ed. cbn [String.append substring]. unfold strptime_ymd. rewrite Dg, Md, Vy.
  unfold mk_datetime. destruct d as [yy mm dd]. cbn [year month day] in *. rewrite V. reflexivity.
Qed.

(** A workout day that [_workout_date] accepts has a week start:
    [get_week_start] returns a valid date that is a Monday, on or at most six
    days before the workout's date, and in the same ISO week. *)
Theorem get_week_start_monday s d :
  _workout_date s = Ok d ->
  exists ws, get_week_start s = Ok ws /\ valid_ymd ws = true /\ weekday ws = 0 /\
             toordinal ws <= toordinal d <= toordinal ws + 6 /\
             get_week_key s = Ok (week_key_of ws).
Proof. apply week_start_spec. Qed.

Lemma get_week_key_same_monday_witness :
  _workout_date "2026-02-14T00:00:00" = Ok (mkYmd 2026 2 14) /\
  _workout_date "2026-02-09" = Ok (mkYmd 2026 2 9) /\
  (get_week_key "2026-02-14T00:00:00" = get_week_key "2026-02-09" <->
   toordinal (mkYmd 2026 2 14) - weekday (mkYmd 2026 2 14) =
   toordinal (mkYmd 2026 2 9) - weekday (mkYmd 2026 2 9)).
Proof.
  assert (H1 : _workout_date "2026-02-14T00:00:00" = Ok (mkYmd 2026 2 14)) by (vm_compute; reflexivity).
  assert (H2 : _workout_date "2026-02-09" = Ok (mkYmd 2026 2 9)) by (vm_compute; reflexivity).
  exact (conj H1 (conj H2 (get_week_key_same_monday _ _ _ _ H1 H2))).
Defined.

Lemma get_week_start_monday_witness :
  _workout_date "2026-02-14T00:00:00" = Ok (mkYmd 2026 2 14) /\
  exists ws, get_week_start "2026-02-14T00:00:00" = Ok ws /\ valid_ymd ws = true /\
             weekday ws = 0 /\
             toordinal ws <= toordinal (mkYmd 2026 2 14) <= toordinal ws + 6 /\
             get_week_key "2026-02-14T00:00:00" = Ok (week_key_of ws).
Proof.
  assert (H : _workout_date "2026-02-14T00:00:00" = Ok (mkYmd 2026 2 14)) by (vm_compute; reflexivity).
  exact (conj H (get_week_start_monday _ _ H)).
Defined.

Lemma week_bucket_dates_spec_witness :
  _workout_date "9999-12-28" = Ok (mkYmd 9999 12 28) /\
  match week_bucket_dates z_str "9999-12-28" with
  | Ok (k, s, e) =>
      ~ (year (mkYmd 9999 12 28) = 9999 /\ month (mkYmd 9999 12 28) = 12 /\
         27 <= day (mkYmd 9999 12 28)) /\
      exists ws we, k = week_key_of ws /\ s = strftime_ymd z_str ws /\
        e = strftime_ymd z_str we /\
        k = week_key_of (mkYmd 9999 12 28) /\ weekday ws = 0 /\ weekday we = 6 /\
        toordinal ws <= toordinal (mkYmd 9999 12 28) <= toordinal we /\
        toordinal we = toordinal ws + 6
  | Err x => x = OverflowError /\ year (mkYmd 9999 12 28) = 9999 /\
             month (mkYmd 9999 12 28) = 12 /\ 27 <= day (mkYmd 9999 12 28)
  end.
Proof.
  assert (H : _workout_date "9999-12-28" = Ok (mkYmd 9999 12 28)) by (vm_compute; reflexivity).
  exact (conj H (week_bucket_dates_spec z_str _ _ H)).
Defined.

Lemma workout_date_strftime_roundtrip_witness :
  valid_ymd (mkYmd 2026 2 9) = true /\ 1000 <= year (mkYmd 2026 2 9) /\
  _workout_date (strftime_ymd z_str (mkYmd 2026 2 9)) = Ok (mkYmd 2026 2 9).
Proof.
  assert (H : valid_ymd (mkYmd 2026 2 9) = true) by reflexivity.
  assert (H2 : 1000 <= year (mkYmd 2026 2 9)) by (cbn; lia).
  exact (conj H (conj H2 (workout_date_strftime_roundtrip z_str _ H H2))).
Defined.

End DateProperties.

(** ** Chunked date ranges of [chunk_date_range] *)

Section DateChunks.
Local Open Scope Z_scope.

Lemma days_before_month_step y m1 m2 :
  1 <= m1 < m2 -> m2 <= 12 ->
  _days_before_month y m1 + _days_in_month y m1 <= _days_before_month y m2.
Proof.
  intros H1 H2. unfold _days_before_month, _days_in_month.
  assert (m1 = 1 \/ m1 = 2 \/ m1 = 3 \/ m1 = 4 \/ m1 = 5 \/ m1 = 6 \/ m1 = 7 \/ m1 = 8 \/
          m1 = 9 \/ m1 = 10 \/ m1 = 11) as C1 by lia.
  assert (m2 = 2 \/ m2 = 3 \/ m2 = 4 \/ m2 = 5 \/ m2 = 6 \/ m2 = 7 \/ m2 = 8 \/
          m2 = 9 \/ m2 = 10 \/ m2 = 11 \/ m2 = 12) as C2 by lia.
  destruct (_is_leap y);
  repeat destruct C1 as [C1 | C1]; subst m1; repeat destruct C2 as [C2 | C2]; subst m2;
    cbn; lia.
Qed.

Lemma date_cmp_toordinal a b : valid_ymd a = true -> valid_ymd b = true ->
  date_cmp a b = Z.compare (toordinal a) (toordinal b).
Proof.
  intros Va Vb. apply valid_ymd_spec in Va as (Ya & Ma & Da). apply valid_ymd_spec in Vb as (Yb & Mb & Db).
  pose proof (ymd2ord_year_bounds _ _ _ Ma Da) as Ba. pose proof (ymd2ord_year_bounds _ _ _ Mb Db) as Bb.
  assert (forall y, _ymd2ord y 1 1 = _days_before_year y + 1) as J
    by (intros y; unfold _ymd2ord; change (_days_before_month y 1) with 0; lia).
  rewrite !J in Ba, Bb.
  unfold date_cmp, toordinal in *. destruct a as [ya ma da], b as [yb mb db]; cbn [year month day] in *.
  unfold _ymd2ord in *.
  destruct (Z.compare_spec ya yb) as [<-|L|L].
  - destruct (Z.compare_spec ma mb) as [<-|L|L].
    + destruct (Z.compare_spec da db); symmetry;
        [apply Z.compare_eq_iff | apply Z.compare_lt_iff | apply Z.compare_gt_iff]; lia.
    + pose proof (days_before_month_step ya ma mb ltac:(lia) ltac:(lia)).
      symmetry; apply Z.compare_lt_iff; lia.
    + pose proof (days_before_month_step ya mb ma ltac:(lia) ltac:(lia)).
      symmetry; apply Z.compare_gt_iff; lia.
  - pose proof (days_before_year_mono (ya + 1) yb ltac:(lia)).
    symmetry; apply Z.compare_lt_iff; lia.
  - pose proof (days_before_year_mono (yb + 1) ya ltac:(lia)).
    symmetry; apply Z.compare_gt_iff; lia.
Qed.

Lemma date_le_toordinal a b : valid_ymd a = true -> valid_ymd b = true ->
  date_le a b = (toordinal a <=? toordinal b).
Proof.
  intros Va Vb. unfold date_le. rewrite (date_cmp_toordinal a b Va Vb).
  unfold Z.leb. destruct (toordinal a ?= toordinal b); reflexivity.
Qed.

Lemma date_lt_toordinal a b : valid_ymd a = true -> valid_ymd b = true ->
  date_lt a b = (toordinal a <? toordinal b).
Proof.
  intros Va Vb. unfold date_lt. rewrite (date_cmp_toordinal a b Va Vb).
  unfold Z.ltb. destruct (toordinal a ?= toordinal b); reflexivity.
Qed.

Lemma add_days_ok dt k : valid_ymd dt = true -> 1 <= toordinal dt + k <= MAXORDINAL ->
  add_days dt k = Ok (_ord2ymd (toordinal dt + k)).
Proof.
  intros V B. unfold add_days.
  replace ((0 <? toordinal dt + k) && (toordinal dt + k <=? MAXORDINAL)) with true; [reflexivity|].
  symmetry. apply andb_true_iff. split; [apply Z.ltb_lt | apply Z.leb_le]; lia.
Qed.

Lemma chunk_date_range_go_char (chunk_days : Z) (end_ : ymd) (fuel : nat) : forall cursor : ymd,
  1 <= chunk_days -> valid_ymd cursor = true -> valid_ymd end_ = true ->
  toordinal cursor <= toordinal end_ ->
  (S (Z.to_nat (toordinal end_ - toordinal cursor + 1)) <= fuel)%nat ->
  let fits := toordinal end_ < MAXORDINAL /\
    toordinal cursor + (toordinal end_ - toordinal cursor) / chunk_days * chunk_days
      + chunk_days - 1 <= MAXORDINAL in
  match chunk_date_range fuel cursor end_ chunk_days with
  | GDone chunks => fits /\ tiles chunk_days (toordinal cursor) (toordinal end_) chunks
  | GRaise _ e => e = OverflowError /\ ~ fits
  | GFuel _ => False
  end.
Proof.
  induction fuel as [|f IH]; intros c Hcd Vc Ve Cle Hf; cbv zeta; [lia|].
  pose proof (toordinal_bounds c Vc) as Bc. pose proof (toordinal_bounds end_ Ve) as Be.
  assert (0 <= (toordinal end_ - toordinal c) / chunk_days) as Q0 by (apply Z.div_pos; lia).
  cbn [chunk_date_range]. rewrite (date_le_toordinal c end_ Vc Ve).
  replace (toordinal c <=? toordinal end_) with true by (symmetry; apply Z.leb_le; lia).
  set (o := toordinal c + (chunk_days - 1)).
  destruct (Z.le_gt_cases o MAXORDINAL) as [Lo | Lo].
  2: { unfold add_days. replace ((0 <? _) && (_ <=? MAXORDINAL)) with false.
       - split; [reflexivity|]. intros [_ F]. nia.
       - symmetry. apply andb_false_iff. right. apply Z.leb_gt. unfold o in Lo. lia. }
  rewrite (add_days_ok c (chunk_days - 1) Vc ltac:(unfold o in Lo; lia)).
  change (toordinal c + (chunk_days - 1)) with o.
  destruct (ord2ymd_roundtrip o ltac:(unfold o in *; lia)) as [Vo To].
  rewrite (date_lt_toordinal end_ (_ord2ymd o) Ve Vo), To.
  set (ce := if toordinal end_ <? o then end_ else _ord2ymd o).
  assert (valid_ymd ce = true /\ toordinal ce = Z.min o (toordinal end_)) as [Vce Tce].
  { unfold ce. destruct (toordinal end_ <? o) eqn:L;
      [apply Z.ltb_lt in L | apply Z.ltb_ge in L]; split; auto; lia. }
  destruct (Z.le_gt_cases (toordinal ce + 1) MAXORDINAL) as [Ln | Ln].
  2: { unfold add_days. replace ((0 <? _) && (_ <=? MAXORDINAL)) with false.
       - cbn [gen_cons]. split; [reflexivity|]. intros [F _]. unfold MAXORDINAL in *. lia.
       - symmetry. apply andb_false_iff. right. apply Z.leb_gt. lia. }
  rewrite (add_days_ok ce 1 Vce ltac:(lia)).
  destruct (ord2ymd_roundtrip (toordinal ce + 1) ltac:(lia)) as [Vn Tn].
  destruct (Z.le_gt_cases (toordinal end_) o) as [Last | More].
  - (* the last chunk ends on [end_] *)
    assert (toordinal ce = toordinal end_) as Ece by lia.
    destruct f as [|f']; [lia|]. cbn [chunk_date_range].
    rewrite (date_le_toordinal _ end_ Vn Ve), Tn.
    replace (toordinal ce + 1 <=? toordinal end_) with false by (symmetry; apply Z.leb_gt; lia).
    cbn [gen_cons]. assert ((toordinal end_ - toordinal c) / chunk_days = 0) as Z0
      by (apply Z.div_small; unfold o in Last; lia).
    rewrite Z0. split; [split; unfold o in *; lia|].
    cbn [tiles]. rewrite Ece.
    refine (conj eq_refl (conj _ (conj _ (conj _ (conj Vc (conj Vce _)))))); unfold o in *; lia.
  - assert (toordinal ce = o) as Ece by lia.
    assert (toordinal c <= toordinal ce + 1 <= toordinal end_) as Bn by lia.
    pose proof (IH (_ord2ymd (toordinal ce + 1)) Hcd Vn Ve ltac:(lia) ltac:(rewrite Tn; lia)) as R.
    cbv zeta in R. rewrite Tn in R.
    assert ((toordinal end_ - toordinal c) / chunk_days =
            (toordinal end_ - (toordinal ce + 1)) / chunk_days + 1) as Dq.
    { replace (toordinal end_ - toordinal c) with
        ((toordinal end_ - (toordinal ce + 1)) + 1 * chunk_days) by (unfold o in Ece; lia).
      rewrite Z.div_add by lia. reflexivity. }
    assert (toordinal c + (toordinal end_ - toordinal c) / chunk_days * chunk_days =
            toordinal ce + 1 + (toordinal end_ - (toordinal ce + 1)) / chunk_days * chunk_days) as Dx
      by (rewrite Dq; unfold o in Ece; lia).
    rewrite Dx.
    destruct (chunk_date_range f _ end_ chunk_days) as [l|l e|l]; cbn [gen_cons]; [|exact R|exact R].
    destruct R as [Fi T]. split; [exact Fi|]. cbn [tiles].
    refine (conj eq_refl (conj _ (conj _ (conj _ (conj Vc (conj Vce T)))))); unfold o in *; lia.
Qed.

Lemma toordinal_inj a b : valid_ymd a = true -> valid_ymd b = true ->
  toordinal a = toordinal b -> a = b.
Proof.
  intros Va Vb E. pose proof (date_cmp_toordinal a b Va Vb) as C.
  rewrite E, Z.compare_refl in C. unfold date_cmp in C.
  destruct a as [ya ma da], b as [yb mb db]; cbn [year month day] in C.
  destruct (Z.compare_spec ya yb); try discriminate.
  destruct (Z.compare_spec ma mb); try discriminate.
  apply Z.compare_eq in C. subst. reflexivity.
Qed.

(** Extra (chunk_date_range, chunk_days = 0): with [chunk_days = 0] the
    generator never ends: from a valid [start] not after a valid [end_]
    (and not on the first ordinal day), every step yields the same pair
    [(start, start - 1 day)], so any number of steps only repeats it. *)
Theorem chunk_date_range_zero_loops (fuel : nat) : forall start end_ : ymd,
  valid_ymd start = true -> valid_ymd end_ = true ->
  2 <= toordinal start <= toordinal end_ ->
  chunk_date_range fuel start end_ 0 =
    GFuel (repeat (start, _ord2ymd (toordinal start - 1)) fuel).
Proof.
  induction fuel as [|f IH]; intros s e Vs Ve B; [reflexivity|].
  pose proof (toordinal_bounds s Vs) as Bs. pose proof (toordinal_bounds e Ve) as Be.
  cbn [chunk_date_range]. rewrite (date_le_toordinal s e Vs Ve).
  replace (toordinal s <=? toordinal e) with true by (symmetry; apply Z.leb_le; lia).
  rewrite (add_days_ok s (0 - 1) Vs ltac:(lia)).
  replace (toordinal s + (0 - 1)) with (toordinal s - 1) by lia.
  destruct (ord2ymd_roundtrip (toordinal s - 1) ltac:(lia)) as [Vp Tp].
  rewrite (date_lt_toordinal e _ Ve Vp), Tp.
  replace (toordinal e <? toordinal s - 1) with false by (symmetry; apply Z.ltb_ge; lia).
  rewrite (add_days_ok _ 1 Vp ltac:(lia)), Tp.
  replace (toordinal s - 1 + 1) with (toordinal s) by lia.
  destruct (ord2ymd_roundtrip (toordinal s) ltac:(lia)) as [Vn Tn].
  rewrite (toordinal_inj _ s Vn Vs Tn).
  rewrite (IH s e Vs Ve B). reflexivity.
Qed.

(** Extra (chunk_date_range): for [chunk_days >= 1] and valid dates
    [start <= end_], the generator either finishes, yielding chunks that tile
    the days [start..end_] in order (each chunk starts the day after the
    previous one ends, spans at most [chunk_days] days and has exactly
    [chunk_days] days unless it is the last, which ends on [end_]), or it raises
    OverflowError. It finishes exactly when [end_] is before 9999-12-31 and the
    last chunk's full [chunk_days] span still ends by 9999-12-31. *)
Theorem chunk_date_range_spec (start end_ : ymd) (chunk_days : Z) (fuel : nat) :
  1 <= chunk_days -> valid_ymd start = true -> valid_ymd end_ = true ->
  toordinal start <= toordinal end_ ->
  (S (Z.to_nat (toordinal end_ - toordinal start + 1)) <= fuel)%nat ->
  match chunk_date_range fuel start end_ chunk_days with
  | GDone chunks =>
      (toordinal end_ < MAXORDINAL /\
       toordinal start + (toordinal end_ - toordinal start) / chunk_days * chunk_days
         + chunk_days - 1 <= MAXORDINAL) /\
      tiles chunk_days (toordinal start) (toordinal end_) chunks
  | GRaise _ e =>
      e = OverflowError /\
      ~ (toordinal end_ < MAXORDINAL /\
         toordinal start + (toordinal end_ - toordinal start) / chunk_days * chunk_days
           + chunk_days - 1 <= MAXORDINAL)
  | GFuel _ => False
  end.
Proof.
  intros H1 H2 H3 H4 H5.
  exact (chunk_date_range_go_char chunk_days end_ fuel start H1 H2 H3 H4 H5).
Qed.

Lemma chunk_date_range_spec_witness :
  match chunk_date_range 400 (mkYmd 2026 1 1) (mkYmd 2026 12 31) 90 with
  | GDone chunks =>
      (toordinal (mkYmd 2026 12 31) < MAXORDINAL /\
       toordinal (mkYmd 2026 1 1) +
         (toordinal (mkYmd 2026 12 31) - toordinal (mkYmd 2026 1 1)) / 90 * 90
         + 90 - 1 <= MAXORDINAL) /\
      tiles 90 (toordinal (mkYmd 2026 1 1)) (toordinal (mkYmd 2026 12 31)) chunks
  | GRaise _ e =>
      e = OverflowError /\
      ~ (toordinal (mkYmd 2026 12 31) < MAXORDINAL /\
         toordinal (mkYmd 2026 1 1) +
           (toordinal (mkYmd 2026 12 31) - toordinal (mkYmd 2026 1 1)) / 90 * 90
           + 90 - 1 <= MAXORDINAL)
  | GFuel _ => False
  end.
Proof.
  apply chunk_date_range_spec.
  - lia.
  - reflexivity.
  - reflexivity.
  - vm_compute. discriminate.
  - apply Nat.leb_le. vm_compute. reflexivity.
Defined.

Lemma chunk_date_range_zero_loops_witness :
  chunk_date_range 3 (mkYmd 2026 3 1) (mkYmd 2026 3 31) 0 =
    GFuel (repeat (mkYmd 2026 3 1, _ord2ymd (toordinal (mkYmd 2026 3 1) - 1)) 3).
Proof.
  apply chunk_date_range_zero_loops.
  - reflexivity.
  - reflexivity.
  - vm_compute. split; discriminate.
Defined.





Lemma ord2ymd_toordinal d : valid_ymd d = true -> _ord2ymd (toordinal d) = d.
Proof.
  intros V. pose proof (toordinal_bounds d V) as B.
  destruct (ord2ymd_roundtrip (toordinal d) B) as [V' T].
  exact (toordinal_inj _ _ V' V T).
Qed.

Lemma days_before_month_succ y m : 1 <= m <= 11 ->
  _days_before_month y (m + 1) = _days_before_month y m + _days_in_month y m.
Proof.
  intros H. unfold _days_before_month, _days_in_month.
  assert (m = 1 \/ m = 2 \/ m = 3 \/ m = 4 \/ m = 5 \/ m = 6 \/ m = 7 \/ m = 8 \/
          m = 9 \/ m = 10 \/ m = 11) as C by lia.
  destruct (_is_leap y); repeat destruct C as [C | C]; subst m; cbn; lia.
Qed.

Lemma add_days_err dt k : ~ (1 <= toordinal dt + k <= MAXORDINAL) ->
  add_days dt k = Err OverflowError.
Proof.
  intros B. unfold add_days.
  replace ((0 <? toordinal dt + k) && (toordinal dt + k <=? MAXORDINAL)) with false; [reflexivity|].
  symmetry. apply andb_false_iff.
  destruct (Z.ltb_spec 0 (toordinal dt + k)); [right; apply Z.leb_gt; lia | left; reflexivity].
Qed.

(** Extra (resolve_date_range, this_week): without start/end texts or a
    nonzero last_days/weeks/months count, [this_week] gives the Monday and the
    Sunday of the week of [now], which contains [now]; when that Sunday is
    after 9999-12-31 it raises OverflowError. *)
Theorem resolve_this_week sd ed ld lw lm now :
  valid_ymd now = true ->
  truthy_str sd = false -> truthy_str ed = false ->
  truthy_int ld = false -> truthy_int lw = false -> truthy_int lm = false ->
  forall lwk tm ty at_,
  match resolve_date_range sd ed ld lw lm true lwk tm ty at_ now with
  | Ok (s, e) =>
      valid_ymd s = true /\ valid_ymd e = true /\ weekday s = 0 /\
      toordinal s <= toordinal now <= toordinal e /\ toordinal e = toordinal s + 6
  | Err x => x = OverflowError /\ MAXORDINAL < toordinal now - weekday now + 6
  end.
Proof.
  intros V Hs He Hd Hw Hm lwk tm ty at_. unfold resolve_date_range.
  rewrite Hs, He, Hd, Hw, Hm. cbn [andb negb].
  pose proof (toordinal_bounds now V) as B.
  assert (0 <= weekday now <= toordinal now - 1 /\ weekday now < 7) as W
    by (unfold weekday; Z.div_mod_to_equations; lia).
  rewrite (add_days_ok now (- weekday now) V ltac:(lia)).
  destruct (ord2ymd_roundtrip (toordinal now + - weekday now) ltac:(lia)) as [Vs Ts].
  cbn [bind].
  destruct (Z.le_gt_cases (toordinal now - weekday now + 6) MAXORDINAL) as [L|L].
  - rewrite (add_days_ok _ 6 Vs ltac:(rewrite Ts; lia)), Ts.
    destruct (ord2ymd_roundtrip (toordinal now + - weekday now + 6) ltac:(lia)) as [Ve Te].
    cbn [bind]. rewrite Te. refine (conj Vs (conj Ve (conj _ (conj _ _)))); [|rewrite ?Ts, ?Te; lia|rewrite ?Ts, ?Te; lia].
    unfold weekday at 1. rewrite Ts. unfold weekday. Z.div_mod_to_equations. lia.
  - rewrite (add_days_err _ 6 ltac:(rewrite Ts; lia)). cbn [bind]. split; [reflexivity | lia].
Qed.

(** Extra (resolve_date_range, this_month): [this_month] (after the earlier
    options) gives the first and the last day of [now]'s month, except in
    December 9999 where building 10000-01-01 raises ValueError. *)
Theorem resolve_this_month sd ed ld lw lm now :
  valid_ymd now = true ->
  truthy_str sd = false -> truthy_str ed = false ->
  truthy_int ld = false -> truthy_int lw = false -> truthy_int lm = false ->
  forall ty at_,
  resolve_date_range sd ed ld lw lm false false true ty at_ now =
    if (year now =? 9999) && (month now =? 12) then Err ValueError
    else Ok (mkYmd (year now) (month now) 1,
             mkYmd (year now) (month now) (_days_in_month (year now) (month now))).
Proof.
  intros V Hs He Hd Hw Hm ty at_. unfold resolve_date_range.
  rewrite Hs, He, Hd, Hw, Hm. cbn [andb negb].
  destruct now as [y m d]. cbn [year month day].
  apply valid_ymd_spec in V as (Y & M & D). cbn [year month day] in Y, M, D.
  assert (forall mm, 1 <= mm <= 12 -> 1 <= _days_in_month y mm) as Pos.
  { intros mm Hmm. unfold _days_in_month.
    assert (mm = 1 \/ mm = 2 \/ mm = 3 \/ mm = 4 \/ mm = 5 \/ mm = 6 \/ mm = 7 \/ mm = 8 \/
            mm = 9 \/ mm = 10 \/ mm = 11 \/ mm = 12) as C by lia.
    destruct (_is_leap y); repeat destruct C as [C | C]; subst mm; cbn; lia. }
  assert (mk_datetime y m 1 = Ok (mkYmd y m 1)) as S1.
  { unfold mk_datetime. replace (valid_ymd (mkYmd y m 1)) with true; [reflexivity|].
    symmetry. unfold valid_ymd. cbn [year month day]. rewrite !andb_true_iff, !Z.leb_le.
    pose proof (Pos m M). lia. }
  rewrite S1. cbn [bind].
  assert (valid_ymd (mkYmd y m (_days_in_month y m)) = true) as Vend.
  { unfold valid_ymd. cbn [year month day]. rewrite !andb_true_iff, !Z.leb_le.
    pose proof (Pos m M). lia. }
  destruct (Z.eqb_spec m 12) as [->|Hm12].
  - destruct (Z.eqb_spec y 9999) as [->|Hy]; cbn [andb].
    + reflexivity.
    + assert (mk_datetime (y + 1) 1 1 = Ok (mkYmd (y + 1) 1 1)) as S2.
      { unfold mk_datetime. replace (valid_ymd (mkYmd (y + 1) 1 1)) with true; [reflexivity|].
        symmetry. reflexivity || (unfold valid_ymd; cbn [year month day];
          rewrite !andb_true_iff, !Z.leb_le; pose proof (Pos 1 ltac:(lia)); unfold _days_in_month in *; cbn in *; lia). }
      rewrite S2. cbn [bind].
      assert (toordinal (mkYmd y 12 (_days_in_month y 12)) = toordinal (mkYmd (y + 1) 1 1) + -1) as T.
      { unfold toordinal, _ymd2ord. cbn [year month day]. rewrite days_before_year_succ.
        unfold _days_before_month, _days_in_month. destruct (_is_leap y); cbn; lia. }
      pose proof (toordinal_bounds _ Vend) as B.
      rewrite (add_days_ok _ (-1)) by (try reflexivity; unfold valid_ymd; cbn [year month day];
        rewrite ?andb_true_iff, ?Z.leb_le; try (unfold _days_in_month; cbn; lia); lia).
      rewrite <- T, ord2ymd_toordinal by exact Vend. reflexivity.
  - rewrite andb_false_r.
    assert (mk_datetime y (m + 1) 1 = Ok (mkYmd y (m + 1) 1)) as S2.
    { unfold mk_datetime. replace (valid_ymd (mkYmd y (m + 1) 1)) with true; [reflexivity|].
      symmetry. unfold valid_ymd. cbn [year month day]. rewrite !andb_true_iff, !Z.leb_le.
      pose proof (Pos (m + 1) ltac:(lia)). lia. }
    rewrite S2. cbn [bind].
    assert (toordinal (mkYmd y m (_days_in_month y m)) = toordinal (mkYmd y (m + 1) 1) + -1) as T.
    { unfold toordinal, _ymd2ord. cbn [year month day].
      rewrite days_before_month_succ by lia. lia. }
    pose proof (toordinal_bounds _ Vend) as B.
    assert (valid_ymd (mkYmd y (m + 1) 1) = true) as V2.
    { unfold valid_ymd. cbn [year month day]. rewrite !andb_true_iff, !Z.leb_le.
      pose proof (Pos (m + 1) ltac:(lia)). lia. }
    rewrite (add_days_ok _ (-1) V2 ltac:(lia)).
    cbn [bind]. rewrite <- T, ord2ymd_toordinal by exact Vend. reflexivity.
Qed.

Lemma back_days_ok now k : valid_ymd now = true -> 0 <= k ->
  last_n_days_ok (s <- add_days now (- k) ;; Ok (s, now)) now (k + 1).
Proof.
  intros V K. pose proof (toordinal_bounds now V) as B.
  destruct (Z.le_gt_cases (k + 1) (toordinal now)) as [L|L].
  - rewrite (add_days_ok now (- k) V ltac:(lia)). cbn [bind last_n_days_ok].
    destruct (ord2ymd_roundtrip (toordinal now + - k) ltac:(lia)) as [Vs Ts].
    rewrite Ts. refine (conj eq_refl (conj Vs _)). lia.
  - rewrite (add_days_err now (- k) ltac:(lia)). cbn [bind last_n_days_ok]. split; [reflexivity | lia].
Qed.

(** Extra (resolve_date_range, last N): a nonzero [last_days = n] gives the
    [max(n, 1)] days ending on [now] (so a negative count gives just [now]),
    [last_weeks] [max(7n, 1)] days and [last_months] [max(30n, 1)] days, each
    raising OverflowError when the start would be before 0001-01-01; with no
    option at all (or only zero counts) the range is the last 30 days. *)
Theorem resolve_last_n sd ed now (n : Z) :
  valid_ymd now = true -> truthy_str sd = false -> truthy_str ed = false -> n <> 0 ->
  forall o1 o2 o3 tw lwk tm ty at_,
  last_n_days_ok (resolve_date_range sd ed (Some n) o2 o3 tw lwk tm ty at_ now) now (Z.max n 1) /\
  (truthy_int o1 = false ->
   last_n_days_ok (resolve_date_range sd ed o1 (Some n) o3 tw lwk tm ty at_ now) now
     (Z.max (n * 7) 1)) /\
  (truthy_int o1 = false -> truthy_int o2 = false ->
   last_n_days_ok (resolve_date_range sd ed o1 o2 (Some n) tw lwk tm ty at_ now) now
     (Z.max (n * 30) 1)) /\
  (truthy_int o1 = false -> truthy_int o2 = false -> truthy_int o3 = false ->
   last_n_days_ok (resolve_date_range sd ed o1 o2 o3 false false false false false now) now 30).
Proof.
  intros V Hs He Hn o1 o2 o3 tw lwk tm ty at_. unfold resolve_date_range.
  rewrite Hs, He. cbn [andb negb].
  assert (truthy_int (Some n) = true) as Tn
    by (cbn; apply negb_true_iff; apply Z.eqb_neq; exact Hn).
  rewrite Tn. cbn [get_or].
  split; [|split; [|split]].
  - replace (Z.max n 1) with (Z.max (n - 1) 0 + 1) by lia. apply back_days_ok; [exact V | lia].
  - intros H1. rewrite H1. cbn [get_or].
    replace (Z.max (n * 7) 1) with (Z.max (n * 7 - 1) 0 + 1) by lia. apply back_days_ok; [exact V | lia].
  - intros H1 H2. rewrite H1, H2. cbn [get_or].
    replace (Z.max (n * 30) 1) with (Z.max (n * 30 - 1) 0 + 1) by lia. apply back_days_ok; [exact V | lia].
  - intros H1 H2 H3. rewrite H1, H2, H3.
    apply (back_days_ok now 29 V ltac:(lia)).
Qed.


Lemma resolve_this_week_witness :
  match resolve_date_range None None None None None true false false false false
          (mkYmd 2026 10 14) with
  | Ok (s, e) =>
      valid_ymd s = true /\ valid_ymd e = true /\ weekday s = 0 /\
      toordinal s <= toordinal (mkYmd 2026 10 14) <= toordinal e /\
      toordinal e = toordinal s + 6
  | Err x => x = OverflowError /\
      MAXORDINAL < toordinal (mkYmd 2026 10 14) - weekday (mkYmd 2026 10 14) + 6
  end.
Proof.
  apply (resolve_this_week None None None None None (mkYmd 2026 10 14));
    reflexivity.
Defined.

Lemma resolve_this_month_witness :
  resolve_date_range None None None None None false false true false false
    (mkYmd 9999 12 5) = Err ValueError.
Proof.
  exact (resolve_this_month None None None None None (mkYmd 9999 12 5)
           eq_refl eq_refl eq_refl eq_refl eq_refl eq_refl false false).
Defined.

Lemma resolve_last_n_witness :
  last_n_days_ok (resolve_date_range None None (Some (-3)) None None
                    false false false false false (mkYmd 2026 10 14))
                 (mkYmd 2026 10 14) 1.
Proof.
  destruct (resolve_last_n None None (mkYmd 2026 10 14) (-3) eq_refl eq_refl eq_refl
              ltac:(lia) None None None false false false false false) as [H _].
  exact H.
Defined.

End DateChunks.

(** ** Classification metadata, daily intensity, compiled structures, paces *)

Lemma structure_decision_labels st l :
  structure_decision st = Some l -> In l ["vo2"; "lt2"; "lt1"; "easy"].
Proof.
  unfold structure_decision. destruct (negb _); [discriminate|].
  repeat (destruct (_ || _)); intros H; inversion H; subst; cbn; tauto.
Qed.

Lemma classify_with_source_structure jl w rules l :
  _classify_with_source jl w rules = (l, "structure") -> In l ["vo2"; "lt2"; "lt1"; "easy"].
Proof.
  unfold _classify_with_source. destruct (str_in _ _); [intros H; inversion H|].
  unfold _classify_from_structure.
  destruct (fst (_extract_structure jl w)) as [|b bs]; [intros H; inversion H|].
  destruct (structure_decision _) as [sl|] eqn:E; [|intros H; inversion H].
  destruct (String.eqb sl ""); intros H; inversion H; subst. eapply structure_decision_labels; eauto.
Qed.

(** Extra (classify_with_metadata): the result's type is [classify_workout]'s
    label and its method is always [auto]; the confidence is 0.97 exactly when
    the method is not [ai] and the label came from the structure signal, in
    which case the label is one of vo2, lt2, lt1, easy; an [other] label always
    has confidence 0.6. *)
Theorem classify_with_metadata_confidence jl w method rules :
  let c := classify_with_metadata jl w method rules in
  wc_type c = classify_workout jl w rules /\ wc_method c = "auto" /\
  (wc_confidence c = 97 # 100 <->
   method <> "ai" /\ snd (_classify_with_source jl w rules) = "structure") /\
  (wc_confidence c = 97 # 100 -> In (wc_type c) ["vo2"; "lt2"; "lt1"; "easy"]) /\
  (wc_type c = "other" -> wc_confidence c = 6 # 10).
Proof.
  cbv zeta. unfold classify_with_metadata, classify_workout.
  destruct (_classify_with_source jl w rules) as [label source] eqn:E. cbn [fst snd].
  destruct (String.eqb_spec method "ai") as [->|Hm]; cbn.
  - repeat split; try discriminate; intros [H _]; congruence.
  - destruct (String.eqb_spec source "structure") as [->|Hs]; cbn.
    + pose proof (classify_with_source_structure jl w rules label E) as Hin.
      repeat split; auto. intros ->. cbn in Hin. intuition discriminate.
    + destruct (String.eqb_spec label "other") as [->|Hl]; cbn.
      * repeat split; try discriminate; intros [_ H]; congruence.
      * repeat split; try discriminate; intros; try congruence. tauto.
Qed.

Lemma max_by_spec (key : string -> Z) best items :
  let r := max_by key best items in
  (r = best /\ Forall (fun x => (key x <= key best)%Z) items) \/
  (exists pre post, items = (pre ++ r :: post)%list /\ (key best < key r)%Z /\
     Forall (fun x => (key x < key r)%Z) pre /\ Forall (fun x => (key x <= key r)%Z) post).
Proof.
  revert best. induction items as [|x rest IH]; intros best; cbn zeta.
  - left. split; [reflexivity | constructor].
  - cbn [max_by]. destruct (key best <? key x)%Z eqn:C.
    + apply Z.ltb_lt in C. right. pose proof (IH x) as IHx. cbn zeta in IHx.
      set (r := max_by key x rest) in *. clearbody r. destruct IHx as [[E F] | (pre & post & E & L & F1 & F2)].
      * exists [], rest. rewrite E. refine (conj eq_refl (conj C (conj (Forall_nil _) F))).
      * exists (x :: pre), post. rewrite E. split; [reflexivity|]. split; [lia|].
        split; [constructor; [lia | exact F1] | exact F2].
    + apply Z.ltb_ge in C. pose proof (IH best) as IHb. cbn zeta in IHb.
      set (r := max_by key best rest) in *. clearbody r. destruct IHb as [[E F] | (pre & post & E & L & F1 & F2)].
      * left. split; [exact E | constructor; [lia | exact F]].
      * right. exists (x :: pre), post. rewrite E.
        refine (conj eq_refl (conj L (conj _ F2))). constructor; [lia | exact F1].
Qed.

(** Extra (_day_intensity): an empty day is [rest]; otherwise the result is
    one of the day's types, of the highest intensity order among them, and
    the first such type in the list (every earlier type ranks strictly
    lower). *)
Theorem day_intensity_first_max types :
  (types = [] /\ _day_intensity types = "rest") \/
  (exists pre post, types = (pre ++ _day_intensity types :: post)%list /\
     Forall (fun x => (_day_intensity_order x < _day_intensity_order (_day_intensity types))%Z) pre /\
     Forall (fun x => (_day_intensity_order x <= _day_intensity_order (_day_intensity types))%Z) post).
Proof.
  destruct types as [|v rest]; [left; auto|right]. cbn [_day_intensity].
  destruct (max_by_spec _day_intensity_order v rest) as [[E F] | (pre & post & E & L & F1 & F2)].
  - rewrite E. exists [], rest. refine (conj eq_refl (conj (Forall_nil _) F)).
  - exists (v :: pre), post. rewrite E at 1. refine (conj eq_refl (conj _ F2)).
    constructor; [lia | exact F1].
Qed.

Lemma block_step_count_app a b :
  block_step_count (a ++ b) = (block_step_count a + block_step_count b)%nat.
Proof. unfold block_step_count. induction a; cbn; [reflexivity|]. rewrite IHa. lia. Qed.

Lemma rampup_block_ok w : w = [] \/ warmup_run_ok w ->
  Forall block_shape_ok (rampup_block w) /\ block_step_count (rampup_block w) = List.length w.
Proof.
  intros [->|H]; [split; [constructor | reflexivity]|].
  destruct H as (s & rest & -> & H1 & H2). cbn. split.
  - constructor; [|constructor]. left. cbn. split; [reflexivity|]. split; [reflexivity|].
    exists s, rest. auto.
  - lia.
Qed.

Lemma warmup_append w s :
  w = [] \/ warmup_run_ok w ->
  os_intensityClass s = (match w with [] => "warmUp" | _ => "active" end) ->
  warmup_run_ok (w ++ [s]).
Proof.
  intros [->|(s0 & rest & -> & H1 & H2)] Hs.
  - exists s, []. auto.
  - exists s0, (rest ++ [s])%list. split; [reflexivity|]. split; [exact H1|].
    apply Forall_app. split; [exact H2|]. constructor; [exact Hs|constructor].
Qed.

Lemma compile_step_shape blocks w s blocks' w' :
  Forall block_shape_ok blocks -> (w = [] \/ warmup_run_ok w) ->
  compile_step (blocks, w) s = Ok (blocks', w') ->
  Forall block_shape_ok blocks' /\ (w' = [] \/ warmup_run_ok w') /\
  (block_step_count blocks' + List.length w' = block_step_count blocks + List.length w + dsl_weight s)%nat.
Proof.
  intros Fb Hw E. pose proof (rampup_block_ok w Hw) as [Rf Rc].
  unfold compile_step in E. unfold dsl_weight.
  destruct (d_type s) as [t|]; cbn in E; [|discriminate].
  destruct (String.eqb t "warmup") eqn:T1.
  - destruct (d_duration s); cbn in E; [|discriminate].
    destruct (parse_length s0) as [len|]; cbn in E; [|discriminate].
    injection E as <- <-. split; [exact Fb|]. split.
    + right. apply warmup_append; [exact Hw|reflexivity].
    + rewrite length_app. cbn. lia.
  - destruct (String.eqb t "interval") eqn:T2.
    + destruct (d_on s); cbn in E; [|discriminate].
      destruct (parse_length s0) as [on_len|]; cbn in E; [|discriminate].
      destruct (d_off s); cbn in E; [|discriminate].
      destruct (parse_length s1) as [off_len|]; cbn in E; [|discriminate].
      injection E as <- <-. split; [|split; [left; reflexivity|]].
      * apply Forall_app. split; [exact Fb|]. apply Forall_app. split; [exact Rf|].
        constructor; [|constructor]. right. left. cbn. split; [reflexivity|].
        split; [reflexivity|]. eexists _, _. split; [reflexivity|]. auto.
      * rewrite !block_step_count_app, Rc. cbn. lia.
    + destruct (String.eqb t "cooldown") eqn:T3.
      * destruct (d_duration s); cbn in E; [|discriminate].
        unfold parse_duration in E.
        destruct (parse_length s0) as [len|]; cbn in E; [|discriminate].
        injection E as <- <-. split; [|split; [left; reflexivity|]].
        -- apply Forall_app. split; [apply Forall_app; split; assumption|].
           constructor; [|constructor]. right. right. cbn. split; [reflexivity|].
           split; [reflexivity|]. eexists. split; [reflexivity|]. auto.
        -- rewrite !block_step_count_app, Rc. cbn. lia.
      * destruct (String.eqb t "steady") eqn:T4.
        -- destruct (d_duration s); cbn in E; [|discriminate].
           unfold parse_duration in E.
           destruct (parse_length s0) as [len|]; cbn in E; [|discriminate].
           injection E as <- <-. split; [|split; [left; reflexivity|]].
           ++ apply Forall_app. split; [apply Forall_app; split; assumption|].
              constructor; [|constructor]. right. right. cbn. split; [reflexivity|].
              split; [reflexivity|]. eexists. split; [reflexivity|]. auto.
           ++ rewrite !block_step_count_app, Rc. cbn. lia.
        -- injection E as <- <-. split; [apply Forall_app; split; assumption|].
           split; [left; reflexivity|]. rewrite block_step_count_app, Rc. cbn. lia.
Qed.

Lemma compile_loop_shape steps : forall blocks w blocks' w',
  Forall block_shape_ok blocks -> (w = [] \/ warmup_run_ok w) ->
  compile_loop (blocks, w) steps = Ok (blocks', w') ->
  Forall block_shape_ok blocks' /\ (w' = [] \/ warmup_run_ok w') /\
  (block_step_count blocks' + List.length w' =
     block_step_count blocks + List.length w + list_sum (map dsl_weight steps))%nat.
Proof.
  induction steps as [|s rest IH]; intros blocks w blocks' w' Fb Hw E; cbn [compile_loop] in E.
  - injection E as <- <-. cbn. split; [exact Fb|]. split; [exact Hw|]. lia.
  - unfold bind in E.
    destruct (compile_step (blocks, w) s) as [[b1 w1]|] eqn:C; [|discriminate].
    destruct (compile_step_shape _ _ _ _ _ Fb Hw C) as (F1 & H1 & N1).
    destruct (IH _ _ _ _ F1 H1 E) as (F2 & H2 & N2).
    split; [exact F2|]. split; [exact H2|].
    change (list_sum (map dsl_weight (s :: rest)))
      with (dsl_weight s + list_sum (map dsl_weight rest))%nat. lia.
Qed.

(** Extra (simple_to_tp_structure): when compilation succeeds, the structure
    carries the given metric, every block is a [rampUp] block of warmups (the
    first [warmUp], the rest [active]), a [repetition] block of one [active]
    and one [rest] step, or a one-step [step] block whose length unit is
    [second] (also for a distance such as "5km"); and the blocks hold one step
    per warmup, steady and cooldown step and two per interval, none for other
    types. *)
Theorem simple_to_tp_structure_shape steps metric out :
  simple_to_tp_structure steps metric = Ok out ->
  primaryIntensityMetric out = metric /\
  Forall block_shape_ok (structure out) /\
  block_step_count (structure out) = list_sum (map dsl_weight steps).
Proof.
  unfold simple_to_tp_structure. intros E.
  destruct (compile_loop ([], []) steps) as [[blocks w]|] eqn:C; cbn in E; [|discriminate].
  injection E as <-. cbn.
  destruct (compile_loop_shape steps [] [] blocks w (Forall_nil _) (or_introl eq_refl) C)
    as (F & H & N).
  pose proof (rampup_block_ok w H) as [Rf Rc].
  split; [reflexivity|]. split.
  - apply Forall_app. auto.
  - rewrite block_step_count_app, Rc. cbn in N. lia.
Qed.

Lemma simple_to_tp_structure_shape_witness :
  exists out,
    simple_to_tp_structure spec_example_steps "percentOfThresholdPace" = Ok out /\
    primaryIntensityMetric out = "percentOfThresholdPace" /\
    Forall block_shape_ok (structure out) /\
    block_step_count (structure out) = list_sum (map dsl_weight spec_example_steps).
Proof.
  eexists. split; [vm_compute; reflexivity|].
  apply (simple_to_tp_structure_shape spec_example_steps "percentOfThresholdPace").
  vm_compute. reflexivity.
Defined.

Lemma digit_not_space c : is_digit c = true -> is_space c = false.
Proof.
  unfold is_digit, is_space. intros H. apply andb_true_iff in H as [H1 H2].
  apply Nat.leb_le in H1, H2.
  apply orb_false_iff. split; apply andb_false_iff; right; apply Nat.leb_gt; lia.
Qed.

Lemma list_ascii_of_string_app a b :
  list_ascii_of_string (a ++ b) = (list_ascii_of_string a ++ list_ascii_of_string b)%list.
Proof. induction a; cbn; congruence. Qed.

Lemma str_rev_snoc p c : str_rev (p ++ String c "") = String c (str_rev p).
Proof.
  unfold str_rev. rewrite list_ascii_of_string_app. cbn [list_ascii_of_string].
  rewrite rev_app_distr. reflexivity.
Qed.

Lemma str_rev_involutive s : str_rev (str_rev s) = s.
Proof.
  unfold str_rev. rewrite list_ascii_of_string_of_list_ascii, rev_involutive.
  apply string_of_list_ascii_of_string.
Qed.

Lemma digits_last s : all_digits s = true -> s <> "" ->
  exists p c, s = (p ++ String c "") /\ is_digit c = true.
Proof.
  induction s as [|c r IH]; intros A N; [congruence|].
  cbn in A. apply andb_true_iff in A as [A1 A2].
  destruct r as [|c' r'].
  - exists "", c. auto.
  - destruct (IH A2 ltac:(discriminate)) as (p & c0 & E & D).
    exists (String c p), c0. rewrite E. auto.
Qed.

(** Stripping leaves alone a text that starts and ends with a digit. *)
Lemma str_strip_digit_ends s c r p c' :
  is_digit c = true -> is_digit c' = true -> s = String c r -> s = (p ++ String c' "") ->
  str_strip s = s.
Proof.
  intros D D' E0 E. unfold str_strip.
  replace (lstrip s) with s by (rewrite E0; cbn [lstrip]; rewrite (digit_not_space c D); reflexivity).
  rewrite E, str_rev_snoc. cbn [lstrip]. rewrite (digit_not_space c' D').
  rewrite <- str_rev_snoc, str_rev_involutive. reflexivity.
Qed.

Lemma str_split_digits a t : all_digits a = true ->
  str_split ":" (a ++ t) =
    match str_split ":" t with [] => [] | w :: ws => (a ++ w) :: ws end.
Proof.
  induction a as [|c a IH]; intros A.
  - cbn. destruct (str_split ":" t); reflexivity.
  - cbn in A. apply andb_true_iff in A as [A1 A2]. cbn [String.append str_split].
    rewrite (IH A2).
    assert (Ascii.eqb c ":" = false) as Ec
      by (destruct (Ascii.eqb_spec c ":"); [subst; discriminate | reflexivity]).
    destruct (str_split ":" t); [reflexivity|]. rewrite Ec. reflexivity.
Qed.

Lemma uint_go_digits s : forall acc nd last, all_digits s = true -> s <> "" ->
  uint_go s acc nd last = Some (digits_value_acc s acc, (nd + String.length s)%nat).
Proof.
  induction s as [|c r IH]; intros acc nd last A N; [congruence|].
  cbn in A. apply andb_true_iff in A as [A1 A2]. cbn [uint_go]. rewrite A1.
  destruct r as [|c' r'].
  - cbn. f_equal. f_equal. lia.
  - rewrite (IH _ _ _ A2 ltac:(discriminate)). cbn [digits_value_acc String.length].
    f_equal. f_equal. lia.
Qed.

Lemma py_int_digits d : all_digits d = true -> d <> "" -> py_int d = Ok (digits_value d).
Proof.
  intros A N. destruct (digits_last d A N) as (p & c' & E & D').
  destruct d as [|c r]; [congruence|].
  assert (is_digit c = true) as D by (cbn in A; apply andb_true_iff in A; tauto).
  unfold py_int. rewrite (str_strip_digit_ends _ c r p c' D D' eq_refl E).
  pose proof (uint_go_digits (String c r) 0 0 false A N) as U.
  unfold parse_uint. revert U. unfold digits_value.
  destruct c as [[] [] [] [] [] [] [] []]; cbn in D; try discriminate;
    intros U; rewrite U; reflexivity.
Qed.

Lemma z_str02_nonempty n : (0 <= n)%Z -> z_str02 n <> "".
Proof.
  intros H. destruct (z_str_nonneg n H) as (Ne & _). unfold z_str02.
  destruct (_ <? _)%nat; [discriminate | exact Ne].
Qed.

Lemma parse_length_min_sec_go (m s : Z) :
  (0 <= m)%Z -> (0 <= s)%Z ->
  parse_length (z_str m ++ ":" ++ z_str02 s) = Ok ((60 * m + s)%Z, "second").
Proof.
  intros Hm Hs.
  destruct (z_str_nonneg m Hm) as (Nm & Am & Vm).
  destruct (z_str02_nonneg s Hs) as (As & Vs). pose proof (z_str02_nonempty s Hs) as Ns.
  destruct (digits_last _ As Ns) as (p & c' & Ep & D').
  remember (z_str m) as a eqn:Ea. remember (z_str02 s) as b eqn:Eb.
  destruct a as [|c r]; [congruence|].
  assert (is_digit c = true) as D by (cbn in Am; apply andb_true_iff in Am; tauto).
  unfold parse_length.
  assert (String c r ++ ":" ++ b = (String c r ++ String ":" p) ++ String c' "") as Eraw
    by (rewrite Ep, str_app_assoc; reflexivity).
  rewrite (str_strip_digit_ends (String c r ++ ":" ++ b) c (r ++ ":" ++ b) _ c' D D' eq_refl Eraw).
  assert (Ascii.eqb "m" c' = false) as Qm
    by (destruct (Ascii.eqb_spec "m" c'); [subst; discriminate | reflexivity]).
  unfold str_endswith. rewrite Eraw, str_rev_snoc.
  change (str_rev "km") with "mk". change (str_rev "m") with "m".
  cbn [str_prefix]. rewrite Qm. cbn [andb].
  rewrite <- Eraw. rewrite (str_split_digits (String c r)) by exact Am.
  pose proof (str_split_digits b "" As) as Sb. cbn [str_split] in Sb. rewrite str_app_nil_r in Sb.
  change (":" ++ b) with (String ":" b). cbn [str_split]. rewrite Sb. cbn -[py_int Z.mul Z.add].
  rewrite str_app_nil_r.
  replace (py_int (String c r)) with (Ok m) by (rewrite py_int_digits by (auto; discriminate); congruence).
  cbn [bind]. rewrite py_int_digits by assumption. rewrite Vs. cbn [bind].
  f_equal. f_equal. lia.
Qed.

(** Extra (parse_length): a minutes-and-seconds text [m:ss] as the pace
    labels print it, with [m >= 0] in decimal and [s >= 0] padded to two
    digits, parses to [60 * m + s] seconds. *)
Theorem parse_length_min_sec (m s : Z) :
  (0 <= m)%Z -> (0 <= s)%Z ->
  parse_length (z_str m ++ ":" ++ z_str02 s) = Ok ((60 * m + s)%Z, "second").
Proof. apply parse_length_min_sec_go. Qed.

Lemma parse_length_min_sec_witness :
  (0 <= 5)%Z /\ (0 <= 7)%Z /\ parse_length "5:07" = Ok (307%Z, "second").
Proof.
  split; [lia|]. split; [lia|].
  exact (parse_length_min_sec 5 7 ltac:(lia) ltac:(lia)).
Defined.

Lemma round_half_even_spec x :
  x - (1 # 2) <= inject_Z (round_half_even x) <= x + (1 # 2) /\
  (Qfloor x <= round_half_even x <= Qfloor x + 1)%Z.
Proof.
  pose proof (Qfloor_le x) as F1. pose proof (Qlt_floor x) as F2.
  rewrite inject_Z_plus in F2. change (inject_Z 1) with 1 in F2.
  unfold round_half_even, Qlt_bool.
  destruct (Qle_bool (1 # 2) (x - inject_Z (Qfloor x))) eqn:A; cbn [negb].
  - apply Qle_bool_iff in A.
    destruct (Qle_bool (x - inject_Z (Qfloor x)) (1 # 2)) eqn:B; cbn [negb].
    + apply Qle_bool_iff in B.
      destruct (Z.even (Qfloor x)).
      * split; [lra | lia].
      * rewrite inject_Z_plus. change (inject_Z 1) with 1. split; [lra | lia].
    + assert (~ (x - inject_Z (Qfloor x) <= 1 # 2)) as B'
        by (intros H; apply Qle_bool_iff in H; congruence).
      rewrite inject_Z_plus. change (inject_Z 1) with 1. split; [lra | lia].
  - assert (~ (1 # 2 <= x - inject_Z (Qfloor x))) as A'
      by (intros H; apply Qle_bool_iff in H; congruence).
    split; [lra | lia].
Qed.

(** Extra (speed_pct_to_pace): for a positive speed [threshold * pct / 100]
    the label is [m:ss] with [m >= 0] and [0 <= ss < 60], and [60 * m + ss] is
    within half a second of the exact [1000 / speed] seconds per km; read
    back with [parse_duration] the label gives [60 * m + ss]. *)
Theorem speed_pct_to_pace_format p t :
  0 < t * (p / 100) ->
  exists minutes seconds,
    speed_pct_to_pace (FFin p) t = Ok (z_str minutes ++ ":" ++ z_str02 seconds) /\
    (0 <= minutes)%Z /\ (0 <= seconds < 60)%Z /\
    1000 / (t * (p / 100)) - (1 # 2) <= inject_Z (60 * minutes + seconds)
      <= 1000 / (t * (p / 100)) + (1 # 2) /\
    parse_duration (z_str minutes ++ ":" ++ z_str02 seconds) = Ok (60 * minutes + seconds)%Z.
Proof.
  intros Hs. unfold speed_pct_to_pace.
  set (speed := t * (p / 100)) in *.
  replace (Qle_bool speed 0) with false
    by (symmetry; apply not_true_iff_false; intros H; apply Qle_bool_iff in H; lra).
  set (x := 1000 / speed).
  assert (0 < x) as Hx.
  { unfold x, Qdiv. apply Qmult_lt_0_compat; [reflexivity|]. apply Qinv_lt_0_compat. exact Hs. }
  set (m := Qfloor (x / 60)).
  pose proof (Qfloor_le (x / 60)) as M1. pose proof (Qlt_floor (x / 60)) as M2.
  fold m in M1, M2. rewrite inject_Z_plus in M2. change (inject_Z 1) with 1 in M2.
  assert (inject_Z m * 60 <= x < (inject_Z m + 1) * 60) as [L1 L2].
  { split.
    - apply (Qmult_le_r _ _ (1 # 60)); [reflexivity|].
      setoid_replace (inject_Z m * 60 * (1 # 60)) with (inject_Z m) by ring.
      exact M1.
    - apply (Qmult_lt_r _ _ (1 # 60)); [reflexivity|].
      setoid_replace ((inject_Z m + 1) * 60 * (1 # 60)) with (inject_Z m + 1) by ring.
      exact M2. }
  assert (0 <= m)%Z as Hm.
  { assert (-1 < m)%Z; [|lia]. rewrite Zlt_Qlt. change (inject_Z (-1)) with (-1). lra. }
  set (r := x - 60 * inject_Z m).
  assert (0 <= r < 60) as [R1 R2] by (unfold r; lra).
  destruct (round_half_even_spec r) as [[S1 S2] [S3 S4]].
  assert (0 <= Qfloor r < 60)%Z as Fr.
  { pose proof (Qfloor_le r). pose proof (Qlt_floor r) as Q2.
    rewrite inject_Z_plus in Q2. change (inject_Z 1) with 1 in Q2.
    split.
    - assert (-1 < Qfloor r)%Z; [|lia]. rewrite Zlt_Qlt. change (inject_Z (-1)) with (-1). lra.
    - rewrite Zlt_Qlt. change (inject_Z 60) with 60. lra. }
  set (s := round_half_even r) in *.
  destruct (Z.eqb_spec s 60) as [E|E].
  - exists (m + 1)%Z, 0%Z. split; [reflexivity|]. split; [lia|]. split; [lia|].
    split; [|unfold parse_duration; rewrite parse_length_min_sec_go by lia; reflexivity].
    rewrite E in S1, S2. change (inject_Z 60) with 60 in S1, S2.
    rewrite Z.add_0_r, inject_Z_mult, inject_Z_plus. change (inject_Z 60) with 60.
    change (inject_Z 1) with 1. unfold r in S1, S2. lra.
  - exists m, s. split; [reflexivity|]. split; [lia|]. split; [lia|].
    split; [|unfold parse_duration; rewrite parse_length_min_sec_go by lia; reflexivity].
    rewrite inject_Z_plus, inject_Z_mult. change (inject_Z 60) with 60.
    unfold r in S1, S2. lra.
Qed.

Lemma speed_pct_to_pace_format_witness :
  0 < 4 * (80 / 100) /\
  exists minutes seconds,
    speed_pct_to_pace (FFin 80) 4 = Ok (z_str minutes ++ ":" ++ z_str02 seconds) /\
    (0 <= minutes)%Z /\ (0 <= seconds < 60)%Z /\
    1000 / (4 * (80 / 100)) - (1 # 2) <= inject_Z (60 * minutes + seconds)
      <= 1000 / (4 * (80 / 100)) + (1 # 2) /\
    parse_duration (z_str minutes ++ ":" ++ z_str02 seconds) = Ok (60 * minutes + seconds)%Z.
Proof.
  split; [reflexivity|]. apply speed_pct_to_pace_format. reflexivity.
Defined.

(* ------------------------------------------------------------------ *)
(** * Frame of the core functions on the heap *)

Import Heap.
Open Scope string_scope.

Section FrameRules.
Variable n0 : nat.
Local Open Scope nat_scope.
Local Abbreviation ok := (ok n0).
Local Abbreviation inv := (inv n0).

(** ** Worlds *)

Lemma wincl_refl w : wincl w w.
Proof. split; auto. Qed.

Lemma wincl_trans w1 w2 w3 : wincl w1 w2 -> wincl w2 w3 -> wincl w1 w3.
Proof. intros [H1 H2] [H3 H4]; split; auto. Qed.


Lemma inC_ref C l : inC C (VRef l) <-> exists b, In (l, b) C.
Proof.
  unfold inC; simpl; rewrite existsb_exists; split.
  - intros ([l' b] & Hin & He); apply Nat.eqb_eq in He; simpl in He; subst; eauto.
  - intros (b & Hin); exists (l, b); split; auto; apply Nat.eqb_refl.
Qed.

Lemma inC_tuple C xs : inC C (VTuple xs) <-> Forall (inC C) xs.
Proof. unfold inC; simpl; rewrite forallb_forall, Forall_forall; tauto. Qed.

Lemma inC_mono C C' v : (forall p, In p C -> In p C') -> inC C v -> inC C' v.
Proof.
  intros Hi; induction v using pval_ind2; intros Hv; try reflexivity.
  - rewrite inC_tuple in *; rewrite Forall_forall in *; intros x Hx; apply H; auto.
  - rewrite inC_ref in *; destruct Hv as (b & Hb); eauto.
Qed.

Lemma Forall_inC_mono C C' xs : (forall p, In p C -> In p C') -> Forall (inC C) xs -> Forall (inC C') xs.
Proof. intros Hi Hx; eapply Forall_impl; [| exact Hx]; intros; eapply inC_mono; eauto. Qed.

Lemma hashable_tuple xs : hashable (VTuple xs) = forallb hashable xs.
Proof. induction xs as [|x r IH]; simpl; auto. Qed.

Lemma hashable_inC C v : hashable v = true -> inC C v.
Proof.
  induction v using pval_ind2; intros Hh; try reflexivity.
  - apply inC_tuple; rewrite hashable_tuple, forallb_forall in Hh.
    rewrite Forall_forall in *; intros x Hx; apply H; auto.
  - discriminate.
Qed.

Lemma clean_mono b C C' o : (forall p, In p C -> In p C') -> clean b C o -> clean b C' o.
Proof.
  intros Hi; destruct o as [items | items]; simpl; intros Hc.
  - eapply Forall_impl; [| exact Hc]; intros kv [Hk Hv]; split; auto; intros; eapply inC_mono; eauto.
  - eapply Forall_inC_mono; eauto.
Qed.

Lemma inC_str C s : inC C (VStr s). Proof. reflexivity. Qed.
Lemma inC_num C f : inC C (VNum f). Proof. reflexivity. Qed.
Lemma inC_none C : inC C VNone. Proof. reflexivity. Qed.
Lemma inC_bool C b : inC C (VBool b). Proof. reflexivity. Qed.


Lemma owned_mono w w' x : wincl w w' -> owned w x -> owned w' x.
Proof.
  intros [H1 H2] [Hx | (l & -> & Hl)]; [left; eapply inC_mono; eauto | right; eauto].
Qed.


Lemma rd_mono w w' d k : wincl w w' -> rd w d k -> rd w' d k.
Proof.
  intros [H1 H2] [(l & -> & Hl) | (Hd & Hk)]; [left; eauto | right; split; auto; eapply inC_mono; eauto].
Qed.

Lemma key_ok_str s : String.eqb s "title" = false -> String.eqb s "distance" = false -> key_ok (VStr s).
Proof.
  intros H1 H2 k' Hk; destruct k'; simpl in Hk; try discriminate.
  apply String.eqb_eq in Hk; subst; simpl; rewrite H1, H2; reflexivity.
Qed.

(** ** The monad *)

Lemma ok_ret {A} w (a : A) (P : world -> A -> Prop) : P w a -> ok w (mret a) P.
Proof.
  intros HP s Hs; simpl; exists w; split; [apply wincl_refl | split; [exact Hs | split; [auto|]]].
  intros a' Ha; injection Ha as <-; auto.
Qed.

Lemma ok_bind {A B} w (m : M A) (k : A -> M B) P Q :
  ok w m P -> (forall w1 a, wincl w w1 -> P w1 a -> ok w1 (k a) Q) -> ok w (mbind m k) Q.
Proof.
  intros Hm Hk s Hs; unfold mbind.
  specialize (Hm s Hs); destruct (m s) as [s1 r].
  destruct Hm as (w1 & Hw1 & Hs1 & Hf1 & HP).
  destruct r as [a | e].
  - specialize (Hk w1 a Hw1 (HP a eq_refl) s1 Hs1); destruct (k a s1) as [s2 r2].
    destruct Hk as (w2 & Hw2 & Hs2 & Hf2 & HQ).
    exists w2; split; [eapply wincl_trans; eauto | split; [exact Hs2 | split; [| exact HQ]]].
    intros l Hl; rewrite Hf2, Hf1; auto.
  - exists w1; split; [exact Hw1 | split; [exact Hs1 | split; [exact Hf1 |]]].
    intros a Ha; discriminate Ha.
Qed.

Lemma ok_weaken {A} w (m : M A) (P Q : world -> A -> Prop) :
  ok w m P -> (forall w' a, wincl w w' -> P w' a -> Q w' a) -> ok w m Q.
Proof.
  intros Hm HPQ s Hs; specialize (Hm s Hs); destruct (m s) as [s' r].
  destruct Hm as (w' & Hw & H1 & H2 & HP); exists w'; split; [exact Hw | split; [exact H1 | split; [exact H2 |]]].
  intros a Ha; apply HPQ; auto.
Qed.

Lemma ok_lift {A} w (r : result A) (P : world -> A -> Prop) :
  (forall a, r = Ok a -> P w a) -> ok w (mlift r) P.
Proof.
  intros HP s Hs; simpl; exists w; split; [apply wincl_refl | split; [exact Hs | split; [auto | exact HP]]].
Qed.

Lemma ok_read {A} w (f : (nat -> obj) -> result A) (P : world -> A -> Prop) :
  (forall h, heap_clean w h -> forall a, f h = Ok a -> P w a) -> ok w (mread f) P.
Proof.
  intros HP s Hs; simpl; exists w; split; [apply wincl_refl | split; [exact Hs | split; [auto |]]].
  intros a Ha; apply (HP (view s)); auto; apply Hs.
Qed.

Lemma ok_read_any {A} w (f : (nat -> obj) -> result A) : ok w (mread f) (fun _ _ => True).
Proof. apply ok_read; auto. Qed.

Lemma ok_lift_any {A} w (r : result A) : ok w (mlift r) (fun _ _ => True).
Proof. apply ok_lift; auto. Qed.

Lemma ok_any {A} w (m : M A) P : ok w m P -> ok w m (fun _ _ => True).
Proof. intros Hm; eapply ok_weaken; eauto. Qed.

(** ** Allocation *)

Lemma view_alloc s o l :
  view (mkStore (fun l' => if Nat.eqb l' (st_next s) then o else st_heap s l') (S (st_next s))) l =
  if Nat.eqb l (st_next s) then o else view s l.
Proof.
  unfold view; simpl.
  destruct (Nat.eqb_spec l (st_next s)) as [->|Hne].
  - rewrite (proj2 (Nat.ltb_lt _ _)); auto.
  - destruct (Nat.ltb_spec l (S (st_next s))), (Nat.ltb_spec l (st_next s)); auto; lia.
Qed.

Lemma view_put s l o l' :
  view (mkStore (fun l'' => if Nat.eqb l'' l then o else st_heap s l'') (st_next s)) l' =
  if Nat.eqb l' l then (if Nat.ltb l' (st_next s) then o else ODict []) else view s l'.
Proof.
  unfold view; simpl. destruct (Nat.eqb_spec l' l); auto.
Qed.

(** A new object read back later: strict, or loose. *)
Lemma ok_alloc_C w b o :
  clean b (wc w) o -> ok w (alloc o) (fun w' v => exists l, v = VRef l /\ In (l, b) (wc w')).
Proof.
  intros Ho s (Hn & HC & HD & Hdis & Hh); unfold alloc.
  exists (mkWorld ((st_next s, b) :: wc w) (wd w)).
  split; [split; simpl; auto |].
  split; [| split].
  - refine (conj _ (conj _ (conj _ (conj _ _)))); simpl.
    + lia.
    + intros l b' [He | Hl]; [injection He as <- <-; lia | specialize (HC l b' Hl); lia].
    + intros l Hl; specialize (HD l Hl); lia.
    + intros l b' [He | Hl] HlD.
      * injection He as <- <-; specialize (HD _ HlD); lia.
      * eapply Hdis; eauto.
    + intros l b' Hl; rewrite view_alloc.
      destruct (Nat.eqb_spec l (st_next s)) as [->|Hne].
      * destruct Hl as [He | Hl]; [injection He as <-; eapply clean_mono; [|exact Ho]; simpl; auto |].
        specialize (HC _ _ Hl); lia.
      * destruct Hl as [He | Hl]; [injection He as <- <-; lia |].
        eapply clean_mono; [| apply (Hh l b' Hl)]; simpl; auto.
  - intros l Hl; rewrite view_alloc; destruct (Nat.eqb_spec l (st_next s)); auto; lia.
  - intros a Ha; injection Ha as <-; simpl; eauto.
Qed.

(** A new object only written later, or not used again. *)
Lemma ok_alloc_D w o : ok w (alloc o) (fun w' v => exists l, v = VRef l /\ In l (wd w')).
Proof.
  intros s (Hn & HC & HD & Hdis & Hh); unfold alloc.
  exists (mkWorld (wc w) (st_next s :: wd w)).
  split; [split; simpl; auto |].
  split; [| split].
  - refine (conj _ (conj _ (conj _ (conj _ _)))); simpl.
    + lia.
    + intros l b' Hl; specialize (HC l b' Hl); lia.
    + intros l [<- | Hl]; [lia | specialize (HD l Hl); lia].
    + intros l b' Hl [<- | HlD]; [specialize (HC _ _ Hl); lia | eapply Hdis; eauto].
    + intros l b' Hl; rewrite view_alloc.
      destruct (Nat.eqb_spec l (st_next s)) as [->|Hne]; [specialize (HC _ _ Hl); lia |].
      apply (Hh l b' Hl).
  - intros l Hl; rewrite view_alloc; destruct (Nat.eqb_spec l (st_next s)); auto; lia.
  - intros a Ha; injection Ha as <-; simpl; eauto.
Qed.

Lemma ok_alloc_any w o : ok w (alloc o) (fun _ _ => True).
Proof. eapply ok_any, ok_alloc_D. Qed.

Lemma ok_alloc_owned w o : ok w (alloc o) (fun w' v => owned w' v).
Proof.
  eapply ok_weaken; [apply ok_alloc_D |]; intros w' v _ (l & -> & Hl); right; eauto.
Qed.

Lemma ok_alloc_in w b o : clean b (wc w) o -> ok w (alloc o) (fun w' v => inC (wc w') v).
Proof.
  intros Ho; eapply ok_weaken; [apply (ok_alloc_C w b o Ho) |].
  intros w' v _ (l & -> & Hl); apply inC_ref; eauto.
Qed.

(** ** Writes *)

Lemma ok_put_D w l o : In l (wd w) -> ok w (put l o) (fun _ _ => True).
Proof.
  intros HlD s (Hn & HC & HD & Hdis & Hh); unfold put.
  exists w; split; [apply wincl_refl |]; split; [| split].
  - refine (conj _ (conj _ (conj _ (conj _ _)))); simpl; auto.
    intros l' b' Hl'; rewrite view_put.
    destruct (Nat.eqb_spec l' l) as [->|]; [exfalso; eapply Hdis; eauto | apply (Hh l' b' Hl')].
  - intros l' Hl'; rewrite view_put; destruct (Nat.eqb_spec l' l) as [->|]; auto.
    specialize (HD l HlD); lia.
  - auto.
Qed.

Lemma ok_put_C w l o :
  (exists b, In (l, b) (wc w)) -> (forall b, In (l, b) (wc w) -> clean b (wc w) o) ->
  ok w (put l o) (fun _ _ => True).
Proof.
  intros (b0 & Hb0) Ho s (Hn & HC & HD & Hdis & Hh); unfold put.
  exists w; split; [apply wincl_refl |]; split; [| split].
  - refine (conj _ (conj _ (conj _ (conj _ _)))); simpl; auto.
    intros l' b' Hl'; rewrite view_put.
    destruct (Nat.eqb_spec l' l) as [->|]; [| apply (Hh l' b' Hl')].
    specialize (HC _ _ Hb0). rewrite (proj2 (Nat.ltb_lt _ _)) by lia; auto.
  - intros l' Hl'; rewrite view_put; destruct (Nat.eqb_spec l' l) as [->|]; auto.
    specialize (HC _ _ Hb0); lia.
  - auto.
Qed.

Lemma Forall_assoc_set (Q : pval * pval -> Prop) items k v :
  Forall Q items -> Q (k, v) -> (forall k' v', Q (k', v') -> Q (k', v)) ->
  Forall Q (assoc_set items k v).
Proof.
  intros Hall Hkv Hrepl; induction Hall as [|[k' v'] rest Hq Hr IH]; simpl.
  - constructor; auto.
  - destruct (key_eq k' k); constructor; eauto.
Qed.

Lemma clean_assoc_set b C items k v :
  clean b C (ODict items) -> hashable k = true -> inC C v -> clean b C (ODict (assoc_set items k v)).
Proof.
  simpl; intros Hc Hk Hv; apply Forall_assoc_set; auto.
  intros k' v' [? ?]; split; auto.
Qed.

Lemma ok_setitem w x k v : owned w x -> inC (wc w) v -> ok w (py_setitem x k v) (fun _ _ => True).
Proof.
  intros Hx Hv s Hs; unfold py_setitem.
  destruct x; try (exists w; split; [apply wincl_refl | split; [exact Hs | split; [auto | intros ? Ha; discriminate Ha]]]).
  destruct (view s loc) as [items | items] eqn:Hview;
    [| exists w; split; [apply wincl_refl | split; [exact Hs | split; [auto | intros ? Ha; discriminate Ha]]]].
  destruct (hashable k) eqn:Hk;
    [| exists w; split; [apply wincl_refl | split; [exact Hs | split; [auto | intros ? Ha; discriminate Ha]]]].
  destruct Hx as [Hx | (l & [= <-] & Hl)].
  - apply inC_ref in Hx; apply ok_put_C; auto.
    intros b Hb; destruct Hs as (_ & _ & _ & _ & Hh); specialize (Hh _ _ Hb); rewrite Hview in Hh.
    apply clean_assoc_set; auto.
  - apply ok_put_D; auto.
Qed.

Lemma ok_append w x v : owned w x -> inC (wc w) v -> ok w (py_append x v) (fun _ _ => True).
Proof.
  intros Hx Hv s Hs; unfold py_append.
  destruct x; try (exists w; split; [apply wincl_refl | split; [exact Hs | split; [auto | intros ? Ha; discriminate Ha]]]).
  destruct (view s loc) as [items | items] eqn:Hview;
    [exists w; split; [apply wincl_refl | split; [exact Hs | split; [auto | intros ? Ha; discriminate Ha]]] |].
  destruct Hx as [Hx | (l & [= <-] & Hl)].
  - apply inC_ref in Hx; apply ok_put_C; auto.
    intros b Hb; destruct Hs as (_ & _ & _ & _ & Hh); specialize (Hh _ _ Hb); rewrite Hview in Hh.
    simpl in *; apply Forall_app; auto.
  - apply ok_put_D; auto.
Qed.

(** An object only written: anything may go in. *)
Lemma ok_setitem_D w l k v : In l (wd w) -> ok w (py_setitem (VRef l) k v) (fun _ _ => True).
Proof.
  intros Hl s Hs; unfold py_setitem.
  destruct (view s l) as [items | items];
    [| exists w; split; [apply wincl_refl | split; [exact Hs | split; [auto | intros ? Ha; discriminate Ha]]]].
  destruct (hashable k);
    [| exists w; split; [apply wincl_refl | split; [exact Hs | split; [auto | intros ? Ha; discriminate Ha]]]].
  apply ok_put_D; auto.
Qed.

Lemma ok_append_D w l v : In l (wd w) -> ok w (py_append (VRef l) v) (fun _ _ => True).
Proof.
  intros Hl s Hs; unfold py_append.
  destruct (view s l) as [items | items];
    [exists w; split; [apply wincl_refl | split; [exact Hs | split; [auto | intros ? Ha; discriminate Ha]]] |].
  apply ok_put_D; auto.
Qed.

Lemma ok_list_replace_D w l items : In l (wd w) -> ok w (py_list_replace (VRef l) items) (fun _ _ => True).
Proof.
  intros Hl s Hs; unfold py_list_replace.
  destruct (view s l) as [xs | xs];
    [exists w; split; [apply wincl_refl | split; [exact Hs | split; [auto | intros ? Ha; discriminate Ha]]] |].
  apply ok_put_D; auto.
Qed.

(** ** Reads *)

Lemma iter_in w h x xs : heap_clean w h -> inC (wc w) x -> py_iter h x = Ok xs -> Forall (inC (wc w)) xs.
Proof.
  intros Hh Hx Hi; destruct x; try discriminate; simpl in Hi.
  - injection Hi as <-; induction s as [|c r IH]; simpl; constructor; auto; reflexivity.
  - injection Hi as <-; apply inC_tuple; auto.
  - apply inC_ref in Hx as (b & Hb); specialize (Hh _ _ Hb).
    destruct (h loc) as [items | items]; injection Hi as <-; simpl in Hh; auto.
    rewrite Forall_forall in *; intros k Hk; apply in_map_iff in Hk as (kv & <- & Hkv).
    apply hashable_inC, (Hh _ Hkv).
Qed.

Lemma items_in w h x items : heap_clean w h -> inC (wc w) x -> py_items h x = Ok items ->
  Forall (fun kv => inC (wc w) (fst kv)) items.
Proof.
  intros Hh Hx Hi; destruct x; try discriminate; simpl in Hi.
  apply inC_ref in Hx as (b & Hb); specialize (Hh _ _ Hb).
  destruct (h loc) as [xs | xs]; [| discriminate]; injection Hi as <-; simpl in Hh.
  eapply Forall_impl; [| exact Hh]; intros kv [Hk _]; apply hashable_inC; auto.
Qed.

Lemma items_strict w h l items : heap_clean w h -> In (l, true) (wc w) -> py_items h (VRef l) = Ok items ->
  Forall (fun kv => inC (wc w) (fst kv) /\ inC (wc w) (snd kv)) items.
Proof.
  intros Hh Hl Hi; specialize (Hh _ _ Hl); simpl in Hi.
  destruct (h l) as [xs | xs]; [| discriminate]; injection Hi as <-; simpl in Hh.
  eapply Forall_impl; [| exact Hh]; intros kv [Hk Hv]; split; [apply hashable_inC; auto | auto].
Qed.

Lemma assoc_get_key items k v : assoc_get items k = Some v -> exists k', In (k', v) items /\ key_eq k' k = true.
Proof.
  induction items as [|[k' v'] r IH]; simpl; [discriminate|].
  destruct (key_eq k' k) eqn:E; [intros [= <-]; eauto | intros H; destruct (IH H) as (? & ? & ?); eauto].
Qed.

Lemma lookup_in w h d k items v : heap_clean w h -> rd w d k -> py_items h d = Ok items ->
  assoc_get items k = Some v -> inC (wc w) v.
Proof.
  intros Hh Hrd Hi Hg; destruct (assoc_get_key _ _ _ Hg) as (k' & Hin & Hk).
  destruct d; try discriminate.
  assert (Hc : exists b, In (loc, b) (wc w) /\ (b = true \/ loose_key k' = false)).
  { destruct Hrd as [(l & [= <-] & Hl) | (Hd & Hko)].
    - exists true; auto.
    - apply inC_ref in Hd as (b & Hb); exists b; split; auto. }
  destruct Hc as (b & Hb & Hbk); specialize (Hh _ _ Hb); simpl in Hi.
  destruct (h loc) as [xs | xs]; [| discriminate]; injection Hi as <-; simpl in Hh.
  rewrite Forall_forall in Hh; apply (Hh _ Hin); auto.
Qed.

Lemma getitem_in w h d k v : heap_clean w h -> rd w d k -> py_getitem h d k = Ok v -> inC (wc w) v.
Proof.
  intros Hh Hrd Hg; unfold py_getitem in Hg; destruct d; try discriminate.
  destruct (h loc) as [items | items] eqn:Hl; try discriminate.
  destruct (hashable k); try discriminate.
  destruct (assoc_get items k) eqn:Hg'; inversion Hg; subst.
  eapply lookup_in; eauto; simpl; rewrite Hl; reflexivity.
Qed.

Lemma get_in w h d k default v : heap_clean w h -> rd w d (VStr k) -> inC (wc w) default ->
  py_get h d k default = Ok v -> inC (wc w) v.
Proof.
  intros Hh Hrd Hdef Hg; unfold py_get in Hg; destruct d; try discriminate.
  destruct (h loc) as [items | items] eqn:Hl; try discriminate.
  destruct (assoc_get items (VStr k)) eqn:Hg'; injection Hg as <-; auto.
  eapply lookup_in; eauto; simpl; rewrite Hl; reflexivity.
Qed.

(** ** Loops *)

Lemma ok_mfor {A} w (xs : list A) body :
  (forall w' x, wincl w w' -> In x xs -> ok w' (body x) (fun _ _ => True)) ->
  ok w (mfor xs body) (fun _ _ => True).
Proof.
  revert w; induction xs as [|x r IH]; simpl; intros w Hb.
  - apply ok_ret; auto.
  - eapply ok_bind; [apply Hb; [apply wincl_refl | left; auto] | intros w1 _ Hw1 _].
    apply IH; intros w' y Hw' Hy; apply Hb; [eapply wincl_trans; eauto | right; auto].
Qed.

Lemma ok_mfold {A B} w (f : B -> A -> M B) (I : world -> B -> Prop) acc xs :
  I w acc ->
  (forall w' a x, wincl w w' -> In x xs -> I w' a -> ok w' (f a x) I) ->
  ok w (mfold f acc xs) I.
Proof.
  revert w acc; induction xs as [|x r IH]; simpl; intros w acc Ha Hf.
  - apply ok_ret; auto.
  - eapply ok_bind; [apply Hf; [apply wincl_refl | left; auto | exact Ha] | intros w1 a1 Hw1 Ha1].
    apply IH; auto; intros w' a y Hw' Hy HI; apply Hf; [eapply wincl_trans; eauto | right; auto | auto].
Qed.

Lemma ok_mmap {A B} w (f : A -> M B) (Q : world -> B -> Prop) xs :
  (forall w1 w2 b, wincl w1 w2 -> Q w1 b -> Q w2 b) ->
  (forall w' x, wincl w w' -> In x xs -> ok w' (f x) Q) ->
  ok w (mmap f xs) (fun w' ys => Forall (Q w') ys).
Proof.
  intros Hmono; revert w; induction xs as [|x r IH]; simpl; intros w Hf.
  - apply ok_ret; auto.
  - eapply ok_bind; [apply Hf; [apply wincl_refl | left; auto] | intros w1 y Hw1 Hy].
    eapply ok_bind; [apply IH; intros w' z Hw' Hz; apply Hf; [eapply wincl_trans; eauto | right; auto] |].
    intros w2 ys Hw2 Hys; apply ok_ret; constructor; eauto.
Qed.

(** ** Derived operations *)

Lemma ok_get_new w x k o : ok w (py_get_new x k o) (fun _ _ => True).
Proof.
  unfold py_get_new.
  eapply ok_bind; [apply ok_read_any | intros w1 ? _ _].
  eapply ok_bind; [apply ok_alloc_any | intros w2 ? _ _].
  apply ok_read_any.
Qed.

Lemma ok_iadd w d k x : owned w d -> ok w (py_iadd d k x) (fun _ _ => True).
Proof.
  intros Hd; unfold py_iadd.
  eapply ok_bind; [apply ok_read_any | intros w1 ? Hw1 _].
  eapply ok_bind; [apply ok_lift_any | intros w2 ? Hw2 _].
  apply ok_setitem; [| reflexivity]. eapply owned_mono; [| exact Hd]; eapply wincl_trans; eauto.
Qed.

Lemma ok_dd_iadd w d k x : owned w d -> ok w (dd_iadd d k x) (fun _ _ => True).
Proof.
  intros Hd; unfold dd_iadd.
  eapply ok_bind; [apply ok_lift_any | intros w1 ? Hw1 _].
  eapply ok_bind; [apply ok_read_any | intros w2 items Hw2 _].
  eapply ok_bind; [destruct (assoc_get items k); [apply ok_lift_any | apply ok_ret; exact I] | intros w3 ? Hw3 _].
  apply ok_setitem; [| reflexivity].
  eapply owned_mono; [| exact Hd]; eapply wincl_trans; [eapply wincl_trans; eauto | eauto].
Qed.

Lemma ok_dd_getitem w d k factory :
  owned w d -> rd w d k ->
  (forall w', wincl w w' -> ok w' factory (fun w'' v => inC (wc w'') v)) ->
  ok w (dd_getitem d k factory) (fun w' v => inC (wc w') v).
Proof.
  intros Hd Hr Hf; unfold dd_getitem.
  eapply ok_bind; [apply ok_lift_any | intros w1 ? Hw1 _].
  eapply ok_bind; [apply (ok_read w1 (fun h => py_items h d)
                            (fun w' items => forall v, assoc_get items k = Some v -> inC (wc w') v)) |].
  { intros h Hh items Hi v Hg; eapply lookup_in; eauto; eapply rd_mono; eauto. }
  intros w2 items Hw2 Hitems; destruct (assoc_get items k) eqn:Hg.
  - apply ok_ret; auto.
  - assert (Hw02 : wincl w w2) by (eapply wincl_trans; eauto).
    eapply ok_bind; [apply (Hf w2 Hw02) | intros w3 v Hw3 Hv].
    eapply ok_bind; [apply ok_setitem; [apply (owned_mono w w3); [eapply wincl_trans; eauto | exact Hd] | exact Hv] |].
    intros w4 ? Hw4 _; apply ok_ret.
    destruct Hw4 as [H4 _]; eapply inC_mono; eauto.
Qed.


(** [json.loads] only makes new objects. *)
Lemma ok_alloc_json j : forall w, ok w (alloc_json j) (fun _ _ => True).
Proof.
  induction j using json_ind2; intros w; simpl; try (apply ok_ret; exact I).
  - eapply ok_bind; [| intros; apply ok_alloc_any].
    instantiate (1 := fun _ _ => True).
    revert w; induction H as [|x r Hx Hr IH]; intros w.
    + apply ok_ret; exact I.
    + eapply ok_bind; [apply Hx | intros w1 ? _ _].
      eapply ok_bind; [apply IH | intros w2 ? _ _]. apply ok_ret; exact I.
  - eapply ok_bind; [| intros; apply ok_alloc_any].
    instantiate (1 := fun _ _ => True).
    revert w; induction H as [|[k x] r Hx Hr IH]; intros w.
    + apply ok_ret; exact I.
    + eapply ok_bind; [apply Hx | intros w1 ? _ _].
      eapply ok_bind; [apply IH | intros w2 ? _ _]. apply ok_ret; exact I.
Qed.

End FrameRules.

Lemma owned_D w l : In l (wd w) -> owned w (VRef l).
Proof. intros; right; eauto. Qed.

Lemma owned_C w l b : In (l, b) (wc w) -> owned w (VRef l).
Proof. intros; left; apply inC_ref; eauto. Qed.

Lemma owned_in w x : inC (wc w) x -> owned w x.
Proof. intros; left; auto. Qed.

(** Carries what is known of one world to a larger one. *)
Ltac mono_with Hw :=
  match type of Hw with
  | wincl ?w ?w' =>
      repeat match goal with
      | H : owned w ?x |- _ => apply (owned_mono w w' x Hw) in H
      | H : inC (wc w) ?x |- _ => apply (inC_mono (wc w) (wc w') x (proj1 Hw)) in H
      | H : rd w ?d ?k |- _ => apply (rd_mono w w' d k Hw) in H
      | H : In ?p (wc w) |- _ => apply (proj1 Hw) in H
      | H : In ?l (wd w) |- _ => apply (proj2 Hw) in H
      | H : Forall (inC (wc w)) ?xs |- _ => apply (Forall_inC_mono (wc w) (wc w') xs (proj1 Hw)) in H
      end
  end.

Ltac bind_with lem :=
  eapply ok_bind; [apply lem | let w := fresh "w" in let Hw := fresh "Hw" in
                               intros w ? Hw ?; mono_with Hw; clear Hw; cbv beta].

Ltac bind_D :=
  eapply ok_bind; [apply ok_alloc_D | let w := fresh "w" in let Hw := fresh "Hw" in
                   let l := fresh "l" in let Hl := fresh "Hl" in
                   intros w ? Hw (l & -> & Hl); mono_with Hw; clear Hw; cbv beta].

Lemma ok_bind_any {A B} n0 w (m : M A) (k : A -> M B) Q :
  ok n0 w m (fun _ _ => True) -> (forall w1 a, wincl w w1 -> ok n0 w1 (k a) Q) -> ok n0 w (mbind m k) Q.
Proof. intros Hm Hk; eapply ok_bind; [exact Hm | intros; apply Hk; auto]. Qed.

Lemma ok_mmap_any {A B} n0 w (f : A -> M B) xs :
  (forall w' x, wincl w w' -> In x xs -> ok n0 w' (f x) (fun _ _ => True)) ->
  ok n0 w (mmap f xs) (fun _ _ => True).
Proof.
  intros Hf; eapply ok_any, (ok_mmap n0 w f (fun _ _ => True)); auto.
Qed.

Lemma ok_bind_ret {A B} n0 w (a : A) (k : A -> M B) Q :
  ok n0 w (k a) Q -> ok n0 w (mbind (mret a) k) Q.
Proof. intros H s Hs; apply (H s Hs). Qed.

Lemma ok_bind_assoc {A B C} n0 w (m : M A) (f : A -> M B) (k : B -> M C) Q :
  ok n0 w (mbind m (fun x => mbind (f x) k)) Q -> ok n0 w (mbind (mbind m f) k) Q.
Proof.
  intros H s Hs; specialize (H s Hs); unfold mbind in *.
  destruct (m s) as [s1 r1]; destruct r1 as [a|e]; auto.
Qed.

Lemma D_ref w l : In l (wd w) -> exists l', VRef l = VRef l' /\ In l' (wd w).
Proof. eauto. Qed.

Lemma inC_of_C C l b : In (l, b) C -> inC C (VRef l).
Proof. intros; apply inC_ref; eauto. Qed.

Lemma key_ok_in s l : str_in s l = true -> ~ In "title" l -> ~ In "distance" l -> key_ok (VStr s).
Proof.
  unfold str_in; intros Hs H1 H2; apply existsb_exists in Hs as (t & Ht & He).
  apply String.eqb_eq in He; subst.
  apply key_ok_str; apply String.eqb_neq; intros ->; auto.
Qed.

Lemma key_ok_In s l : In s l -> ~ In "title" l -> ~ In "distance" l -> key_ok (VStr s).
Proof.
  intros Hs H1 H2; apply key_ok_str; apply String.eqb_neq; intros ->; auto.
Qed.

Ltac clean_tac :=
  simpl;
  first
  [ repeat (apply Forall_cons;
            [split; [reflexivity
                    | intros ?Hk; first [solve [eauto with frame]
                                        | destruct Hk as [Hk|Hk]; discriminate Hk]] |]);
    apply Forall_nil
  | repeat (apply Forall_cons; [solve [eauto with frame] |]); apply Forall_nil
  | assumption ].

Ltac bind_C b :=
  eapply ok_bind; [apply (ok_alloc_C _ _ b); clean_tac
                  | let w := fresh "w" in let Hw := fresh "Hw" in
                    let l := fresh "l" in let Hl := fresh "Hl" in
                    intros w ? Hw (l & -> & Hl); mono_with Hw; clear Hw; cbv beta].

(** A read of [d[k]] chains that give back values in [C]. *)
Ltac read_in_tac :=
  let h := fresh "h" in let Hh := fresh "Hh" in let a := fresh "a" in let Ha := fresh "Ha" in
  intros h Hh a Ha; cbv beta in Ha;
  match type of Hh with
  | heap_clean ?w _ =>
      repeat match goal with
      | H : bind ?m _ = Ok _ |- _ =>
          let E := fresh "E" in destruct m eqn:E; [simpl in H | discriminate H]
      | E : py_getitem h ?x ?k = Ok ?y |- _ =>
          let Hy := fresh "Hy" in
          assert (Hy : inC (wc w) y)
            by (refine (getitem_in _ _ _ _ _ Hh _ E); solve [eauto with frame]);
          clear E
      end
  end; solve [eauto with frame].

Lemma rd_strict w l k : In (l, true) (wc w) -> rd w (VRef l) k.
Proof. intros; left; eauto. Qed.

Lemma rd_key w d k : inC (wc w) d -> key_ok k -> rd w d k.
Proof. intros; right; auto. Qed.

(** One step on the primitives; [alloc_tac] decides how a new object is
    tracked. *)
Ltac step_with alloc_tac :=
  match goal with
  | |- ok _ _ (mbind (alloc _) _) _ => alloc_tac
  | |- ok _ _ (mbind (dd_getitem _ _ _) _) _ =>
      eapply ok_bind;
      [apply ok_dd_getitem; [solve [eauto with frame] | solve [eauto with frame]
                            | intros; solve [eauto with frame]]
      | let w := fresh "w" in let Hw := fresh "Hw" in let Hp := fresh "Hp" in
        intros w ? Hw Hp; cbv beta in Hp; mono_with Hw; clear Hw; cbv beta]
  | |- ok _ _ (mbind (mret _) _) _ => apply ok_bind_ret
  | |- ok _ _ (mbind (mbind _ _) _) _ => apply ok_bind_assoc
  | |- ok _ _ (@mbind pval _ (if ?b then _ else _) _) _ => destruct b eqn:?
  | |- ok _ _ (@mbind pval _ (mread _) _) _ =>
      eapply ok_bind;
      [apply (ok_read _ _ _ (fun w' v => inC (wc w') v)); read_in_tac
      | let w := fresh "w" in let Hw := fresh "Hw" in let Hp := fresh "Hp" in
        intros w ? Hw Hp; cbv beta in Hp; mono_with Hw; clear Hw; cbv beta]
  | |- ok _ _ (mbind ?m _) _ =>
      eapply ok_bind;
      [solve [eauto with frame_in]
      | let w := fresh "w" in let Hw := fresh "Hw" in let Hp := fresh "Hp" in
        intros w ? Hw Hp; cbv beta in Hp; try (destruct Hp as (? & -> & ?));
        mono_with Hw; clear Hw; cbv beta]
  | |- ok _ _ (mbind _ _) _ =>
      eapply ok_bind_any; [| let w := fresh "w" in let Hw := fresh "Hw" in
                             intros w ? Hw; mono_with Hw; clear Hw; cbv beta]
  | |- ok _ _ (mread _) _ => apply ok_read_any
  | |- ok _ _ (mlift _) _ => apply ok_lift_any
  | |- ok _ _ (mret _) _ => apply ok_ret; try exact I; try solve [eauto with frame]
  | |- ok _ _ (alloc _) _ => apply ok_alloc_any
  | |- ok _ _ (py_get_new _ _ _) _ => apply ok_get_new
  | |- ok _ _ (if ?b then _ else _) _ => destruct b eqn:?
  | |- ok _ _ (match ?x with _ => _ end) _ => destruct x
  | |- ok _ _ (mmap _ _) (fun _ _ => True) =>
      apply ok_mmap_any; let w := fresh "w" in let Hw := fresh "Hw" in
                         intros w ? Hw ?; mono_with Hw; clear Hw; cbv beta
  | |- ok _ _ (mfor _ _) _ =>
      apply ok_mfor; let w := fresh "w" in let Hw := fresh "Hw" in
                     intros w ? Hw ?; mono_with Hw; clear Hw; cbv beta
  | |- ok _ _ (mfold _ _ _) (fun _ _ => True) =>
      apply ok_mfold; [exact I | let w := fresh "w" in let Hw := fresh "Hw" in
                                 intros w ? ? Hw ? ?; mono_with Hw; clear Hw; cbv beta]
  | |- ok _ _ _ _ => solve [eauto 4 with frame]
  end.

Ltac go := repeat (step_with bind_D).

(** Up to the next allocation. *)
Ltac go' := repeat (step_with ltac:(fail 1)).

Ltac gD := bind_D; go'.
Ltac gC b := bind_C b; go'.


Create HintDb frame discriminated.
Create HintDb frame_in discriminated.
#[export] Hint Resolve owned_D owned_C owned_in ok_iadd ok_dd_iadd ok_setitem ok_append
  ok_setitem_D ok_append_D ok_list_replace_D ok_get_new ok_alloc_json ok_read_any ok_lift_any
  ok_alloc_any : frame.
#[export] Hint Extern 1 (inC _ _) => reflexivity : frame.
#[export] Hint Resolve rd_strict rd_key : frame.
#[export] Hint Resolve inC_of_C : frame.
#[export] Hint Resolve D_ref ok_alloc_D : frame.
#[export] Hint Extern 2 (ok _ _ (alloc _) (fun _ v => inC _ v)) =>
  first [apply (ok_alloc_in _ _ true); clean_tac | apply (ok_alloc_in _ _ false); clean_tac] : frame.
#[export] Hint Extern 2 (ok _ _ (alloc _) (fun _ v => inC _ v)) =>
  first [apply (ok_alloc_in _ _ true); clean_tac | apply (ok_alloc_in _ _ false); clean_tac] : frame_in.
#[export] Hint Extern 1 (key_ok (VStr ?s)) =>
  match goal with
  | H : negb (str_in s ?l) = false |- _ =>
      apply (key_ok_in s l); [apply negb_false_iff; exact H | simpl; intuition discriminate
                             | simpl; intuition discriminate]
  | H : In s ?l |- _ =>
      apply (key_ok_In s l); [exact H | simpl; intuition discriminate | simpl; intuition discriminate]
  | H : str_in s ?l = true |- _ =>
      apply (key_ok_in s l); [exact H | simpl; intuition discriminate | simpl; intuition discriminate]
  end : frame.
#[export] Hint Extern 1 (key_ok (VStr _)) => apply key_ok_str; reflexivity : frame.

Section CoreFrame.
Variable n0 : nat.
Local Abbreviation ok := (ok n0).

(** ** [parse_workout_zones] *)

Lemma ok_easy_only w workout : ok w (easy_only_h workout) (fun _ _ => True).
Proof. unfold easy_only_h; go. Qed.

Lemma ok_step_distance_raw w step ts : ok w (_step_distance_raw_h step ts) (fun _ _ => True).
Proof.
  unfold _step_distance_raw_h; go.
Qed.
#[local] Hint Resolve ok_easy_only ok_step_distance_raw : frame.

Lemma ok_zones_step w py ts th zones bt rc step :
  owned w zones -> ok w (zones_step_h py ts th zones bt rc step) (fun _ _ => True).
Proof.
  intros Hz; unfold zones_step_h; go.
Qed.
#[local] Hint Resolve ok_zones_step : frame.

Lemma ok_zones_block w py ts th zones block :
  owned w zones -> ok w (zones_block_h py ts th zones block) (fun _ _ => True).
Proof. intros Hz; unfold zones_block_h; go. Qed.
#[local] Hint Resolve ok_zones_block : frame.

Lemma ok_parse_workout_zones w py workout ts th :
  ok w (parse_workout_zones_h py workout ts th) (fun _ _ => True).
Proof.
  unfold parse_workout_zones_h; go.
Qed.
#[local] Hint Resolve ok_parse_workout_zones : frame.

(** ** [analyze_zones] *)

Lemma ok_py_sort_by_day w py l : In l (wd w) -> ok w (py_sort_by_day py (VRef l)) (fun _ _ => True).
Proof. intros Hl; unfold py_sort_by_day; go. Qed.
#[local] Hint Resolve ok_py_sort_by_day : frame.

Lemma ok_period_factory w : ok w period_factory (fun w' v => inC (wc w') v).
Proof. apply (ok_alloc_in _ _ true); simpl; repeat constructor. Qed.
#[local] Hint Resolve ok_period_factory : frame frame_in.

Lemma ok_zones_workout w py th gb zt ss l total workout :
  owned w zt -> owned w ss -> In (l, true) (wc w) ->
  ok w (zones_workout py th gb zt ss (VRef l) total workout) (fun _ _ => True).
Proof. intros Hzt Hss Hl; unfold zones_workout; go. Qed.
#[local] Hint Resolve ok_zones_workout : frame.

Lemma ok_analyze_zones w py workouts sport gb th :
  ok w (analyze_zones py workouts sport gb th) (fun _ _ => True).
Proof.
  unfold analyze_zones; go'. bind_D. go'. bind_D. go'. bind_D. go'. bind_C true. go.
Qed.

(** ** [analyze_patterns] *)

Lemma ok_classification_type w py workout : ok w (_classification_type py workout) (fun _ _ => True).
Proof. unfold _classification_type; go. Qed.
#[local] Hint Resolve ok_classification_type : frame.

Lemma ok_day_intensity_of w bd day : ok w (day_intensity_of bd day) (fun _ _ => True).
Proof. unfold day_intensity_of; go. Qed.
#[local] Hint Resolve ok_day_intensity_of : frame.

Lemma ok_patterns_workout w py lr lb ad workout :
  In (lr, true) (wc w) -> In (lb, true) (wc w) -> owned w ad ->
  ok w (patterns_workout py (VRef lr) (VRef lb) ad workout) (fun _ _ => True).
Proof. intros Hr Hb Ha; unfold patterns_workout; go. Qed.
#[local] Hint Resolve ok_patterns_workout : frame.

Lemma ok_combos_day w py rbd bbd comb lda day :
  owned w comb -> In (lda, true) (wc w) ->
  ok w (combos_day py rbd bbd comb (VRef lda) day) (fun _ _ => True).
Proof. intros Hc Hd; unfold combos_day; go. Qed.
#[local] Hint Resolve ok_combos_day : frame.

Lemma ok_weekly_factory w : ok w weekly_factory (fun w' v => inC (wc w') v).
Proof. apply (ok_alloc_in _ _ true); simpl; repeat constructor. Qed.
#[local] Hint Resolve ok_weekly_factory : frame frame_in.

Lemma ok_weekly_inc w lw wk field : In (lw, true) (wc w) ->
  ok w (weekly_inc (VRef lw) wk field) (fun _ _ => True).
Proof. intros Hw; unfold weekly_inc; go. Qed.
#[local] Hint Resolve ok_weekly_inc : frame.

Lemma ok_weekly_day w py rbd bbd lw day : In (lw, true) (wc w) ->
  ok w (weekly_day py rbd bbd (VRef lw) day) (fun _ _ => True).
Proof. intros Hw; unfold weekly_day; go. Qed.
#[local] Hint Resolve ok_weekly_day : frame.

Lemma ok_risk_loop keys : forall w lw lrf, In (lw, true) (wc w) -> In lrf (wd w) ->
  ok w (risk_loop (VRef lw) (VRef lrf) keys) (fun _ _ => True).
Proof.
  induction keys as [|k rest IH]; intros w lw lrf Hw Hrf; simpl; [go |].
  destruct rest as [|k2 rest']; [go |].
  go; apply IH; auto.
Qed.
#[local] Hint Resolve ok_risk_loop : frame.

Lemma ok_analyze_patterns w py workouts ms ir ca :
  ok w (analyze_patterns py workouts ms ir ca) (fun _ _ => True).
Proof.
  unfold analyze_patterns; go'.
  gD. gC true. gC true. gD. gD. gC true. gC true. gD. go.
Qed.

(** ** [build_weekly_analysis] *)



Lemma ok_sport_factory w : ok w sport_factory (fun w' v => inC (wc w') v).
Proof. unfold sport_factory. gC true. gC true. Qed.
#[local] Hint Resolve ok_sport_factory : frame frame_in.

Lemma ok_week_factory w : ok w week_factory (fun w' v => inC (wc w') v).
Proof. unfold week_factory. go'. gC true. Qed.
#[local] Hint Resolve ok_week_factory : frame frame_in.

Lemma ok_weekly_workout w py sf l workout : In (l, true) (wc w) ->
  ok w (weekly_workout py sf (VRef l) workout) (fun _ _ => True).
Proof. intros Hl; unfold weekly_workout. go'. gC false. Qed.
#[local] Hint Resolve ok_weekly_workout : frame.

Lemma ok_convert_by_type w py row sp : inC (wc w) row -> key_ok (VStr sp) ->
  ok w (convert_by_type py row sp) (fun _ _ => True).
Proof. intros Hr Hs; unfold convert_by_type. go'. gC true. all: gC false. Qed.
#[local] Hint Resolve ok_convert_by_type : frame.

Lemma ok_weekly_row w py prev row : inC (wc w) row ->
  ok w (weekly_row py prev row) (fun _ _ => True).
Proof.
  intros Hr; unfold weekly_row. go'.
Qed.
#[local] Hint Resolve ok_weekly_row : frame.

Lemma ok_build_weekly_analysis w py workouts sf :
  ok w (build_weekly_analysis py workouts sf) (fun _ _ => True).
Proof.
  unfold build_weekly_analysis. bind_C true.
  eapply ok_bind_any; [apply ok_read_any | intros w1 ? Hw; mono_with Hw; clear Hw].
  eapply ok_bind_any;
    [apply ok_mfor; intros w2 x Hw _; mono_with Hw; eauto with frame
    | intros w2 ? Hw; mono_with Hw; clear Hw].
  eapply ok_bind_any; [apply ok_read_any | intros w3 ? Hw; mono_with Hw; clear Hw].
  eapply ok_bind;
    [apply (ok_mmap _ _ _ (fun w' v => inC (wc w') v));
     [intros u1 u2 v Hw Hv; eapply inC_mono; [apply Hw | exact Hv]
     | intros u x Hw _; mono_with Hw;
       apply ok_dd_getitem; [solve [eauto with frame] | solve [eauto with frame] | intros; solve [eauto with frame]]]
    | intros w4 rows Hw Hrows0;
      assert (Hrows : Forall (inC (wc w4)) rows) by exact Hrows0; clear Hrows0;
      mono_with Hw; clear Hw].
  bind_C true.
  eapply ok_bind;
    [apply (ok_read _ _ _ (fun w' xs => Forall (inC (wc w')) xs));
     intros h Hh xs Hxs; eapply iter_in; [exact Hh | eauto with frame | exact Hxs]
    | intros u5 oitems Hw Hoi; cbv beta in Hoi; mono_with Hw; clear Hw].
  eapply ok_bind_any;
    [apply ok_mfold; [exact I | intros u6 acc x Hw Hx _; apply ok_weekly_row;
                              rewrite Forall_forall in Hoi; eapply inC_mono; [apply Hw | auto]]
    | intros u7 ? Hw].
  go.
Qed.

(** ** [simple_to_tp_structure] *)

Lemma ok_target_list w t : ok w (target_list t) (fun _ _ => True).
Proof. unfold target_list; go. Qed.
#[local] Hint Resolve ok_target_list : frame.

Lemma ok_append_rampup w lb ws : In lb (wd w) -> ok w (append_rampup (VRef lb) ws) (fun _ _ => True).
Proof. intros Hb; unfold append_rampup; go. Qed.
#[local] Hint Resolve ok_append_rampup : frame.

Lemma ok_flush_warmup w lb lw : In lb (wd w) -> In lw (wd w) ->
  ok w (flush_warmup (VRef lb) (VRef lw)) (fun w' v => exists l, v = VRef l /\ In l (wd w')).
Proof.
  intros Hb Hw; unfold flush_warmup; go'.
Qed.
#[local] Hint Resolve ok_flush_warmup : frame frame_in.

Lemma ok_one_step_block w lb step dn ic : In lb (wd w) ->
  ok w (one_step_block (VRef lb) step dn ic) (fun _ _ => True).
Proof. intros Hb; unfold one_step_block; go. Qed.
#[local] Hint Resolve ok_one_step_block : frame.

Lemma ok_on_targets w t : ok w (on_targets_h t) (fun _ _ => True).
Proof. unfold on_targets_h; go. Qed.
#[local] Hint Resolve ok_on_targets : frame.

Lemma ok_compile_step w lb lw step : In lb (wd w) -> In lw (wd w) ->
  ok w (compile_step_h (VRef lb) (VRef lw) step) (fun w' v => exists l, v = VRef l /\ In l (wd w')).
Proof. intros Hb Hw; unfold compile_step_h; go. Qed.

Lemma ok_simple_to_tp_structure w steps im :
  ok w (simple_to_tp_structure_h steps im) (fun _ _ => True).
Proof.
  unfold simple_to_tp_structure_h. bind_D. bind_D.
  eapply ok_bind_any; [apply ok_read_any | intros u1 ? Hw; mono_with Hw; clear Hw].
  eapply ok_bind;
    [apply (ok_mfold _ _ _ (fun w' v => exists l, v = VRef l /\ In l (wd w')));
     [eauto | intros u acc x Hw _ (la & -> & Ha); mono_with Hw; apply ok_compile_step; auto]
    | intros u2 ? Hw (lw & -> & Hlw); mono_with Hw; clear Hw].
  go.
Qed.


(** ** [calc_time_and_distance] *)

Lemma ok_calc_time_and_distance w py steps ts :
  ok w (calc_time_and_distance_h py steps ts) (fun _ _ => True).
Proof. unfold calc_time_and_distance_h; go. Qed.

(** ** [classify_with_metadata] *)

Lemma ok_parse_structure_value w py raw : ok w (_parse_structure_value_h py raw) (fun _ _ => True).
Proof. unfold _parse_structure_value_h; go. Qed.
#[local] Hint Resolve ok_parse_structure_value : frame.

Lemma ok_normalize_blocks w raw : ok w (_normalize_blocks_h raw) (fun _ _ => True).
Proof. unfold _normalize_blocks_h; go. Qed.
#[local] Hint Resolve ok_normalize_blocks : frame.

Lemma ok_extract_loop py wk keys : forall w metric,
  ok w (extract_loop_h py wk keys metric) (fun _ _ => True).
Proof. induction keys as [|k rest IH]; intros w metric; simpl; go. Qed.
#[local] Hint Resolve ok_extract_loop : frame.

Lemma ok_extract_structure w py wk : ok w (_extract_structure_h py wk) (fun _ _ => True).
Proof. unfold _extract_structure_h; go. Qed.
#[local] Hint Resolve ok_extract_structure : frame.

Lemma ok_classify_step w py zl zc bt rc st step : owned w zl -> owned w zc ->
  ok w (classify_step_h py zl zc bt rc st step) (fun _ _ => True).
Proof. intros Hl Hc; unfold classify_step_h; go. Qed.
#[local] Hint Resolve ok_classify_step : frame.

Lemma ok_classify_block w py zl zc st block : owned w zl -> owned w zc ->
  ok w (classify_block_h py zl zc st block) (fun _ _ => True).
Proof. intros Hl Hc; unfold classify_block_h; go. Qed.
#[local] Hint Resolve ok_classify_block : frame.

Lemma ok_classify_from_structure w py wk : ok w (_classify_from_structure_h py wk) (fun _ _ => True).
Proof. unfold _classify_from_structure_h; go. Qed.
#[local] Hint Resolve ok_classify_from_structure : frame.

Lemma ok_classify_with_source w py wk rules : ok w (_classify_with_source_h py wk rules) (fun _ _ => True).
Proof. unfold _classify_with_source_h; go. Qed.
#[local] Hint Resolve ok_classify_with_source : frame.

Lemma ok_classify_with_metadata w py wk method rules :
  ok w (classify_with_metadata_h py wk method rules) (fun _ _ => True).
Proof. unfold classify_with_metadata_h; go. Qed.

End CoreFrame.

Lemma ok_keeps {A} (m : M A) s :
  ok (st_next s) (mkWorld [] []) m (fun _ _ => True) -> keeps_store m s.
Proof.
  intros H l Hl.
  assert (Hi : inv (st_next s) (mkWorld [] []) s).
  { refine (conj (le_n _) (conj _ (conj _ (conj _ _)))); unfold heap_clean; simpl;
    intros; match goal with H : False |- _ => destruct H end. }
  specialize (H s Hi); destruct (m s) as [s' r]; destruct H as (w' & _ & _ & Hv & _).
  apply Hv; exact Hl.
Qed.

(** C9: none of the core functions writes into any object that existed
    before the call (the input workouts, their fields, and every list or
    dict reachable from them): parse_workout_zones, analyze_zones,
    analyze_patterns, build_weekly_analysis, simple_to_tp_structure,
    calc_time_and_distance and classify_with_metadata only allocate fresh
    objects and write into those. *)
Theorem core_functions_keep_input (py : pylib) (s : store) :
  (forall workout ts th, keeps_store (parse_workout_zones_h py workout ts th) s) /\
  (forall workouts sport gb th, keeps_store (analyze_zones py workouts sport gb th) s) /\
  (forall workouts ms ir ca, keeps_store (analyze_patterns py workouts ms ir ca) s) /\
  (forall workouts sf, keeps_store (build_weekly_analysis py workouts sf) s) /\
  (forall steps im, keeps_store (simple_to_tp_structure_h steps im) s) /\
  (forall steps ts, keeps_store (calc_time_and_distance_h py steps ts) s) /\
  (forall w method rules, keeps_store (classify_with_metadata_h py w method rules) s).
Proof.
  refine (conj _ (conj _ (conj _ (conj _ (conj _ (conj _ _)))))); intros; apply ok_keeps.
  - apply ok_parse_workout_zones.
  - apply ok_analyze_zones.
  - apply ok_analyze_patterns.
  - apply ok_build_weekly_analysis.
  - apply ok_simple_to_tp_structure.
  - apply ok_calc_time_and_distance.
  - apply ok_classify_with_metadata.
Qed.

(** A write into an object of the store does show up in [keeps_store]. *)
Example keeps_store_sees_writes :
  ~ keeps_store (py_setitem (VRef 0) (VStr "a") VNone) (mkStore (fun _ => ODict []) 1).
Proof. intros H; specialize (H 0%nat (le_n 1)); vm_compute in H; discriminate H. Qed.
